(** * Report generator: derived metrics, chart geometry and pagination

    Shallow embedding of [generateReport] (api/_lib/reportGenerator.js).

    - Numbers.  JavaScript numbers are IEEE-754 binary64 values, embedded
      as Rocq's primitive floats, so that [NaN], signed zeros and rounding
      behave as they do in the program.  An array length is a natural
      number; it is compared as such and enters arithmetic as [of_nat].
    - Strings are sequences of UTF-16 code units, so [length] and [slice]
      count what the program counts.
    - Input.  A follower sample holds a date string and a Number; a post
      may lack its title, likes or comments ([undefined]), the cases the
      program itself provides for or trips on.
    - The document.  [doc] is the record [Doc]: the text cursor, the calls
      made since the program last opened a page and the pages it has left
      behind.  The program is a chain of state transformers on it, which
      records the calls in the order the program makes them.
    - Failures.  A run throws in two ways ([Result]).  Reading
      [title.length] of a missing title throws a TypeError; and PDFKit
      throws its [unsupported number] error when a path call ([moveTo],
      [lineTo], [rect], ...) is handed a number that is not strictly
      between -1e21 and 1e21, [NaN] and the infinities among them: the
      coordinates of the two charts are computed from the metrics.
      [generateReport] returns the document when neither happens.
    - Continuation pages.  A [text] call that runs past the bottom of the
      page goes on on a page PDFKit opens by itself, on which the
      [pageAdded] handler runs as on any other.  Such a page is recorded
      where it happens, inside the page of the program that the call
      belongs to ([OpContinueOnNewPage]): a [Document] lists the pages
      the program opens (the first one and one per [addPage]), and its
      PDF has one page for each of them and one for each continuation
      page ([pdfPages]).
    - The host.  Number and date formatting, the logo file, the page size
      and PDFKit's text measurement and layout (where a [text] or
      [moveDown] call leaves the cursor, and how many continuation pages a
      [text] call opens) are parameters ([Host]). *)

From Stdlib Require Import ZArith List String Ascii Bool Lia.
From Stdlib Require Import Floats.
From Stdlib Require Uint63.
From Stdlib Require Import Permutation.
Import ListNotations.

Set Implicit Arguments.
#[local] Set Warnings "-inexact-float".

(** ** A fragment of JavaScript values *)

Module JS.

Local Open Scope float_scope.

Definition number := float.

(** The values a metrics field can hold here: a Number, or [undefined]
    (a missing property, or an out-of-range array read). *)
Inductive value : Type :=
| Undefined
| Num (n : number).

(** A string is its sequence of UTF-16 code units. *)
Definition code_unit := N.
Definition jsstring := list code_unit.

(** An ASCII literal of the source. *)
Definition lit (s : string) : jsstring :=
  List.map N_of_ascii (list_ascii_of_string s).

Definition ellipsis : jsstring := [8230%N].   (* U+2026 *)
Definition bullet : jsstring := [8226%N].     (* U+2022 *)
Definition en_dash : jsstring := [8211%N].    (* U+2013 *)

Definition jsstring_eqb (a b : jsstring) : bool :=
  if list_eq_dec N.eq_dec a b then true else false.

(** [ToNumber] and [ToBoolean] of the language. *)
Definition ToNumber (v : value) : number :=
  match v with
  | Undefined => nan
  | Num n => n
  end.

Definition truthy (n : number) : bool :=
  negb ((n =? 0) || is_nan n).

Definition ToBoolean (v : value) : bool :=
  match v with
  | Undefined => false
  | Num n => truthy n
  end.

(** [v || d] for a numeric default [d], read as a number. *)
Definition or_default (v : value) (d : number) : number :=
  if ToBoolean v then ToNumber v else d.

(** [n || d] on numbers. *)
Definition num_or (n d : number) : number :=
  if truthy n then n else d.

(** The Number of an array length or index (exact below 2^53, far above
    any array length). *)
Definition of_nat (n : nat) : number :=
  of_uint63 (Uint63.of_Z (Z.of_nat n)).

(** [arr[0]] and [arr[arr.length - 1]]: [undefined] on the empty array. *)
Definition first (l : list number) : value :=
  match l with
  | [] => Undefined
  | c :: _ => Num c
  end.

Definition final (l : list number) : value :=
  List.last (List.map Num l) Undefined.

(** [Math.min] / [Math.max] of two arguments: [NaN] is contagious and
    [-0] is below [+0]. *)
Definition is_neg_zero (n : number) : bool :=
  (n =? 0) && (1 / n <? 0).

Definition min2 (a b : number) : number :=
  if is_nan a || is_nan b then nan
  else if b <? a then b
  else if a <? b then a
  else if is_neg_zero b then b else a.

Definition max2 (a b : number) : number :=
  if is_nan a || is_nan b then nan
  else if a <? b then b
  else if b <? a then a
  else if is_neg_zero a then b else a.

(** [Math.min(...l)] and [Math.max(...l)]. *)
Definition Math_min (l : list number) : number :=
  List.fold_left min2 l infinity.

Definition Math_max (l : list number) : number :=
  List.fold_left max2 l neg_infinity.

(** [Math.round]: the nearest integer, ties towards +infinity. *)
Definition two52 : number := 4503599627370496.

Definition Math_floor (n : number) : number :=
  if is_nan n then nan
  else if two52 <=? abs n then n
  else if n =? 0 then n
  else if 0 <? n then
    let t := (n + two52) - two52 in
    if n <? t then t - 1 else t
  else
    let a := - n in
    let t := (a + two52) - two52 in
    - (if t <? a then t + 1 else t).

Definition Math_round (n : number) : number :=
  if is_nan n then nan
  else if two52 <=? abs n then n
  else if n =? 0 then n
  else
    let f := Math_floor n in
    let r := if 0.5 <=? n - f then f + 1 else f in
    if (r =? 0) && (n <? 0) then neg_zero else r.

(** [s.padEnd(k)] with the default space filler. *)
Definition padEnd (s : jsstring) (k : nat) : jsstring :=
  s ++ List.repeat 32%N (k - List.length s).

(** [s.slice(0, k)]. *)
Definition slice0 (s : jsstring) (k : nat) : jsstring :=
  List.firstn k s.

End JS.

Import JS.
Local Open Scope float_scope.

(** ** The metrics bundle *)

(** [metrics.followerHistory]: Array of { date: ISOString, count: Number }. *)
Record FollowerSample : Type := mkSample {
  date : jsstring;
  count : number
}.

(** [metrics.topPosts]: Array of { title: String, likes: Number,
    comments: Number }.  The program guards [likes] and [comments] with
    [|| 0] and reads [title.length], so each field may be missing. *)
Record PostSample : Type := mkPost {
  title : option jsstring;
  likes : value;
  comments : value
}.

Record MetricsBundle : Type := mkMetrics {
  followerHistory : list FollowerSample;
  topPosts : list PostSample
}.

Record ReportOptions : Type := mkOptions {
  since : option jsstring;
  until : option jsstring
}.

(** ** Derived statistics (source lines 18-50) *)

Record DerivedStats : Type := mkStats {
  startCount : value;
  endCount : value;
  growth : number;
  totalNewFollowers : number;
  dailyGrowth : number;
  totalLikes : number;
  totalComments : number;
  avgLikes : number;
  avgComments : number;
  engagementRate : number;
  commentLikeRatio : number;
  numDays : number;
  growthSlope : number;
  forecast30 : number;
  forecast90 : number
}.

Definition counts_of (m : MetricsBundle) : list number :=
  List.map count (followerHistory m).

Definition sumLikes (posts : list PostSample) : number :=
  List.fold_left (fun sum p => sum + or_default (likes p) 0) posts 0.

Definition sumComments (posts : list PostSample) : number :=
  List.fold_left (fun sum p => sum + or_default (comments p) 0) posts 0.

(** A comparison of an array length with a literal ([length > 1],
    [length > 0], [length ? .. : ..]) is decided on the length itself;
    where the length enters an arithmetic expression it is the Number
    [of_nat length]. *)
Definition derivedStats (m : MetricsBundle) : DerivedStats :=
  let counts := counts_of m in
  let posts := topPosts m in
  let len := List.length counts in
  let nposts := List.length posts in
  let startCount := first counts in
  let endCount := final counts in
  let growth :=
    if ToBoolean startCount
    then ((ToNumber endCount - ToNumber startCount) / ToNumber startCount) * 100
    else 0 in
  let totalNewFollowers := ToNumber endCount - ToNumber startCount in
  let dailyGrowth :=
    if (1 <? len)%nat then totalNewFollowers / (of_nat len - 1) else 0 in
  let totalLikes := sumLikes posts in
  let totalComments := sumComments posts in
  let avgLikes := if (0 <? nposts)%nat then totalLikes / of_nat nposts else 0 in
  let avgComments := if (0 <? nposts)%nat then totalComments / of_nat nposts else 0 in
  let engagementRate :=
    if (0 <? ToNumber endCount) && (0 <? nposts)%nat
    then ((totalLikes + totalComments) / (of_nat nposts * ToNumber endCount)) * 100
    else 0 in
  let commentLikeRatio :=
    if 0 <? totalLikes then (totalComments / totalLikes) * 100 else 0 in
  let numDays := if (1 <? len)%nat then of_nat len - 1 else 1 in
  let growthSlope :=
    if 0 <? numDays
    then (ToNumber endCount - ToNumber startCount) / numDays
    else 0 in
  let forecast30 := Math_round (ToNumber endCount + growthSlope * 30) in
  let forecast90 := Math_round (ToNumber endCount + growthSlope * 90) in
  mkStats startCount endCount growth totalNewFollowers dailyGrowth
          totalLikes totalComments avgLikes avgComments engagementRate
          commentLikeRatio numDays growthSlope forecast30 forecast90.

(** ** The document under construction *)

(** Options of [doc.text]. *)
Record TextOptions : Type := mkTextOptions {
  opt_width : option number;
  opt_align : option jsstring;
  opt_underline : bool
}.

Definition no_options : TextOptions := mkTextOptions None None false.

(** The PDFKit calls the program issues, with their arguments, and the
    opening of a continuation page by PDFKit itself. *)
Inductive Op : Type :=
| OpFont (name : jsstring)
| OpFontSize (n : number)
| OpFillColor (c : jsstring)
| OpFillOpacity (n : number)
| OpStrokeColor (c : jsstring)
| OpLineWidth (n : number)
| OpText (s : jsstring) (pos : option (number * number)) (o : TextOptions)
| OpMoveDown (n : number)
| OpMoveTo (x y : number)
| OpLineTo (x y : number)
| OpStroke
| OpRect (x y w h : number)
| OpRoundedRect (x y w h r : number)
| OpEllipse (cx cy rx ry : number)
| OpFill (c : option jsstring)
| OpFillGradient (x1 y1 x2 y2 : number) (stops : list (number * jsstring))
| OpImage (x y w : number)
| OpSave
| OpRestore
| OpContinueOnNewPage.

(** PDFKit writes a coordinate into the page only when it lies strictly
    between -1e21 and 1e21; for any other Number, [NaN] and the
    infinities among them, the call throws
    [Error('unsupported number: ' + n)]. *)
Definition supported (n : number) : bool :=
  (-1e21 <? n) && (n <? 1e21).

(** The numbers a call writes into the page at once: the coordinates of
    a path and the line width.  The position of a [text] call is the
    cursor or is computed from it, from the page size and from the number
    of posts, never from a count, a like or a comment. *)
Definition numbersOf (op : Op) : list number :=
  match op with
  | OpMoveTo x y | OpLineTo x y => [x; y]
  | OpRect x y w h | OpEllipse x y w h => [x; y; w; h]
  | OpRoundedRect x y w h r => [x; y; w; h; r]
  | OpLineWidth n => [n]
  | _ => []
  end.

Definition accepted (op : Op) : bool :=
  List.forallb supported (numbersOf op).

(** The first number of a run of calls that PDFKit rejects. *)
Definition rejected (ops : list Op) : option number :=
  List.find (fun n => negb (supported n)) (List.flat_map numbersOf ops).

(** The mutable [doc]: the text cursor, the calls made since the program
    last opened a page and the pages it has left behind (oldest first). *)
Record Doc : Type := mkDoc {
  doc_x : number;
  doc_y : number;
  page : list Op;
  done : list (list Op)
}.

(** What the program takes from its host: Number and Date formatting of
    the JavaScript runtime, the logo file, and PDFKit's page size, text
    measurement and text layout: where a [text] or [moveDown] call leaves
    the cursor, and how many continuation pages a [text] call opens
    because the text runs past the bottom of the page. *)
Class Host : Type := mkHost {
  toFixed : number -> nat -> jsstring;
  toString : number -> jsstring;
  toLocaleString : number -> jsstring;
  toLocaleDateString : jsstring -> jsstring;
  logoBuffer : bool;
  pageWidth : number;
  pageHeight : number;
  widthOfString : Doc -> jsstring -> number;
  textCursor : Doc -> jsstring -> option (number * number) -> TextOptions
               -> number * number;
  moveDownY : Doc -> number -> number;
  pageBreaks : Doc -> jsstring -> option (number * number) -> TextOptions
               -> nat
}.

(** A failed run: the exception that escapes [generateReport]. *)
Inductive Exception : Type :=
| TypeError (what : jsstring)
| Error (what : jsstring).

Inductive Result (A : Type) : Type :=
| Ok (a : A)
| Throw (e : Exception).

Arguments Ok {A} a.
Arguments Throw {A} e.

Definition bind {A B : Type} (r : Result A) (k : A -> Result B) : Result B :=
  match r with
  | Ok a => k a
  | Throw e => Throw e
  end.

Declare Scope doc_scope.
Delimit Scope doc_scope with doc.
Notation "d |> f" := (f d) (at level 62, left associativity, only parsing) : doc_scope.
Notation "r >>= k" := (bind r k) (at level 63, left associativity) : doc_scope.
Local Open Scope doc_scope.

Definition template (parts : list jsstring) : jsstring := List.concat parts.

Section Drawing.

Context {host : Host}.

Definition emit (op : Op) (d : Doc) : Doc :=
  mkDoc (doc_x d) (doc_y d) (page d ++ [op]) (done d).

Definition moveDown (n : number) (d : Doc) : Doc :=
  mkDoc (doc_x d) (moveDownY d n) (page d ++ [OpMoveDown n]) (done d).

Definition set_x (x : number) (d : Doc) : Doc :=
  mkDoc x (doc_y d) (page d) (done d).

Definition set_y (y : number) (d : Doc) : Doc :=
  mkDoc (doc_x d) y (page d) (done d).

(** [arr.forEach((item, idx) => ...)] over drawing callbacks. *)
Fixpoint forEach {A : Type} (f : A -> nat -> Doc -> Doc) (l : list A)
         (idx : nat) (d : Doc) : Doc :=
  match l with
  | [] => d
  | a :: rest => forEach f rest (S idx) (f a idx d)
  end.

(** [${v}] and [String(v)]. *)
Definition valueToString (v : value) : jsstring :=
  match v with
  | Undefined => lit "undefined"
  | Num n => toString n
  end.

(** Truthiness of an optional string option. *)
Definition given (o : option jsstring) : option jsstring :=
  match o with
  | Some (c :: s) => Some (c :: s)
  | _ => None
  end.

Definition cardMarginX : number := 50.
Definition cardMarginY : number := 50.
Definition cardWidth : number := pageWidth - cardMarginX * 2.
Definition cardHeight : number := pageHeight - cardMarginY * 2.

(** Lines 86-114. *)
Definition drawBackgroundAndCard (d : Doc) : Doc :=
  d |> emit (OpRect 0 0 pageWidth pageHeight)
    |> emit (OpFillGradient 0 0 pageWidth pageHeight
               [(0, lit "#6f72db"); (1, lit "#a4c8a1")])
    |> emit OpSave
    |> emit (OpFillColor (lit "#ffffff"))
    |> emit (OpFillOpacity 0.05)
    |> emit (OpEllipse (pageWidth * 0.7) (pageHeight * 0.1)
                       (pageWidth * 0.8) (pageHeight * 0.6))
    |> emit (OpFill None)
    |> emit OpRestore
    |> emit OpSave
    |> emit (OpFillOpacity 0.9)
    |> emit (OpRoundedRect cardMarginX cardMarginY cardWidth cardHeight 20)
    |> emit (OpFill (Some (lit "#ffffff")))
    |> emit OpRestore
    |> set_x (cardMarginX + 40)
    |> set_y (cardMarginY + 40).

(** A page PDFKit opens by itself, inside a [text] call whose text runs
    past the bottom of the page: the cursor goes to the top-left margin,
    the [pageAdded] handler of lines 121-123 runs, and the text goes on
    at the [x] it started from, below the [y] the handler has set. *)
Definition continueOnNewPage (startX : number) (d : Doc) : Doc :=
  mkDoc 0 0 (page d ++ [OpContinueOnNewPage]) (done d)
    |> drawBackgroundAndCard
    |> set_x startX.

(** [doc.text(s, x, y, options)] and [doc.text(s, options)]: the call
    is recorded, then the continuation pages PDFKit opens while it lays
    the text out, and the cursor is left below the last line. *)
Definition text (s : jsstring) (pos : option (number * number))
           (o : TextOptions) (d : Doc) : Doc :=
  let startX := match pos with Some (x, _) => x | None => doc_x d end in
  let d' := Nat.iter (pageBreaks d s pos o) (continueOnNewPage startX)
                     (emit (OpText s pos o) d) in
  let cursor :=
    match pageBreaks d s pos o with
    | O => textCursor d s pos o
    | S _ => textCursor d' s None o
    end in
  mkDoc (fst cursor) (snd cursor) (page d') (done d').

(** [doc.addPage()]: the current page is left behind, the cursor goes
    to the top-left margin (0 here) and the [pageAdded] handler of
    lines 121-123 runs. *)
Definition addPage (d : Doc) : Doc :=
  drawBackgroundAndCard (mkDoc 0 0 [] (done d ++ [page d])).

(** Lines 129-172: the header. *)
Definition dateRangeText (options : ReportOptions) : jsstring :=
  let sinceDate :=
    match given (since options) with
    | Some s => toLocaleDateString s
    | None => lit "Last 30 days"
    end in
  let untilDate :=
    match given (until options) with
    | Some s => toLocaleDateString s
    | None => []
    end in
  match untilDate with
  | _ :: _ => template [sinceDate; lit " "; en_dash; lit " "; untilDate]
  | [] => sinceDate
  end.

Definition drawHeader (options : ReportOptions) (d : Doc) : Doc :=
  let logoDisplayWidth := 140 in
  let d := if logoBuffer
           then emit (OpImage (cardMarginX + 20) (cardMarginY + 20)
                              logoDisplayWidth) d
           else d in
  let d := d |> emit (OpFontSize 12) |> emit (OpFillColor (lit "#5a6dfb")) in
  let dateWidth := widthOfString d (dateRangeText options) in
  let d :=
    d |> text (dateRangeText options)
              (Some (cardMarginX + cardWidth - dateWidth - 20, cardMarginY + 26))
              no_options
      |> emit (OpFont (lit "Helvetica-Bold"))
      |> emit (OpFontSize 28)
      |> emit (OpFillColor (lit "#5a6dfb"))
      |> text (lit "Social Media Report")
              (Some (cardMarginX + 20, cardMarginY + 60))
              (mkTextOptions (Some (cardWidth - 40)) (Some (lit "left")) false)
      |> moveDown 0.2
      |> emit (OpFont (lit "Helvetica"))
      |> emit (OpFontSize 16)
      |> emit (OpFillColor (lit "#6f72db")) in
  let d :=
    d |> text (lit "Performance & Growth Insights")
              (Some (cardMarginX + 20, doc_y d))
              (mkTextOptions (Some (cardWidth - 40)) (Some (lit "left")) false) in
  let d := set_x (cardMarginX + 20) d in
  set_y (doc_y d + 20) d.

(** Lines 187-204: the summary block of page 1. *)
Definition summaryLines (st : DerivedStats) : list jsstring :=
  [ template [lit "Follower count changed from "; valueToString (startCount st);
              lit " to "; valueToString (endCount st); lit ", a ";
              toFixed (growth st) 1; lit "% change."];
    template [lit "Total new followers: "; toString (totalNewFollowers st);
              lit " (~"; toFixed (dailyGrowth st) 1; lit " per day)"];
    template [lit "Average likes: "; toFixed (avgLikes st) 0;
              lit ", Average comments: "; toFixed (avgComments st) 1;
              lit " per post"] ].

Definition drawSummary (st : DerivedStats) (d : Doc) : Doc :=
  d |> emit (OpFontSize 16)
    |> emit (OpFillColor (lit "#5a6dfb"))
    |> text (lit "Summary") None (mkTextOptions None None true)
    |> moveDown 0.3
    |> emit (OpFont (lit "Helvetica"))
    |> emit (OpFontSize 12)
    |> emit (OpFillColor (lit "#333333"))
    |> forEach (fun line _ => text line None no_options) (summaryLines st) 0
    |> moveDown 1.2.

(** Lines 206-258: the follower-growth line chart of page 1. *)
Definition chartWidth : number := 450.
Definition chartHeight : number := 220.
Definition marginX : number := 50.
Definition chartX : number :=
  cardMarginX + (cardWidth - (marginX + chartWidth)) / 2.

Definition yRange (counts : list number) : number :=
  num_or (Math_max counts - Math_min counts) 1.

Definition xStep (n : nat) : number := chartWidth / (of_nat n - 1).

(** The callback of lines 244-253. *)
Definition linePoint (counts : list number) (chartY : number)
           (item : FollowerSample) (idx : nat) : number * number :=
  let x := chartX + marginX + xStep (List.length counts) * of_nat idx in
  let normalized := (count item - Math_min counts) / yRange counts in
  let y := chartY + chartHeight - normalized * chartHeight in
  (x, y).

Definition plotPoint (counts : list number) (chartY : number)
           (item : FollowerSample) (idx : nat) (d : Doc) : Doc :=
  let (x, y) := linePoint counts chartY item idx in
  match idx with
  | O => emit (OpMoveTo x y) d
  | S _ => emit (OpLineTo x y) d
  end.

(** Stands for [followerHistory[i]] where the index is out of range;
    the guard of line 206 keeps it from being read. *)
Definition no_sample : FollowerSample := mkSample [] nan.

(** Lines 207-209: the chart heading; the chart box starts at the
    [doc.y] it leaves. *)
Definition drawChartHeading (d : Doc) : Doc :=
  d |> emit (OpFont (lit "Helvetica-Bold"))
    |> emit (OpFontSize 16)
    |> emit (OpFillColor (lit "#5a6dfb"))
    |> text (lit "Follower Growth") None no_options
    |> moveDown 0.5.

(** Lines 221-241: axes and axis labels. *)
Definition drawAxes (history : list FollowerSample) (chartY : number)
           (d : Doc) : Doc :=
  let counts := List.map count history in
  let minCount := Math_min counts in
  let maxCount := Math_max counts in
  let d :=
    d |> emit OpSave
      |> emit (OpStrokeColor (lit "#DDDDDD"))
      |> emit (OpLineWidth 1)
      |> emit (OpMoveTo (chartX + marginX) chartY)
      |> emit (OpLineTo (chartX + marginX) (chartY + chartHeight))
      |> emit OpStroke
      |> emit (OpMoveTo (chartX + marginX) (chartY + chartHeight))
      |> emit (OpLineTo (chartX + marginX + chartWidth) (chartY + chartHeight))
      |> emit OpStroke
      |> emit (OpFontSize 8)
      |> emit (OpFillColor (lit "#333333"))
      |> text (toString maxCount) (Some (chartX + 5, chartY - 4)) no_options
      |> text (toString minCount) (Some (chartX + 5, chartY + chartHeight - 8))
              no_options in
  let firstDateStr := toLocaleDateString (date (List.hd no_sample history)) in
  let lastDateStr := toLocaleDateString (date (List.last history no_sample)) in
  let d :=
    d |> text firstDateStr (Some (chartX + marginX, chartY + chartHeight + 4))
              no_options in
  let lastDateWidth := widthOfString d lastDateStr in
  d |> text lastDateStr
            (Some (chartX + marginX + chartWidth - lastDateWidth,
                   chartY + chartHeight + 4))
            no_options.

Definition drawGrowthChart (history : list FollowerSample) (d : Doc) : Doc :=
  if (1 <? List.length history)%nat then
    let counts := List.map count history in
    let d := drawChartHeading d in
    let chartY := doc_y d in
    d |> drawAxes history chartY
      |> emit (OpStrokeColor (lit "#5a6dfb"))
      |> emit (OpLineWidth 1.5)
      |> forEach (plotPoint counts chartY) history 0
      |> emit OpStroke
      |> emit OpRestore
      |> set_y (chartY + chartHeight + 60)
  else d.

(** Lines 264-271: the follower-history table of page 2. *)
Definition historyRow (item : FollowerSample) (_ : nat) (d : Doc) : Doc :=
  let dateStr := toLocaleDateString (date item) in
  let countStr := toString (count item) in
  d |> emit (OpFont (lit "Helvetica"))
    |> emit (OpFontSize 10)
    |> emit (OpFillColor (lit "#333333"))
    |> text (template [padEnd dateStr 14; lit "  "; countStr]) None no_options.

Definition drawHistoryTable (history : list FollowerSample) (d : Doc) : Doc :=
  d |> emit (OpFontSize 16)
    |> emit (OpFillColor (lit "#5a6dfb"))
    |> text (lit "Follower History") None (mkTextOptions None None true)
    |> moveDown 0.4
    |> forEach historyRow history 0
    |> moveDown 1.0.

(** Lines 273-333: the grouped bar chart of page 2. *)
Definition barWidth : number := 30.
Definition barGap : number := 20.
Definition barChartHeight : number := 180.

Definition maxMetric (posts : list PostSample) : number :=
  num_or (Math_max (List.map (fun p => or_default (likes p) 0) posts ++
                    List.map (fun p => or_default (comments p) 0) posts)) 1.

Definition likesHeight (posts : list PostSample) (post : PostSample) : number :=
  or_default (likes post) 0 / maxMetric posts * barChartHeight.

Definition commentsHeight (posts : list PostSample) (post : PostSample) : number :=
  or_default (comments post) 0 / maxMetric posts * barChartHeight.

Definition drawBars (posts : list PostSample) (barX chartY : number)
           (post : PostSample) (idx : nat) (d : Doc) : Doc :=
  let baseX := barX + of_nat idx * (2 * barWidth + barGap) in
  d |> emit (OpFillColor (lit "#5a6dfb"))
    |> emit (OpRect baseX (chartY + barChartHeight - likesHeight posts post)
                    barWidth (likesHeight posts post))
    |> emit (OpFill None)
    |> emit (OpFillColor (lit "#c76fe2"))
    |> emit (OpRect (baseX + barWidth)
                    (chartY + barChartHeight - commentsHeight posts post)
                    barWidth (commentsHeight posts post))
    |> emit (OpFill None)
    |> emit (OpFont (lit "Helvetica"))
    |> emit (OpFontSize 8)
    |> emit (OpFillColor (lit "#333333"))
    |> text (toString (of_nat idx + 1))
            (Some (baseX + barWidth * 0.5, chartY + barChartHeight + 2))
            (mkTextOptions (Some (2 * barWidth)) (Some (lit "center")) false).

Definition drawBarChart (posts : list PostSample) (d : Doc) : Doc :=
  if (0 <? List.length posts)%nat then
    let d :=
      d |> emit (OpFont (lit "Helvetica-Bold"))
        |> emit (OpFontSize 14)
        |> emit (OpFillColor (lit "#5a6dfb"))
        |> text (lit "Top Posts Engagement (Likes vs Comments)") None no_options
        |> moveDown 0.4 in
    let totalBarChartWidth := of_nat (List.length posts) * (2 * barWidth + barGap) in
    let barX := cardMarginX + (cardWidth - totalBarChartWidth) / 2 in
    let chartY := doc_y d in
    let legendY := chartY + barChartHeight + 20 in
    let legendX := barX in
    let secondLegendX := legendX + 60 in
    d |> emit OpSave
      |> emit (OpStrokeColor (lit "#CCCCCC"))
      |> emit (OpLineWidth 1)
      |> emit (OpMoveTo barX chartY)
      |> emit (OpLineTo barX (chartY + barChartHeight))
      |> emit OpStroke
      |> emit (OpMoveTo barX (chartY + barChartHeight))
      |> emit (OpLineTo (barX + totalBarChartWidth) (chartY + barChartHeight))
      |> emit OpStroke
      |> forEach (drawBars posts barX chartY) posts 0
      |> emit (OpFillColor (lit "#5a6dfb"))
      |> emit (OpRect legendX legendY 10 10)
      |> emit (OpFill None)
      |> emit (OpFont (lit "Helvetica"))
      |> emit (OpFontSize 8)
      |> emit (OpFillColor (lit "#333333"))
      |> text (lit "Likes") (Some (legendX + 14, legendY - 2)) no_options
      |> emit (OpFillColor (lit "#c76fe2"))
      |> emit (OpRect secondLegendX legendY 10 10)
      |> emit (OpFill None)
      |> emit (OpFont (lit "Helvetica"))
      |> emit (OpFontSize 8)
      |> emit (OpFillColor (lit "#333333"))
      |> text (lit "Comments") (Some (secondLegendX + 14, legendY - 2)) no_options
      |> emit OpRestore
      |> set_y (legendY + 30)
  else d.

(** Lines 338-349: key takeaways of page 3. *)
Definition keyPoints (st : DerivedStats) : list jsstring :=
  [ template [lit "Average daily follower growth: "; toFixed (dailyGrowth st) 1;
              lit " per day."];
    template [lit "Engagement rate: "; toFixed (engagementRate st) 2;
              lit "% (likes + comments relative to reach)."];
    template [lit "Comment-to-like ratio: "; toFixed (commentLikeRatio st) 2;
              lit "%."];
    template [lit "Projected followers in 30 days: ";
              toLocaleString (forecast30 st); lit "."];
    template [lit "Projected followers in 90 days: ";
              toLocaleString (forecast90 st); lit "."] ].

Definition bulleted (s : jsstring) : jsstring :=
  template [bullet; lit " "; s].

Definition drawTakeaways (st : DerivedStats) (d : Doc) : Doc :=
  d |> emit (OpFontSize 16)
    |> emit (OpFillColor (lit "#5a6dfb"))
    |> text (lit "Key Takeaways & Growth Forecast") None
            (mkTextOptions None None true)
    |> moveDown 0.5
    |> emit (OpFontSize 11)
    |> emit (OpFillColor (lit "#333333"))
    |> forEach (fun point _ => text (bulleted point) None no_options)
               (keyPoints st) 0
    |> moveDown 1.0.

End Drawing.

(** Lines 356-390: the rule-based recommendations. *)
Definition msg_flat : jsstring :=
  lit "Growth is flat or declining. Increase posting frequency and experiment with varied content types (videos, stories) to reignite growth.".
Definition msg_modest : jsstring :=
  lit "Growth is positive but modest. Leverage trending topics and hashtags to expand reach and attract new followers.".
Definition msg_strong : jsstring :=
  lit "Growth is strong. Maintain your current posting cadence and continue engaging with your audience to sustain momentum.".
Definition msg_low_engagement : jsstring :=
  lit "Low engagement rate. Encourage interaction by asking questions in captions and responding promptly to comments.".
Definition msg_high_engagement : jsstring :=
  lit "High engagement rate. Capitalize on this by collaborating with influencers or hosting contests to further boost engagement.".
Definition msg_few_comments : jsstring :=
  lit "Comments are relatively low compared to likes. Inspire discussion by inviting followers to share their thoughts or experiences.".
Definition msg_balanced : jsstring :=
  lit "Good balance between comments and likes. Keep fostering conversations to strengthen your community.".
Definition msg_closing : jsstring :=
  lit "Regularly review your top performing content to identify themes that resonate with your audience, and iterate on these successes.".

(** [recommendations.push(..)] appends. *)
Definition push (l : list jsstring) (s : jsstring) : list jsstring := l ++ [s].

Definition recommendationsOf
           (growthSlope dailyGrowth engagementRate commentLikeRatio : number)
  : list jsstring :=
  let recommendations := [] in
  let recommendations :=
    if growthSlope <=? 0 then push recommendations msg_flat
    else if dailyGrowth <? 5 then push recommendations msg_modest
    else push recommendations msg_strong in
  let recommendations :=
    if engagementRate <? 1 then push recommendations msg_low_engagement
    else if 5 <? engagementRate then push recommendations msg_high_engagement
    else recommendations in
  let recommendations :=
    if commentLikeRatio <? 10 then push recommendations msg_few_comments
    else push recommendations msg_balanced in
  push recommendations msg_closing.

Definition recommendations (st : DerivedStats) : list jsstring :=
  recommendationsOf (growthSlope st) (dailyGrowth st) (engagementRate st)
                    (commentLikeRatio st).

Section Report.

Context {host : Host}.

(** Lines 353-393. *)
Definition drawRecommendations (st : DerivedStats) (d : Doc) : Doc :=
  d |> emit (OpFontSize 14)
    |> emit (OpFillColor (lit "#5a6dfb"))
    |> text (lit "Recommendations") None (mkTextOptions None None true)
    |> moveDown 0.4
    |> emit (OpFontSize 11)
    |> emit (OpFillColor (lit "#333333"))
    |> forEach (fun rec _ => text (bulleted rec) None no_options)
               (recommendations st) 0.

(** Lines 397-417: the top-posts table of page 4. *)
Definition headerX2 : number := cardMarginX + 40.
Definition titleColWidth2 : number := 260.
Definition likesColWidth2 : number := 80.
Definition commentsColWidth2 : number := 80.

(** [doc.text(s, x, doc.y, { width })]. *)
Definition cell (s : jsstring) (x w : number) (d : Doc) : Doc :=
  text s (Some (x, doc_y d)) (mkTextOptions (Some w) None false) d.

Definition drawTableHeader (d : Doc) : Doc :=
  d |> emit (OpFontSize 16)
    |> emit (OpFillColor (lit "#5a6dfb"))
    |> text (lit "Top Posts") None (mkTextOptions None None true)
    |> moveDown 0.5
    |> emit (OpFontSize 10)
    |> emit (OpFillColor (lit "#555555"))
    |> cell (lit "Title") headerX2 titleColWidth2
    |> cell (lit "Likes") (headerX2 + titleColWidth2) likesColWidth2
    |> cell (lit "Comments") (headerX2 + titleColWidth2 + likesColWidth2)
            commentsColWidth2
    |> moveDown 0.3.

(** Line 411. *)
Definition truncated (title : jsstring) : jsstring :=
  if (50 <? List.length title)%nat then slice0 title 47 ++ ellipsis else title.

(** The callback of lines 409-417; reading [title.length] of a missing
    title throws. *)
Definition drawRow (post : PostSample) (d : Doc) : Result Doc :=
  match title post with
  | None =>
      Throw (TypeError
               (lit "Cannot read properties of undefined (reading 'length')"))
  | Some title =>
      let d :=
        d |> emit (OpFontSize 10)
          |> emit (OpFillColor (lit "#333333"))
          |> cell (truncated title) headerX2 titleColWidth2
          |> cell (valueToString (likes post)) (headerX2 + titleColWidth2)
                  likesColWidth2
          |> cell (valueToString (comments post))
                  (headerX2 + titleColWidth2 + likesColWidth2)
                  commentsColWidth2 in
      Ok (set_y (doc_y d + 14) d)
  end.

Fixpoint drawRows (posts : list PostSample) (d : Doc) : Result Doc :=
  match posts with
  | [] => Ok d
  | post :: rest => drawRow post d >>= drawRows rest
  end.

(** The finished document: the pages the program has opened, in order,
    each with the calls made from its opening to the next [addPage]. *)
Definition Document : Type := list (list Op).

Definition finish (d : Doc) : Document := done d ++ [page d].

(** PDFKit's check of the numbers it is handed: the run ends in its
    [Error] at the first call it rejects. *)
Definition pdfkit (d : Doc) : Result Doc :=
  match rejected (List.concat (finish d)) with
  | Some n => Throw (Error (lit "unsupported number: " ++ toString n))
  | None => Ok d
  end.

Definition newDocument : Doc := mkDoc 0 0 [] [].

(** Page 1 (lines 53-258): frame, header and summary, then the growth
    chart. *)
Definition summaryPage (metrics : MetricsBundle) (options : ReportOptions)
  : Doc :=
  newDocument
    |> emit (OpFont (lit "Helvetica"))
    |> drawBackgroundAndCard
    |> drawHeader options
    |> drawSummary (derivedStats metrics).

Definition page1 (metrics : MetricsBundle) (options : ReportOptions) : Doc :=
  summaryPage metrics options
    |> drawGrowthChart (followerHistory metrics).

(** Page 2 (lines 262-333): history table and bar chart. *)
Definition page2 (metrics : MetricsBundle) (d : Doc) : Doc :=
  d |> addPage
    |> drawHistoryTable (followerHistory metrics)
    |> drawBarChart (topPosts metrics).

(** Page 3 (lines 336-393): key takeaways and recommendations. *)
Definition page3 (metrics : MetricsBundle) (d : Doc) : Doc :=
  d |> addPage
    |> drawTakeaways (derivedStats metrics)
    |> drawRecommendations (derivedStats metrics).

(** Page 4 (lines 396-417): the top-posts table. *)
Definition page4 (metrics : MetricsBundle) (d : Doc) : Result Doc :=
  drawRows (topPosts metrics) (d |> addPage |> drawTableHeader).

(** The run: pages 1 to 3, whose charts hand PDFKit numbers computed from
    the metrics, then page 4, whose rows read the titles. *)
Definition generateReport (metrics : MetricsBundle) (options : ReportOptions)
  : Result Document :=
  pdfkit (page1 metrics options |> page2 metrics |> page3 metrics)
    >>= page4 metrics
    >>= pdfkit
    >>= fun d => Ok (finish d).

End Report.

(** A host to run the program on: A4 pages, fixed-pitch text of 6pt per
    code unit and 14pt per line, every text on one line, no logo file.
    As in PDFKit, a line that would end below the bottom of the page
    (there is no margin, line 53) goes to a continuation page. *)
Definition sampleHost : Host :=
  {| toFixed := fun _ _ => lit "0.0";
     toString := fun _ => lit "0";
     toLocaleString := fun _ => lit "0";
     toLocaleDateString := fun s => s;
     logoBuffer := false;
     pageWidth := 595.28;
     pageHeight := 841.89;
     widthOfString := fun _ s => of_nat (List.length s) * 6;
     textCursor := fun d _ pos _ =>
       match pos with
       | Some (x, y) => (x, y + 14)
       | None => (doc_x d, doc_y d + 14)
       end;
     moveDownY := fun d n => doc_y d + n * 14;
     pageBreaks := fun d _ pos _ =>
       let y := match pos with
                | Some (_, y) => y
                | None => doc_y d
                end in
       if 841.89 <? y + 14 then 1%nat else 0%nat |}.

Definition sample (c : number) : FollowerSample := mkSample (lit "2024-01-01") c.

(** ** Vocabulary of the statements, and inputs to run the program on *)

Definition emptyHistory (posts : list PostSample) : MetricsBundle :=
  mkMetrics [] posts.

Definition twoSamples : MetricsBundle :=
  mkMetrics [sample 100; sample 200] [].

Definition steadyHistory : MetricsBundle :=
  mkMetrics [sample 100; sample 100] [].

Definition silentPosts : MetricsBundle :=
  mkMetrics [sample 100] [mkPost (Some (lit "launch")) (Num 0) (Num 0)].

Definition likedPost : MetricsBundle :=
  mkMetrics [sample 100] [mkPost (Some (lit "launch")) (Num 3) (Num 2)].

Definition is_cadence (s : jsstring) : bool :=
  jsstring_eqb s msg_flat || jsstring_eqb s msg_modest || jsstring_eqb s msg_strong.

Definition is_engagement (s : jsstring) : bool :=
  jsstring_eqb s msg_low_engagement || jsstring_eqb s msg_high_engagement.

(** The continuation pages of a document, and the pages of its PDF: those
    the program opens and those PDFKit opens for text that runs over. *)
Definition is_continuation (op : Op) : bool :=
  match op with
  | OpContinueOnNewPage => true
  | _ => false
  end.

Definition continuationPages (doc : Document) : nat :=
  List.length (List.filter is_continuation (List.concat doc)).

Definition pdfPages (doc : Document) : nat :=
  (List.length doc + continuationPages doc)%nat.

(** [draws P d d']: from [d] to [d'] the program opens no page and every
    call it adds satisfies [P]. *)
Definition draws (P : Op -> bool) (d d' : Doc) : Prop :=
  done d' = done d /\
  exists ops, page d' = page d ++ ops /\ List.forallb P ops = true.

Definition any_op (_ : Op) : bool := true.

(** The calls that stroke a path: the growth chart is the only block of
    page 1 that makes them. *)
Definition is_path_op (op : Op) : bool :=
  match op with
  | OpMoveTo _ _ | OpLineTo _ _ | OpStroke => true
  | _ => false
  end.

Definition no_path_op (op : Op) : bool := negb (is_path_op op).

Definition has_title (p : PostSample) : Prop := title p <> None.

(** The point of sample [i] with value [v] in the chart box, in the words
    of the specification; [max - min, or 1] is [(max - min) || 1]. *)
Definition chartPoint (boxX boxY width height : number) (N : nat)
           (min max : number) (i : nat) (v : number) : number * number :=
  (boxX + of_nat i * (width / (of_nat N - 1)),
   boxY + height - ((v - min) / num_or (max - min) 1) * height).

(** A path through the given points: [moveTo] the first, [lineTo] the rest. *)
Definition polyline (pts : list (number * number)) : list Op :=
  match pts with
  | [] => []
  | p :: rest =>
      OpMoveTo (fst p) (snd p) :: List.map (fun q => OpLineTo (fst q) (snd q)) rest
  end.

Definition indexed_from {A : Type} (i : nat) (l : list A) : list (nat * A) :=
  List.combine (List.seq i (List.length l)) l.

(** The strings drawn by the [text] calls of column width [w]. *)
Definition textsOfWidth (w : number) (ops : list Op) : list jsstring :=
  List.flat_map
    (fun op =>
       match op with
       | OpText s _ o =>
           match opt_width o with
           | Some w' => if w' =? w then [s] else []
           | None => []
           end
       | _ => []
       end) ops.

(** The title column of the table: the cells 260 wide. *)
Definition titleColumn (ops : list Op) : list jsstring :=
  textsOfWidth titleColWidth2 ops.



Definition reportOf (host : Host) (m : MetricsBundle) (o : ReportOptions)
  : Document :=
  match @generateReport host m o with
  | Ok doc => doc
  | Throw _ => []
  end.


Definition unlikedPost : MetricsBundle :=
  mkMetrics [sample 100] [mkPost (Some (lit "launch")) Undefined Undefined].

Definition longTitle : jsstring := List.repeat 65%N 60.

Definition longTitlePost : MetricsBundle :=
  mkMetrics [sample 100; sample 200] [mkPost (Some longTitle) (Num 3) (Num 2)].

(** A history of 44 samples with three posts: on the host above the
    table of page 2 leaves the bar chart so low that each of its labels
    and legend entries goes to a continuation page. *)
Definition sixWeeks : MetricsBundle :=
  mkMetrics (List.repeat (sample 100) 44)
            (List.repeat (mkPost (Some (lit "launch")) (Num 3) (Num 2)) 3).

(** ** Vocabulary of the further properties *)

(** The strings of the [text] calls, in drawing order. *)
Definition textsOf (ops : list Op) : list jsstring :=
  List.flat_map
    (fun op =>
       match op with
       | OpText s _ _ => [s]
       | _ => []
       end) ops.

(** [says ts d d']: from [d] to [d'] the program opens no page and the
    strings it draws are [ts], in this order. *)
Definition says (ts : list jsstring) (d d' : Doc) : Prop :=
  done d' = done d /\ textsOf (page d') = textsOf (page d) ++ ts.

Definition is_comment_ratio (s : jsstring) : bool :=
  jsstring_eqb s msg_few_comments || jsstring_eqb s msg_balanced.

Section PageTexts.

Context {host : Host}.

(** The calls that frame a page, as [drawBackgroundAndCard] issues them. *)
Definition frameCalls : list Op :=
  [ OpRect 0 0 pageWidth pageHeight;
    OpFillGradient 0 0 pageWidth pageHeight
                   [(0, lit "#6f72db"); (1, lit "#a4c8a1")];
    OpSave;
    OpFillColor (lit "#ffffff");
    OpFillOpacity 0.05;
    OpEllipse (pageWidth * 0.7) (pageHeight * 0.1)
              (pageWidth * 0.8) (pageHeight * 0.6);
    OpFill None;
    OpRestore;
    OpSave;
    OpFillOpacity 0.9;
    OpRoundedRect 50 50 (pageWidth - 50 * 2) (pageHeight - 50 * 2) 20;
    OpFill (Some (lit "#ffffff"));
    OpRestore ].

(** The calls of [k] continuation pages in a row: PDFKit opens the page
    and the [pageAdded] handler draws the frame. *)
Definition continuation (k : nat) : list Op :=
  List.concat (List.repeat (OpContinueOnNewPage :: frameCalls) k).

(** The line of the history table for one sample. *)
Definition historyRowText (item : FollowerSample) : jsstring :=
  template [padEnd (toLocaleDateString (date item)) 14; lit "  ";
            toString (count item)].

(** The labels under the bar pairs: 1, 2, ..., n. *)
Definition barLabels (n : nat) : list jsstring :=
  List.map (fun i => toString (of_nat i + 1)) (List.seq 0 n).

(** The strings of the growth chart: heading, axis labels, first and last
    date. *)
Definition chartTexts (history : list FollowerSample) : list jsstring :=
  [ lit "Follower Growth";
    toString (Math_max (List.map count history));
    toString (Math_min (List.map count history));
    toLocaleDateString (date (List.hd no_sample history));
    toLocaleDateString (date (List.last history no_sample)) ].

(** The three cells of a row of the top-posts table. *)
Definition rowCells (p : PostSample) : list jsstring :=
  [ truncated (match title p with Some t => t | None => [] end);
    valueToString (likes p);
    valueToString (comments p) ].

End PageTexts.

(** ** Profile URLs and feed posts (api/_lib/integrations) *)

Definition slash : code_unit := 47%N.
Definition at_sign : code_unit := 64%N.

(** [s.split(sep)] for a separator of one code unit. *)
Fixpoint splitOn (sep : code_unit) (s : jsstring) : list jsstring :=
  match s with
  | [] => [[]]
  | c :: rest =>
      if N.eqb c sep then [] :: splitOn sep rest
      else match splitOn sep rest with
           | seg :: segs => (c :: seg) :: segs
           | [] => [[c]]
           end
  end.

(** [Boolean(s)] of a string. *)
Definition nonempty (s : jsstring) : bool :=
  match s with
  | [] => false
  | _ :: _ => true
  end.

(** [first.startsWith('@') ? first.slice(1) : first]. *)
Definition stripAt (s : jsstring) : jsstring :=
  match s with
  | c :: rest => if N.eqb c at_sign then rest else s
  | [] => s
  end.

Section Usernames.

(** [new URL(url).pathname]; [None] when the constructor throws. *)
Variable pathnameOf : jsstring -> option jsstring.

(** instagram.js, lines 34-43; [None] is [null]. *)
Definition parseInstagramUsername (url : jsstring) : option jsstring :=
  match pathnameOf url with
  | None => None
  | Some pathname =>
      let parts := List.filter nonempty (splitOn slash pathname) in
      match parts with
      | part :: _ => Some part
      | [] => None
      end
  end.

(** tiktok.js, lines 30-41; [None] is [null]. *)
Definition parseTikTokUsername (url : jsstring) : option jsstring :=
  match pathnameOf url with
  | None => None
  | Some pathname =>
      let parts := List.filter nonempty (splitOn slash pathname) in
      match parts with
      | [] => None
      | part :: _ => Some (stripAt part)
      end
  end.

End Usernames.

(** A stand-in for the URL parser: the input is the path itself, and the
    empty input is refused. *)
Definition pathOnly (url : jsstring) : option jsstring :=
  match url with
  | [] => None
  | _ :: _ => Some url
  end.

(** One [edge.node] of the profile's media feed, as far as the program
    reads it; [None] is a [null] or missing value. *)
Record MediaNode : Type := mkNode {
  caption_text : option jsstring;
  accessibility_caption : option jsstring;
  liked_by_count : option number;
  comment_count : option number
}.

(** [o ?? d]. *)
Definition nullish_or {A : Type} (o : option A) (d : A) : A :=
  match o with
  | Some a => a
  | None => d
  end.

(** [a || b] on strings. *)
Definition str_or (a b : jsstring) : jsstring :=
  match a with
  | [] => b
  | _ :: _ => a
  end.

(** The callback of instagram.js, lines 108-115. *)
Definition postOfNode (node : MediaNode) : PostSample :=
  let title :=
    str_or (str_or (nullish_or (caption_text node) [])
                   (nullish_or (accessibility_caption node) [])) [] in
  let likes := nullish_or (liked_by_count node) 0 in
  let comments := nullish_or (comment_count node) 0 in
  mkPost (Some title) (Num likes) (Num comments).

(** [(a, b) => b.likes - a.likes]. *)
Definition byLikesDescending (a b : PostSample) : number :=
  ToNumber (likes b) - ToNumber (likes a).

Section InstagramPosts.

(** [Array.prototype.sort] with a comparator. *)
Variable sortWith :
  (PostSample -> PostSample -> number) -> list PostSample -> list PostSample.

(** instagram.js, lines 107-117: the three most liked posts of the feed. *)
Definition instagramTopPosts (mediaEdges : list MediaNode) : list PostSample :=
  List.firstn 3 (sortWith byLikesDescending (List.map postOfNode mediaEdges)).

End InstagramPosts.

(** A stable insertion sort, to run [instagramTopPosts] on. *)
Fixpoint insertBy (cmp : PostSample -> PostSample -> number) (p : PostSample)
         (l : list PostSample) : list PostSample :=
  match l with
  | [] => [p]
  | q :: rest => if 0 <? cmp p q then q :: insertBy cmp p rest else p :: l
  end.

Definition insertionSort (cmp : PostSample -> PostSample -> number)
           (l : list PostSample) : list PostSample :=
  List.fold_right (insertBy cmp) [] l.

(** A feed of four media edges, one without caption and counts. *)
Definition sampleFeed : list MediaNode :=
  [ mkNode (Some (lit "launch day")) None (Some 10) (Some 2);
    mkNode None (Some (lit "Photo of a desk")) (Some 40) None;
    mkNode None None None None;
    mkNode (Some (lit "team")) None (Some 25) (Some 1) ].

(** ** Follower histories and sample posts (integrations, metricsService.js)

    A [Date] is its time value: a Number of milliseconds, [NaN] for an
    invalid date.  [Math.random] is a sequence of Numbers read at a running
    index.  The [for] loops count in Numbers, as the program does; the
    embedding bounds the number of iterations by [fuel]. *)

(** [Math.ceil]. *)
Definition Math_ceil (n : number) : number := - Math_floor (- n).

Inductive Outcome (A : Type) : Type :=
| Returned (a : A)
| Threw (what : jsstring)
| OutOfFuel.

Arguments Returned {A} a.
Arguments Threw {A} what.
Arguments OutOfFuel {A}.

Definition msPerDay : number := 1000 * 60 * 60 * 24.

Section Histories.

(** [new Date(t).toISOString()]; [None] when it throws its RangeError. *)
Variable toISOString : number -> option jsstring.

(** [Math.random()], call by call. *)
Variable random : nat -> number.

(** The loop of [buildFollowerHistory] (tiktok.js 65-69, instagram.js
    66-70), from counter [i] on. *)
Fixpoint buildLoop (fuel : nat)
         (i totalDays startCount increment startTime : number)
  : Outcome (list FollowerSample) :=
  match fuel with
  | O => OutOfFuel
  | S fuel' =>
      if i <=? totalDays then
        let date := startTime + i * 24 * 60 * 60 * 1000 in
        let count := Math_round (startCount + increment * i) in
        match toISOString date with
        | None => Threw (lit "RangeError: Invalid time value")
        | Some iso =>
            match buildLoop fuel' (i + 1) totalDays startCount increment startTime with
            | Returned rest => Returned (mkSample iso count :: rest)
            | Threw what => Threw what
            | OutOfFuel => OutOfFuel
            end
        end
      else Returned []
  end.

(** [buildFollowerHistory] of tiktok.js (57-71, [perDay] 50) and of
    instagram.js (57-72, [perDay] 10). *)
Definition buildFollowerHistory (perDay : number) (fuel : nat)
           (followerCount startTime endTime : number)
  : Outcome (list FollowerSample) :=
  let totalDays :=
    Math_max [1; Math_ceil ((endTime - startTime) / msPerDay)] in
  let startCount := Math_max [0; followerCount - totalDays * perDay] in
  let increment := (followerCount - startCount) / totalDays in
  buildLoop fuel 0 totalDays startCount increment startTime.

(** The loop of [generateFollowerHistory] (metricsService.js 34-42); [k] is
    the index of the next [Math.random] call, returned with the history. *)
Fixpoint syntheticLoop (fuel : nat) (i totalDays currentCount startTime : number)
         (k : nat) : Outcome (list FollowerSample * nat) :=
  match fuel with
  | O => OutOfFuel
  | S fuel' =>
      if i <=? totalDays then
        let date := startTime + i * 24 * 60 * 60 * 1000 in
        let delta := Math_floor (random k * 10 + 5) in
        let currentCount := if 0 <? i then currentCount + delta else currentCount in
        match toISOString date with
        | None => Threw (lit "RangeError: Invalid time value")
        | Some iso =>
            match syntheticLoop fuel' (i + 1) totalDays currentCount startTime (S k) with
            | Returned (rest, k') => Returned (mkSample iso currentCount :: rest, k')
            | Threw what => Threw what
            | OutOfFuel => OutOfFuel
            end
        end
      else Returned ([], k)
  end.

(** metricsService.js, lines 30-44. *)
Definition generateFollowerHistory (fuel : nat) (startTime endTime : number)
           (k : nat) : Outcome (list FollowerSample * nat) :=
  let totalDays := Math_ceil ((endTime - startTime) / msPerDay) in
  syntheticLoop fuel 0 totalDays 1000 startTime k.

(** metricsService.js, lines 51-64. *)
Definition sampleTitles : list jsstring :=
  [ lit "Behind the scenes of our latest product";
    lit "5 tips for increasing productivity";
    lit "Our journey to 10K followers";
    lit "Customer spotlight: Meet Jane";
    lit "How we give back to the community" ].

Fixpoint samplePosts (titles : list jsstring) (k : nat) : list PostSample :=
  match titles with
  | [] => []
  | title :: rest =>
      mkPost (Some title)
             (Num (Math_floor (random k * 500 + 100)))
             (Num (Math_floor (random (S k) * 50 + 10)))
      :: samplePosts rest (S (S k))
  end.

Definition generateTopPosts (k : nat) : list PostSample :=
  samplePosts sampleTitles k.

End Histories.

(** Stand-ins to run the generators on: every time value has an ISO
    string, and [Math.random] always gives 0.5. *)
Definition isoOfAny (t : number) : option jsstring := Some (lit "2024-01-01T00:00:00.000Z").
Definition randomHalf (_ : nat) : number := 0.5.

Definition isoWitness (t : number) : option jsstring := Some (lit "2024-01-01").

(** ** The entry points of the integrations

    [getTikTokMetrics] (tiktok.js 89-179) and [getInstagramMetrics]
    (instagram.js 89-157).  The network is a parameter: what the fetch of
    the profile gives, or [None] when it fails in any way. *)

(** [new Date(t)] keeps the time value [TimeClip(t)]. *)
Definition TimeClip (t : number) : number :=
  if is_nan t || is_infinity t then nan
  else if 8.64e15 <? abs t then nan
  else (if t <? 0 then Math_ceil t else Math_floor t) + 0.

Definition thirtyDays : number := 30 * 24 * 60 * 60 * 1000.

(** The days of the period, at least 1 (tiktok.js 134-137 and 151-154,
    instagram.js 129-132). *)
Definition periodDays (startTime endTime : number) : number :=
  Math_max [1; Math_ceil ((endTime - startTime) / msPerDay)].

Definition tiktokTitles : list jsstring :=
  [ lit "Our latest dance challenge";
    lit "Behind the scenes";
    lit "Q&A with the team";
    lit "Top 5 moments of the week";
    lit "Fun facts about our brand" ].

(** What the program reads of [json.data.user]; [None] is [null]. *)
Record InstagramUser : Type := mkUser {
  followed_by_count : option number;
  media_edges : list MediaNode
}.

Section EntryPoints.

Variable pathnameOf : jsstring -> option jsstring.
Variable toISOString : number -> option jsstring.
Variable random : nat -> number.

(** [new Date(s).getTime()] of a date string, and of [new Date()]. *)
Variable parseDate : jsstring -> number.
Variable now : number.

Variable sortWith :
  (PostSample -> PostSample -> number) -> list PostSample -> list PostSample.

(** The TikTok page of a user name: the follower count found in it, [None]
    inside when the page has none; [None] outside when the fetch throws or
    the response is not ok. *)
Variable fetchFollowerCount : jsstring -> option (option number).

(** The Instagram profile of a user name; [None] when the fetch throws, the
    response is not ok or holds no user. *)
Variable fetchProfile : jsstring -> option InstagramUser.

(** [until ? new Date(until) : new Date()]. *)
Definition endOf (until : option jsstring) : number :=
  match given until with
  | Some s => parseDate s
  | None => now
  end.

(** [since ? new Date(since) : new Date(endDate.getTime() - 30 days)]. *)
Definition startOf (since : option jsstring) (endTime : number) : number :=
  match given since with
  | Some s => parseDate s
  | None => TimeClip (endTime - thirtyDays)
  end.

(** The loop of the synthetic histories (tiktok.js 139-143 and 157-161 with
    [span] 50 and [low] 20; instagram.js 135-139 with 10 and 5), with the
    index of the next [Math.random] call it reaches. *)
Fixpoint driftLoop (span low : number) (fuel : nat)
         (i totalDays current startTime : number) (k : nat)
  : Outcome (list FollowerSample) * nat :=
  match fuel with
  | O => (OutOfFuel, k)
  | S fuel' =>
      if i <=? totalDays then
        let date := startTime + i * 24 * 60 * 60 * 1000 in
        let current := current + Math_floor (random k * span + low) in
        match toISOString date with
        | None => (Threw (lit "RangeError: Invalid time value"), S k)
        | Some iso =>
            let (r, k') :=
              driftLoop span low fuel' (i + 1) totalDays current startTime (S k) in
            (match r with
             | Returned rest => Returned (mkSample iso current :: rest)
             | Threw what => Threw what
             | OutOfFuel => OutOfFuel
             end, k')
        end
      else (Returned [], k)
  end.

(** [sampleTitles.map(title => ({ title, likes: .., comments: .. }))]. *)
Fixpoint randomPosts (likeSpan likeLow commentSpan commentLow : number)
         (titles : list jsstring) (k : nat) : list PostSample :=
  match titles with
  | [] => []
  | title :: rest =>
      mkPost (Some title)
             (Num (Math_floor (random k * likeSpan + likeLow)))
             (Num (Math_floor (random (S k) * commentSpan + commentLow)))
      :: randomPosts likeSpan likeLow commentSpan commentLow rest (S (S k))
  end.

(** tiktok.js 111-148: from the fetched page to the metrics. *)
Definition tiktokTry (fuel : nat) (followerCount : option number)
           (startTime endTime : number) (k : nat)
  : Outcome MetricsBundle * nat :=
  match (match followerCount with
         | Some n => buildFollowerHistory toISOString 50 fuel n startTime endTime
         | None => Returned []
         end) with
  | Returned history =>
      let posts := randomPosts 5000 500 200 20 tiktokTitles k in
      let k := (k + 2 * List.length tiktokTitles)%nat in
      let (fallback, k) :=
        if (List.length history =? 0)%nat
        then driftLoop 50 20 fuel 0 (periodDays startTime endTime) 500 startTime k
        else (Returned [], k) in
      (match fallback with
       | Returned fallbackHistory =>
           Returned (mkMetrics (if (0 <? List.length history)%nat
                                then history else fallbackHistory)
                               (List.firstn 3 posts))
       | Threw what => Threw what
       | OutOfFuel => OutOfFuel
       end, k)
  | Threw what => (Threw what, k)
  | OutOfFuel => (OutOfFuel, k)
  end.

(** tiktok.js 149-178: the [catch] branch. *)
Definition tiktokCatch (fuel : nat) (startTime endTime : number) (k : nat)
  : Outcome MetricsBundle * nat :=
  let (r, k) :=
    driftLoop 50 20 fuel 0 (periodDays startTime endTime) 500 startTime k in
  match r with
  | Returned history =>
      (Returned (mkMetrics history
                           (List.firstn 3 (randomPosts 5000 500 200 20 tiktokTitles k))),
       (k + 2 * List.length tiktokTitles)%nat)
  | Threw what => (Threw what, k)
  | OutOfFuel => (OutOfFuel, k)
  end.

Definition getTikTokMetrics (fuel : nat) (profileUrl : jsstring)
           (since until : option jsstring) (k : nat)
  : Outcome MetricsBundle * nat :=
  let username := parseTikTokUsername pathnameOf profileUrl in
  let endTime := endOf until in
  let startTime := startOf since endTime in
  let (attempt, k) :=
    match username with
    | Some (c :: u) =>
        match fetchFollowerCount (c :: u) with
        | Some followerCount => tiktokTry fuel followerCount startTime endTime k
        | None => (Threw (lit "Failed to fetch TikTok page"), k)
        end
    | _ => (Threw (lit "Invalid TikTok URL"), k)
    end in
  match attempt with
  | Threw _ => tiktokCatch fuel startTime endTime k
  | Returned metrics => (Returned metrics, k)
  | OutOfFuel => (OutOfFuel, k)
  end.

(** instagram.js 127-156: the [catch] branch. *)
Definition instagramCatch (fuel : nat) (startTime endTime : number) (k : nat)
  : Outcome MetricsBundle * nat :=
  let (r, k) :=
    driftLoop 10 5 fuel 0 (periodDays startTime endTime) 1000 startTime k in
  match r with
  | Returned history =>
      (Returned (mkMetrics history
                           (List.firstn 3 (randomPosts 500 100 50 10 sampleTitles k))),
       (k + 2 * List.length sampleTitles)%nat)
  | Threw what => (Threw what, k)
  | OutOfFuel => (OutOfFuel, k)
  end.

(** instagram.js 104-126: from the profile to the metrics. *)
Definition instagramTry (fuel : nat) (user : InstagramUser)
           (startTime endTime : number) : Outcome MetricsBundle :=
  let posts := instagramTopPosts sortWith (media_edges user) in
  match (match followed_by_count user with
         | Some n => buildFollowerHistory toISOString 10 fuel n startTime endTime
         | None => Returned []
         end) with
  | Returned history => Returned (mkMetrics history posts)
  | Threw what => Threw what
  | OutOfFuel => OutOfFuel
  end.

Definition getInstagramMetrics (fuel : nat) (profileUrl : jsstring)
           (since until : option jsstring) (k : nat)
  : Outcome MetricsBundle * nat :=
  let username := parseInstagramUsername pathnameOf profileUrl in
  let endTime := endOf until in
  let startTime := startOf since endTime in
  let attempt :=
    match username with
    | Some (c :: u) =>
        match fetchProfile (c :: u) with
        | Some user => instagramTry fuel user startTime endTime
        | None => Threw (lit "Instagram user data not found")
        end
    | _ => Threw (lit "Invalid Instagram URL")
    end in
  match attempt with
  | Threw _ => instagramCatch fuel startTime endTime k
  | Returned metrics => (Returned metrics, k)
  | OutOfFuel => (OutOfFuel, k)
  end.

End EntryPoints.

(** Stand-ins for the network and the clock, to run the entry points on. *)
Definition sampleParseDate (_ : jsstring) : number := 0.
Definition sampleNow : number := 3 * msPerDay.
Definition sampleFetchCount (_ : jsstring) : option (option number) :=
  Some (Some 1000).
Definition sampleFetchProfile (_ : jsstring) : option InstagramUser :=
  Some (mkUser None sampleFeed).

Definition returnedOr {A : Type} (r : Outcome A) (d : A) : A :=
  match r with
  | Returned a => a
  | _ => d
  end.

Definition tiktokRun : Outcome MetricsBundle :=
  fst (getTikTokMetrics pathOnly isoOfAny randomHalf sampleParseDate sampleNow
                        sampleFetchCount 40 (lit "/@acme") None None 0).

(** ** [fetchMetrics] (metricsService.js 85-116) and the handler (report.js
    22-62) *)

(** The fields the handler takes from the request body; [None] is a
    missing field. *)
Record Payload : Type := mkPayload {
  p_platform : option jsstring;
  p_profileUrl : option jsstring;
  p_since : option jsstring;
  p_until : option jsstring
}.

(** A request: its method and the text of its body, [None] when reading
    the body throws. *)
Record Request : Type := mkRequest {
  method : jsstring;
  body : option jsstring
}.

Inductive Response : Type :=
| JsonError (status : nat) (error : jsstring)
| PdfDownload (status : nat) (headers : list (jsstring * jsstring))
              (pdf : list (list Op)).

Definition pdfHeaders : list (jsstring * jsstring) :=
  [ (lit "Content-Type", lit "application/pdf");
    (lit "Content-Disposition",
     lit "attachment; filename=" ++ [34%N] ++ lit "report.pdf" ++ [34%N]) ].

Section Service.

Context {host : Host}.

Variable pathnameOf : jsstring -> option jsstring.
Variable toISOString : number -> option jsstring.
Variable random : nat -> number.
Variable parseDate : jsstring -> number.
Variable now : number.
Variable sortWith :
  (PostSample -> PostSample -> number) -> list PostSample -> list PostSample.
Variable fetchFollowerCount : jsstring -> option (option number).
Variable fetchProfile : jsstring -> option InstagramUser.

(** [s.toLowerCase()]. *)
Variable toLowerCase : jsstring -> jsstring.

(** [JSON.parse(rawBody)] and the destructuring of line 46: [None] when
    the text is not JSON, [Some None] when it is JSON that cannot be
    destructured ([null]). *)
Variable parseJSON : jsstring -> option (option Payload).

(** metricsService.js, lines 100-115: the synthetic fallback. *)
Definition syntheticMetrics (fuel : nat) (since until : option jsstring)
           (k : nat) : Outcome MetricsBundle :=
  let endTime := endOf parseDate now until in
  let startTime := startOf parseDate since endTime in
  match generateFollowerHistory toISOString random fuel startTime endTime k with
  | Returned (followerHistory, k) =>
      Returned (mkMetrics followerHistory (generateTopPosts random k))
  | Threw what => Threw what
  | OutOfFuel => OutOfFuel
  end.

Definition fetchMetrics (fuel : nat) (since until platform profileUrl : option jsstring)
           (k : nat) : Outcome MetricsBundle :=
  let attempt :=
    match given platform, given profileUrl with
    | Some platform, Some profileUrl =>
        if jsstring_eqb (toLowerCase platform) (lit "instagram") then
          Some (getInstagramMetrics pathnameOf toISOString random parseDate now
                                    sortWith fetchProfile fuel profileUrl since until k)
        else if jsstring_eqb (toLowerCase platform) (lit "tiktok") then
          Some (getTikTokMetrics pathnameOf toISOString random parseDate now
                                 fetchFollowerCount fuel profileUrl since until k)
        else None
    | _, _ => None
    end in
  match attempt with
  | Some (Returned metrics, _) => Returned metrics
  | Some (Threw _, k) => syntheticMetrics fuel since until k
  | Some (OutOfFuel, _) => OutOfFuel
  | None => syntheticMetrics fuel since until k
  end.

Definition handler (fuel : nat) (req : Request) (k : nat) : Outcome Response :=
  if negb (jsstring_eqb (method req) (lit "POST")) then
    Returned (JsonError 405 (lit "Method Not Allowed"))
  else
    let failed := Returned (JsonError 500 (lit "Failed to generate report")) in
    match body req with
    | None => failed
    | Some raw =>
        let rawBody := str_or raw (lit "{}") in
        match parseJSON rawBody with
        | None => Returned (JsonError 400 (lit "Invalid JSON payload"))
        | Some None => failed
        | Some (Some data) =>
            match fetchMetrics fuel (p_since data) (p_until data)
                               (p_platform data) (p_profileUrl data) k with
            | Returned metrics =>
                match generateReport metrics
                                     (mkOptions (p_since data) (p_until data)) with
                | Ok pdfBuffer => Returned (PdfDownload 200 pdfHeaders pdfBuffer)
                | Throw _ => failed
                end
            | Threw _ => failed
            | OutOfFuel => OutOfFuel
            end
        end
    end.

End Service.

Definition sampleLower (s : jsstring) : jsstring := s.
Definition sampleJSON (raw : jsstring) : option (option Payload) :=
  Some (Some (mkPayload (Some (lit "tiktok")) (Some (lit "/@acme")) None None)).

Definition sampleRequest : Request := mkRequest (lit "POST") (Some []).

Definition fallbackRun : Outcome MetricsBundle :=
  fetchMetrics pathOnly isoOfAny randomHalf sampleParseDate sampleNow insertionSort
               sampleFetchCount sampleFetchProfile sampleLower
               40 None None None None 0.

Definition tiktokServiceRun : Outcome MetricsBundle :=
  fetchMetrics pathOnly isoOfAny randomHalf sampleParseDate sampleNow insertionSort
               sampleFetchCount sampleFetchProfile sampleLower
               40 None None (Some (lit "tiktok")) (Some (lit "/@acme")) 0.

(** ** Vocabulary of the continuation pages *)

Section Continuations.

Context {host : Host}.

(** In a run of calls every continuation page starts with the frame. *)
Definition framed (ops : list Op) : Prop :=
  forall a b, ops = a ++ OpContinueOnNewPage :: b -> exists r, b = frameCalls ++ r.

(** [grows d d']: from [d] to [d'] the program opens no page, and the
    continuation pages PDFKit opens meanwhile start with the frame. *)
Definition grows (d d' : Doc) : Prop :=
  done d' = done d /\ exists ops, page d' = page d ++ ops /\ framed ops.

End Continuations.

(** * Properties *)

(** ** Comparisons of binary64 numbers *)

Lemma eqb_zero_not_pos (n : number) : (n =? 0) = true -> (0 <? n) = false.
Proof.
  rewrite FloatAxioms.eqb_spec, FloatAxioms.ltb_spec.
  replace (Prim2SF 0) with (S754_zero false) by (vm_compute; reflexivity).
  unfold SFeqb, SFltb, SFcompare.
  destruct (Prim2SF n) as [s|s| |s m e]; try destruct s; congruence.
Qed.

Lemma lt_1_not_gt_5 (n : number) : (n <? 1) = true -> (5 <? n) = false.
Proof.
  rewrite !FloatAxioms.ltb_spec.
  replace (Prim2SF 1) with (S754_finite false 4503599627370496 (-52))
    by (vm_compute; reflexivity).
  replace (Prim2SF 5) with (S754_finite false 5629499534213120 (-50))
    by (vm_compute; reflexivity).
  unfold SFltb, SFcompare.
  destruct (Prim2SF n) as [s|s| |s m e]; try destruct s;
    try congruence.
  destruct (Z.compare_spec e (-52)); destruct (Z.compare_spec (-50) e);
    try congruence; lia.
Qed.

Lemma number_neq (a b : number) : (b =? b) = true -> (a =? b) = false -> a <> b.
Proof. intros Hb Hab E. subst a. congruence. Qed.

(** ** Derived statistics *)

(** C1: on an empty follower history [growth] and [dailyGrowth] are 0, but
    [startCount] and [endCount] are [undefined], so [totalNewFollowers],
    [growthSlope], [forecast30] and [forecast90] are [NaN], not 0. *)
Theorem C1_empty_history_gives_NaN (posts : list PostSample) :
  let st := derivedStats (emptyHistory posts) in
  startCount st = Undefined /\ endCount st = Undefined /\
  growth st = 0 /\ dailyGrowth st = 0 /\
  totalNewFollowers st = nan /\ growthSlope st = nan /\
  forecast30 st = nan /\ forecast90 st = nan.
Proof.
  repeat split; vm_compute; reflexivity.
Qed.

(** C2 (as stated, refuted): for the history 100, 200 the forecasts are not
    3100 and 9100. *)
Lemma C2_forecast_example_refuted :
  let st := derivedStats twoSamples in
  ~ (growthSlope st = 100 /\ forecast30 st = 3100 /\ forecast90 st = 9100).
Proof.
  intros st (_ & H30 & _). revert H30.
  apply number_neq; vm_compute; reflexivity.
Qed.

(** C2 (amended): for the history 100, 200 the slope is 100 over
    [numDays = 1], and the forecasts are 3200 and 9200; for every bundle
    [numDays] is [samples - 1] when there are at least two samples and 1
    otherwise, [growthSlope = (endCount - startCount) / numDays], and
    [forecastN = round(endCount + growthSlope * N)]. *)
Theorem C2_forecast_example :
  (let st := derivedStats twoSamples in
   numDays st = 1 /\ growthSlope st = 100 /\
   forecast30 st = 3200 /\ forecast90 st = 9200) /\
  (forall m : MetricsBundle,
     let st := derivedStats m in
     let samples := List.length (followerHistory m) in
     numDays st = (if (1 <? samples)%nat then of_nat samples - 1 else 1) /\
     growthSlope st =
       (if 0 <? numDays st
        then (ToNumber (endCount st) - ToNumber (startCount st)) / numDays st
        else 0) /\
     forecast30 st = Math_round (ToNumber (endCount st) + growthSlope st * 30) /\
     forecast90 st = Math_round (ToNumber (endCount st) + growthSlope st * 90)).
Proof.
  split.
  - repeat split; vm_compute; reflexivity.
  - intros m st samples. subst st samples.
    unfold derivedStats, counts_of.
    cbn [numDays growthSlope forecast30 forecast90 endCount startCount].
    rewrite length_map. repeat split; reflexivity.
Qed.

(** C4 (as stated, refuted): a history that starts and ends at 100 has
    [growth] 0 although [startCount] is not 0. *)
Lemma C4_zero_growth_with_nonzero_start :
  let st := derivedStats steadyHistory in
  ~ ((growth st =? 0) = true <-> (ToNumber (startCount st) =? 0) = true).
Proof.
  intros st [H _].
  assert (E : (ToNumber (startCount st) =? 0) = true)
    by (apply H; vm_compute; reflexivity).
  vm_compute in E. discriminate E.
Qed.

(** C4 (amended): [growth] is 0 whenever [startCount == 0], whatever
    [endCount] is (and whenever [startCount] is [undefined] or [NaN]);
    when [startCount] is a non-zero number, [growth] is
    [(endCount - startCount) / startCount * 100], which can be 0 as well. *)
Theorem C4_growth_percent (m : MetricsBundle) :
  let st := derivedStats m in
  ((ToNumber (startCount st) =? 0) = true -> growth st = 0) /\
  (ToBoolean (startCount st) = false -> growth st = 0) /\
  (ToBoolean (startCount st) = true ->
   growth st =
   (ToNumber (endCount st) - ToNumber (startCount st))
   / ToNumber (startCount st) * 100).
Proof.
  intros st. subst st. unfold derivedStats; cbn [growth startCount endCount].
  repeat split.
  - intros H0.
    destruct (first (counts_of m)) as [|n]; cbn [ToBoolean ToNumber] in *.
    + reflexivity.
    + unfold truthy. rewrite H0. reflexivity.
  - intros Hf. rewrite Hf. reflexivity.
  - intros Ht. rewrite Ht. reflexivity.
Qed.

Lemma C4_growth_percent_witness :
  growth (derivedStats (mkMetrics [sample 0; sample 50] [])) = 0 /\
  growth (derivedStats twoSamples) = (200 - 100) / 100 * 100.
Proof.
  split.
  - apply (proj1 (C4_growth_percent (mkMetrics [sample 0; sample 50] []))).
    vm_compute; reflexivity.
  - apply (proj2 (proj2 (C4_growth_percent twoSamples))).
    vm_compute; reflexivity.
Defined.

(** C5 (as stated, refuted): with 100 followers and one post without likes
    or comments, [engagementRate] is 0 although [endCount] is not 0 and
    [topPosts] is not empty. *)
Lemma C5_zero_engagement_with_followers_and_posts :
  let st := derivedStats silentPosts in
  ~ ((engagementRate st =? 0) = true <->
     ((ToNumber (endCount st) =? 0) = true \/ topPosts silentPosts = [])).
Proof.
  intros st [H _].
  destruct H as [E | E]; [vm_compute; reflexivity | | ].
  - vm_compute in E. discriminate E.
  - discriminate E.
Qed.

(** C5 (amended): [engagementRate] is 0 whenever [endCount == 0] (or
    [endCount > 0] fails otherwise) or [topPosts] is empty; when
    [endCount > 0] and there are posts it is
    [(totalLikes + totalComments) / (postCount * endCount) * 100], which
    can be 0 as well. *)
Theorem C5_engagement_rate (m : MetricsBundle) :
  let st := derivedStats m in
  ((ToNumber (endCount st) =? 0) = true \/
   (0 <? ToNumber (endCount st)) = false \/
   topPosts m = [] ->
   engagementRate st = 0) /\
  ((0 <? ToNumber (endCount st)) = true -> topPosts m <> [] ->
   engagementRate st =
   (totalLikes st + totalComments st)
   / (of_nat (List.length (topPosts m)) * ToNumber (endCount st)) * 100).
Proof.
  intros st. subst st. unfold derivedStats.
  cbn [engagementRate endCount totalLikes totalComments].
  split.
  - intros [H0 | [Hneg | Hnil]].
    + rewrite (eqb_zero_not_pos H0). reflexivity.
    + rewrite Hneg. reflexivity.
    + rewrite Hnil. cbn [List.length Nat.ltb Nat.leb].
      rewrite andb_false_r. reflexivity.
  - intros Hpos Hposts. rewrite Hpos.
    destruct (topPosts m) as [|p rest]; [congruence|].
    reflexivity.
Qed.

Lemma C5_engagement_rate_witness :
  engagementRate (derivedStats (mkMetrics [sample 100] [])) = 0 /\
  engagementRate (derivedStats likedPost) = (3 + 2) / (1 * 100) * 100.
Proof.
  split.
  - apply (proj1 (C5_engagement_rate (mkMetrics [sample 100] []))).
    right; right; reflexivity.
  - apply (proj2 (C5_engagement_rate likedPost)).
    + vm_compute; reflexivity.
    + discriminate.
Defined.

(** ** Recommendations *)

Ltac by_tests :=
  unfold recommendationsOf, push;
  repeat match goal with
         | |- context [if ?b then _ else _] => destruct b eqn:?
         end;
  try discriminate; vm_compute; try reflexivity.

Ltac in_list :=
  cbn [List.app List.In];
  solve [repeat (first [left; reflexivity | right])].

Ltac not_in_list :=
  let Hin := fresh "Hin" in
  cbn [List.app List.In]; intros Hin;
  repeat (destruct Hin as [Hin | Hin]; [vm_compute in Hin; discriminate Hin|]);
  exact Hin.

Ltac decide_in :=
  match goal with
  | |- List.In _ _ <-> true = true =>
      split; [reflexivity | intros _; in_list]
  | |- List.In _ _ <-> false = true =>
      split; [intros ?Hin; exfalso; revert Hin; not_in_list | discriminate]
  end.

(** C7: the recommendations list holds exactly one growth-cadence message:
    the flat/declining one when [growthSlope <= 0], else the modest one
    when [dailyGrowth < 5], else the strong one. *)
Theorem C7_one_cadence_message
        (growthSlope dailyGrowth engagementRate commentLikeRatio : number) :
  List.filter is_cadence
    (recommendationsOf growthSlope dailyGrowth engagementRate commentLikeRatio)
  = [ if growthSlope <=? 0 then msg_flat
      else if dailyGrowth <? 5 then msg_modest
      else msg_strong ].
Proof.
  by_tests.
Qed.

(** C8: the low-engagement message is in the list exactly when
    [engagementRate < 1], the high-engagement message exactly when
    [engagementRate > 5], and no engagement message is there otherwise; so
    0.5 gives the low message, 6 the high one and 3 none. *)
Theorem C8_engagement_message :
  (forall growthSlope dailyGrowth engagementRate commentLikeRatio : number,
     let recs :=
       recommendationsOf growthSlope dailyGrowth engagementRate commentLikeRatio in
     (List.In msg_low_engagement recs <-> (engagementRate <? 1) = true) /\
     (List.In msg_high_engagement recs <-> (5 <? engagementRate) = true) /\
     List.filter is_engagement recs =
       if engagementRate <? 1 then [msg_low_engagement]
       else if 5 <? engagementRate then [msg_high_engagement]
       else []) /\
  (forall growthSlope dailyGrowth commentLikeRatio : number,
     let recs := recommendationsOf growthSlope dailyGrowth in
     List.filter is_engagement (recs 0.5 commentLikeRatio) = [msg_low_engagement] /\
     List.filter is_engagement (recs 6 commentLikeRatio) = [msg_high_engagement] /\
     List.filter is_engagement (recs 3 commentLikeRatio) = []).
Proof.
  split.
  - intros gs dg er clr recs. subst recs.
    pose proof (@lt_1_not_gt_5 er) as Hexcl.
    unfold recommendationsOf, push.
    destruct (er <? 1) eqn:Hlow;
      [rewrite (Hexcl eq_refl) | destruct (5 <? er) eqn:Hhigh];
      destruct (gs <=? 0), (dg <? 5), (clr <? 10);
      (split; [decide_in | split; [decide_in | vm_compute; reflexivity]]).
  - intros gs dg clr recs. subst recs.
    unfold recommendationsOf, push.
    replace (0.5 <? 1) with true by reflexivity.
    replace (6 <? 1) with false by reflexivity.
    replace (5 <? 6) with true by reflexivity.
    replace (3 <? 1) with false by reflexivity.
    replace (5 <? 3) with false by reflexivity.
    repeat split; by_tests.
Qed.

(** ** Text calls and continuation pages *)

Section TextCalls.

Context {host : Host}.

Lemma frame_page d : page (drawBackgroundAndCard d) = page d ++ frameCalls.
Proof.
  unfold drawBackgroundAndCard. cbn [page emit set_x set_y].
  rewrite <- !app_assoc. reflexivity.
Qed.

Lemma frame_done d : done (drawBackgroundAndCard d) = done d.
Proof. reflexivity. Qed.

Lemma continue_page x k :
  forall d, page (Nat.iter k (continueOnNewPage x) d) = page d ++ continuation k.
Proof.
  induction k as [|k IH]; intros d.
  - cbn. rewrite app_nil_r. reflexivity.
  - rewrite Nat.iter_succ_r, IH. unfold continueOnNewPage.
    cbn [page set_x]. rewrite frame_page. cbn [page].
    unfold continuation. cbn [List.repeat List.concat].
    rewrite <- !app_assoc. reflexivity.
Qed.

Lemma continue_done x k :
  forall d, done (Nat.iter k (continueOnNewPage x) d) = done d.
Proof.
  induction k as [|k IH]; intros d; [reflexivity|].
  rewrite Nat.iter_succ_r, IH. reflexivity.
Qed.

Lemma page_text s pos o d :
  page (text s pos o d) =
  page d ++ OpText s pos o :: continuation (pageBreaks d s pos o).
Proof.
  unfold text. cbn [page]. rewrite continue_page. cbn [page emit].
  rewrite <- app_assoc. reflexivity.
Qed.

Lemma done_text s pos o d : done (text s pos o d) = done d.
Proof. unfold text. cbn [done]. rewrite continue_done. reflexivity. Qed.

Lemma forallb_continuation (P : Op -> bool) k :
  P OpContinueOnNewPage = true -> List.forallb P frameCalls = true ->
  List.forallb P (continuation k) = true.
Proof.
  intros Hc Hf. unfold continuation.
  induction k as [|k IH]; [reflexivity|].
  cbn [List.repeat List.concat]. rewrite forallb_app, IH, andb_true_r.
  cbn [List.forallb]. rewrite Hc. exact Hf.
Qed.

End TextCalls.

(** ** Pages *)

Section Pagination.

Context {host : Host}.
Variable P : Op -> bool.

Lemma draws_refl d : draws P d d.
Proof.
  split; [reflexivity|]. exists []. rewrite app_nil_r. split; reflexivity.
Qed.

Lemma draws_trans d1 d2 d3 : draws P d1 d2 -> draws P d2 d3 -> draws P d1 d3.
Proof.
  intros [D12 (o12 & E12 & F12)] [D23 (o23 & E23 & F23)]. split.
  - congruence.
  - exists (o12 ++ o23). rewrite E23, E12, app_assoc, forallb_app, F12, F23.
    split; reflexivity.
Qed.

Lemma draws_emit op d : P op = true -> draws P d (emit op d).
Proof.
  intros H. split; [reflexivity|]. exists [op]. cbn. rewrite H. split; reflexivity.
Qed.

Lemma draws_text s pos o d :
  P (OpText s pos o) = true ->
  P OpContinueOnNewPage = true -> List.forallb P frameCalls = true ->
  draws P d (text s pos o d).
Proof.
  intros H Hc Hf. split; [apply done_text|].
  exists (OpText s pos o :: continuation (pageBreaks d s pos o)).
  split; [apply page_text|].
  cbn [List.forallb]. rewrite H. apply forallb_continuation; assumption.
Qed.

Lemma draws_moveDown n d : P (OpMoveDown n) = true -> draws P d (moveDown n d).
Proof.
  intros H. split; [reflexivity|]. exists [OpMoveDown n]. cbn. rewrite H.
  split; reflexivity.
Qed.

Lemma draws_set_x x d : draws P d (set_x x d).
Proof.
  split; [reflexivity|]. exists []. cbn. rewrite app_nil_r. split; reflexivity.
Qed.

Lemma draws_set_y y d : draws P d (set_y y d).
Proof.
  split; [reflexivity|]. exists []. cbn. rewrite app_nil_r. split; reflexivity.
Qed.

Lemma draws_forEach {A : Type} (f : A -> nat -> Doc -> Doc) (l : list A) :
  (forall a i d, draws P d (f a i d)) ->
  forall i d, draws P d (forEach f l i d).
Proof.
  intros Hf. induction l as [|a l IH]; intros i d; cbn [forEach].
  - apply draws_refl.
  - eapply draws_trans; [apply Hf | apply IH].
Qed.

Lemma draws_done d d' : draws P d d' -> done d' = done d.
Proof. intros [H _]. exact H. Qed.

Lemma draws_any d d' : draws P d d' -> draws any_op d d'.
Proof.
  intros [D (ops & E & _)]. split; [exact D|]. exists ops. split; [exact E|].
  apply forallb_forall. reflexivity.
Qed.

End Pagination.

Ltac draws_step :=
  lazymatch goal with
  | |- draws _ ?d ?d => apply draws_refl
  | |- draws _ _ (emit _ _) =>
      eapply draws_trans; [ | solve [apply draws_emit; reflexivity] ]
  | |- draws _ _ (text _ _ _ _) =>
      eapply draws_trans;
      [ | solve [apply draws_text; first [reflexivity | assumption]] ]
  | |- draws _ _ (moveDown _ _) =>
      eapply draws_trans; [ | solve [apply draws_moveDown; reflexivity] ]
  | |- draws _ _ (set_x _ _) => eapply draws_trans; [ | apply draws_set_x ]
  | |- draws _ _ (set_y _ _) => eapply draws_trans; [ | apply draws_set_y ]
  | |- draws _ _ (forEach _ _ _ _) =>
      eapply draws_trans; [ | apply draws_forEach; intros; cbv beta ]
  | |- draws _ _ (cell _ _ _ _) => unfold cell
  | |- draws _ _ (if ?b then _ else _) => destruct b
  | |- draws _ _ (let (_, _) := ?p in _) => destruct p
  | |- draws _ _ (match ?n with O => _ | S _ => _ end) => destruct n
  end.

Ltac draws_auto := cbv zeta; repeat draws_step.

Section Blocks.

Context {host : Host}.

Lemma drawBackgroundAndCard_draws d : draws no_path_op d (drawBackgroundAndCard d).
Proof. unfold drawBackgroundAndCard. draws_auto. Qed.

Lemma drawHeader_draws o d : draws no_path_op d (drawHeader o d).
Proof. unfold drawHeader. draws_auto. Qed.

Lemma drawSummary_draws st d : draws no_path_op d (drawSummary st d).
Proof. unfold drawSummary. draws_auto. Qed.

Lemma summaryPage_draws m o : draws no_path_op newDocument (summaryPage m o).
Proof.
  unfold summaryPage.
  eapply draws_trans; [ | apply drawSummary_draws].
  eapply draws_trans; [ | apply drawHeader_draws].
  eapply draws_trans; [ | apply drawBackgroundAndCard_draws].
  draws_auto.
Qed.

Lemma drawGrowthChart_draws h d : draws any_op d (drawGrowthChart h d).
Proof.
  unfold drawGrowthChart, drawAxes, drawChartHeading, plotPoint. draws_auto.
Qed.

Lemma drawHistoryTable_draws h d : draws any_op d (drawHistoryTable h d).
Proof. unfold drawHistoryTable, historyRow. draws_auto. Qed.

Lemma drawBarChart_draws posts d : draws any_op d (drawBarChart posts d).
Proof. unfold drawBarChart, drawBars. draws_auto. Qed.

Lemma drawTakeaways_draws st d : draws any_op d (drawTakeaways st d).
Proof. unfold drawTakeaways. draws_auto. Qed.

Lemma drawRecommendations_draws st d : draws any_op d (drawRecommendations st d).
Proof. unfold drawRecommendations. draws_auto. Qed.

Lemma drawTableHeader_draws d : draws any_op d (drawTableHeader d).
Proof. unfold drawTableHeader. draws_auto. Qed.

Lemma drawRow_draws post d d' : drawRow post d = Ok d' -> draws any_op d d'.
Proof.
  unfold drawRow. destruct (title post) as [t|]; [|discriminate].
  intros E. injection E as <-. draws_auto.
Qed.

Lemma drawRows_draws posts :
  forall d d', drawRows posts d = Ok d' -> draws any_op d d'.
Proof.
  induction posts as [|post rest IH]; intros d d'; cbn [drawRows].
  - intros E. injection E as <-. apply draws_refl.
  - destruct (drawRow post d) as [d1|e] eqn:E1; cbn [bind]; [|discriminate].
    intros E. eapply draws_trans; [eapply drawRow_draws; eassumption|].
    apply IH. exact E.
Qed.

(** The table is drawn to the end exactly when every post has a title. *)
Lemma drawRows_ok posts :
  List.Forall has_title posts -> forall d, exists d', drawRows posts d = Ok d'.
Proof.
  induction 1 as [|post rest Hpost _ IH]; intros d; cbn [drawRows].
  - exists d. reflexivity.
  - unfold drawRow at 1. unfold has_title in Hpost.
    destruct (title post) as [t|]; [|congruence].
    cbn [bind]. apply IH.
Qed.

Lemma drawRows_throw posts :
  forall d, (exists e, drawRows posts d = Throw e) <->
            List.Exists (fun p => title p = None) posts.
Proof.
  induction posts as [|post rest IH]; intros d; cbn [drawRows].
  - split; [intros [e E]; discriminate E | intros H; inversion H].
  - unfold drawRow at 1. destruct (title post) as [t|] eqn:Et; cbn [bind].
    + rewrite IH. split; [intros H; right; exact H|].
      intros H. inversion H as [? ? Hn|? ? Hr]; subst; [congruence|exact Hr].
    + split; [intros _; left; exact Et|]. intros _. eexists. reflexivity.
Qed.

Lemma addPage_done d : done (addPage d) = done d ++ [page d].
Proof. reflexivity. Qed.

Lemma page1_done m o : done (page1 m o) = [].
Proof.
  unfold page1.
  rewrite (draws_done (drawGrowthChart_draws _ _)).
  apply (draws_done (summaryPage_draws m o)).
Qed.

Lemma page2_done m d : done (page2 m d) = done d ++ [page d].
Proof.
  unfold page2.
  rewrite (draws_done (drawBarChart_draws _ _)).
  rewrite (draws_done (drawHistoryTable_draws _ _)).
  apply addPage_done.
Qed.

Lemma page3_done m d : done (page3 m d) = done d ++ [page d].
Proof.
  unfold page3.
  rewrite (draws_done (drawRecommendations_draws _ _)).
  rewrite (draws_done (drawTakeaways_draws _ _)).
  apply addPage_done.
Qed.

Lemma page4_done m d d' : page4 m d = Ok d' -> done d' = done d ++ [page d].
Proof.
  unfold page4. intros E.
  rewrite (draws_done (drawRows_draws _ _ E)).
  rewrite (draws_done (drawTableHeader_draws _)).
  apply addPage_done.
Qed.

(** PDFKit's check. *)
Lemma rejected_none ops :
  rejected ops = None <-> List.forallb accepted ops = true.
Proof.
  unfold rejected. induction ops as [|op ops IH]; [split; reflexivity|].
  cbn [List.flat_map List.forallb]. unfold accepted at 1.
  induction (numbersOf op) as [|n ns IHn]; cbn [List.app List.find List.forallb].
  - exact IH.
  - destruct (supported n); cbn [negb andb]; [exact IHn|].
    split; discriminate.
Qed.

Lemma pdfkit_ok d d' :
  pdfkit d = Ok d' <->
  d' = d /\ List.forallb accepted (List.concat (finish d)) = true.
Proof.
  unfold pdfkit. rewrite <- rejected_none.
  destruct (rejected (List.concat (finish d))) as [n|].
  - split; [discriminate | intros [_ H]; discriminate H].
  - split; [intros E; injection E as <-; split; reflexivity|].
    intros [-> _]. reflexivity.
Qed.

Lemma pdfkit_throw d :
  (exists e, pdfkit d = Throw e) <->
  List.forallb accepted (List.concat (finish d)) = false.
Proof.
  unfold pdfkit.
  destruct (rejected (List.concat (finish d))) as [n|] eqn:E.
  - split; [|intros _; eexists; reflexivity]. intros _.
    destruct (List.forallb accepted (List.concat (finish d))) eqn:F;
      [|reflexivity].
    apply rejected_none in F. congruence.
  - apply rejected_none in E. rewrite E.
    split; [intros [e He]; discriminate He | discriminate].
Qed.

Lemma finish_page3 m o :
  finish (page3 m (page2 m (page1 m o))) =
  [ page (page1 m o); page (page2 m (page1 m o));
    page (page3 m (page2 m (page1 m o))) ].
Proof.
  unfold finish. rewrite page3_done, page2_done, page1_done. reflexivity.
Qed.

Lemma finish_page4 m o d4 :
  page4 m (page3 m (page2 m (page1 m o))) = Ok d4 ->
  finish d4 =
  [ page (page1 m o); page (page2 m (page1 m o));
    page (page3 m (page2 m (page1 m o))); page d4 ].
Proof.
  intros E4. unfold finish.
  rewrite (page4_done _ _ E4), page3_done, page2_done, page1_done.
  reflexivity.
Qed.

(** What a finished report is: the four pages, every call of which PDFKit
    has accepted. *)
Lemma generateReport_returns m o doc :
  generateReport m o = Ok doc <->
  exists d4,
    page4 m (page3 m (page2 m (page1 m o))) = Ok d4 /\
    doc = [ page (page1 m o);
            page (page2 m (page1 m o));
            page (page3 m (page2 m (page1 m o)));
            page d4 ] /\
    List.forallb accepted (List.concat doc) = true.
Proof.
  unfold generateReport. split.
  - destruct (pdfkit (page3 m _)) as [d3|e] eqn:E3; cbn [bind]; [|discriminate].
    apply pdfkit_ok in E3. destruct E3 as [-> _].
    destruct (page4 m _) as [d4|e] eqn:E4; cbn [bind]; [|discriminate].
    destruct (pdfkit d4) as [d|e] eqn:E5; cbn [bind]; [|discriminate].
    apply pdfkit_ok in E5. destruct E5 as [-> A].
    intros E. injection E as <-. exists d4.
    rewrite (finish_page4 _ _ E4) in *. repeat split; assumption.
  - intros (d4 & E4 & -> & A).
    rewrite <- (finish_page4 _ _ E4) in A.
    assert (A3 : List.forallb accepted
                   (List.concat (finish (page3 m (page2 m (page1 m o))))) = true).
    { rewrite (finish_page4 _ _ E4) in A. rewrite finish_page3.
      cbn [List.concat] in *. rewrite !forallb_app in *.
      repeat (apply andb_prop in A; destruct A as [? A]).
      repeat (apply andb_true_intro; split); auto. }
    rewrite (proj2 (pdfkit_ok _ _) (conj eq_refl A3)). cbn [bind].
    rewrite E4. cbn [bind].
    rewrite (proj2 (pdfkit_ok _ _) (conj eq_refl A)). cbn [bind].
    rewrite (finish_page4 _ _ E4). reflexivity.
Qed.

(** The pages of a finished report. *)
Lemma generateReport_pages m o doc :
  generateReport m o = Ok doc ->
  exists d4,
    page4 m (page3 m (page2 m (page1 m o))) = Ok d4 /\
    doc = [ page (page1 m o);
            page (page2 m (page1 m o));
            page (page3 m (page2 m (page1 m o)));
            page d4 ].
Proof.
  intros E. apply generateReport_returns in E.
  destruct E as (d4 & E4 & -> & _). exists d4. split; [exact E4|reflexivity].
Qed.

(** Page 1 starts with the frame. *)
Lemma page1_frame m o :
  exists r, page (page1 m o) = OpFont (lit "Helvetica") :: frameCalls ++ r.
Proof.
  assert (D : draws any_op
                (drawBackgroundAndCard (emit (OpFont (lit "Helvetica")) newDocument))
                (page1 m o)).
  { unfold page1, summaryPage.
    eapply draws_trans; [|apply drawGrowthChart_draws].
    eapply draws_trans; [|eapply draws_any, drawSummary_draws].
    eapply draws_any, drawHeader_draws. }
  destruct D as [_ (r & -> & _)]. exists r. rewrite frame_page. reflexivity.
Qed.

Lemma page1_accepted_frame m o :
  List.forallb accepted (page (page1 m o)) = true ->
  List.forallb accepted frameCalls = true.
Proof.
  destruct (page1_frame m o) as [r ->]. cbn [List.forallb].
  rewrite forallb_app. intros H.
  apply andb_prop in H. destruct H as [_ H].
  apply andb_prop in H. apply H.
Qed.

(** The blocks that only write text hand PDFKit no number of their own:
    their calls are accepted as soon as the frame is, which continuation
    pages repeat. *)
Section TextBlocks.

Hypothesis frame_accepted : List.forallb accepted frameCalls = true.

Lemma frame_accepts d : draws accepted d (drawBackgroundAndCard d).
Proof.
  split; [reflexivity|]. exists frameCalls. split; [apply frame_page|].
  exact frame_accepted.
Qed.

Lemma addPage_accepts d : List.forallb accepted (page (addPage d)) = true.
Proof. exact frame_accepted. Qed.

Lemma drawHeader_accepts o d : draws accepted d (drawHeader o d).
Proof. unfold drawHeader. draws_auto. Qed.

Lemma drawSummary_accepts st d : draws accepted d (drawSummary st d).
Proof. unfold drawSummary. draws_auto. Qed.

Lemma summaryPage_accepts m o : draws accepted newDocument (summaryPage m o).
Proof.
  unfold summaryPage.
  eapply draws_trans; [ | apply drawSummary_accepts].
  eapply draws_trans; [ | apply drawHeader_accepts].
  eapply draws_trans; [ | apply frame_accepts].
  draws_auto.
Qed.

Lemma drawHistoryTable_accepts h d : draws accepted d (drawHistoryTable h d).
Proof. unfold drawHistoryTable, historyRow. draws_auto. Qed.

Lemma drawTakeaways_accepts st d : draws accepted d (drawTakeaways st d).
Proof. unfold drawTakeaways. draws_auto. Qed.

Lemma drawRecommendations_accepts st d :
  draws accepted d (drawRecommendations st d).
Proof. unfold drawRecommendations. draws_auto. Qed.

Lemma drawTableHeader_accepts d : draws accepted d (drawTableHeader d).
Proof. unfold drawTableHeader. draws_auto. Qed.

Lemma drawRow_accepts post d d' : drawRow post d = Ok d' -> draws accepted d d'.
Proof.
  unfold drawRow. destruct (title post) as [t|]; [|discriminate].
  intros E. injection E as <-. draws_auto.
Qed.

Lemma drawRows_accepts posts :
  forall d d', drawRows posts d = Ok d' -> draws accepted d d'.
Proof.
  induction posts as [|post rest IH]; intros d d'; cbn [drawRows].
  - intros E. injection E as <-. apply draws_refl.
  - destruct (drawRow post d) as [d1|e] eqn:E1; cbn [bind]; [|discriminate].
    intros E. eapply draws_trans; [eapply drawRow_accepts; eassumption|].
    apply IH. exact E.
Qed.

Lemma draws_accepted d d' :
  draws accepted d d' ->
  List.forallb accepted (page d) = true ->
  List.forallb accepted (page d') = true.
Proof.
  intros [_ (ops & -> & A)] H. rewrite forallb_app, H, A. reflexivity.
Qed.

Lemma page3_accepts m d : List.forallb accepted (page (page3 m d)) = true.
Proof.
  unfold page3.
  eapply draws_accepted; [apply drawRecommendations_accepts|].
  eapply draws_accepted; [apply drawTakeaways_accepts|].
  apply addPage_accepts.
Qed.

Lemma page4_accepts m d d4 :
  page4 m d = Ok d4 -> List.forallb accepted (page d4) = true.
Proof.
  unfold page4. intros E.
  eapply draws_accepted; [eapply drawRows_accepts; exact E|].
  eapply draws_accepted; [apply drawTableHeader_accepts|].
  apply addPage_accepts.
Qed.

(** Without the growth chart page 1 is frame, header and summary. *)
Lemma page1_sparse m o :
  (List.length (followerHistory m) <= 1)%nat -> page1 m o = summaryPage m o.
Proof.
  intros Hlen. unfold page1, drawGrowthChart.
  destruct (followerHistory m) as [|a [|b rest]];
    [reflexivity | reflexivity | cbn [List.length] in Hlen; lia].
Qed.

Lemma page1_sparse_accepts m o :
  (List.length (followerHistory m) <= 1)%nat ->
  List.forallb accepted (page (page1 m o)) = true.
Proof.
  intros Hlen. rewrite (page1_sparse _ _ Hlen).
  eapply draws_accepted; [apply summaryPage_accepts|]. reflexivity.
Qed.

(** Without posts page 2 is frame and history table. *)
Lemma page2_no_posts m d :
  topPosts m = [] -> page2 m d = drawHistoryTable (followerHistory m) (addPage d).
Proof. intros E. unfold page2. rewrite E. reflexivity. Qed.

Lemma page2_no_posts_accepts m d :
  topPosts m = [] -> List.forallb accepted (page (page2 m d)) = true.
Proof.
  intros E. rewrite (page2_no_posts _ _ E).
  eapply draws_accepted; [apply drawHistoryTable_accepts|].
  apply addPage_accepts.
Qed.

End TextBlocks.

(** A report is returned exactly when every post has a title and PDFKit
    accepts the calls of pages 1 and 2: the charts are the only place
    where numbers computed from the metrics are handed to it. *)
Lemma generateReport_ok_iff m o :
  (exists doc, generateReport m o = Ok doc) <->
  List.Forall has_title (topPosts m) /\
  List.forallb accepted (page (page1 m o)) = true /\
  List.forallb accepted (page (page2 m (page1 m o))) = true.
Proof.
  split.
  - intros [doc E]. apply generateReport_returns in E.
    destruct E as (d4 & E4 & -> & A). cbn [List.concat] in A.
    rewrite !forallb_app in A.
    apply andb_prop in A. destruct A as [A1 A].
    apply andb_prop in A. destruct A as [A2 _].
    split; [|split; assumption].
    apply Forall_forall. intros p Hp Hnone. unfold page4 in E4.
    assert (Hex : exists e, drawRows (topPosts m)
                    (drawTableHeader (addPage (page3 m (page2 m (page1 m o)))))
                  = Throw e).
    { apply drawRows_throw. apply Exists_exists. exists p. split; assumption. }
    destruct Hex as [e Hex]. congruence.
  - intros (Ht & A1 & A2).
    pose proof (page1_accepted_frame _ _ A1) as Hf.
    destruct (drawRows_ok Ht
                (drawTableHeader (addPage (page3 m (page2 m (page1 m o))))))
      as [d4 E4].
    fold (page4 m (page3 m (page2 m (page1 m o)))) in E4.
    eexists. apply generateReport_returns. exists d4.
    split; [exact E4|]. split; [reflexivity|].
    cbn [List.concat]. rewrite !forallb_app, A1, A2.
    rewrite (page3_accepts Hf), (page4_accepts Hf _ _ E4). reflexivity.
Qed.


(** The page size of line 53. *)
Lemma a4_frame :
  pageWidth = 595.28 -> pageHeight = 841.89 ->
  List.forallb accepted frameCalls = true.
Proof.
  intros W H. unfold frameCalls. rewrite W, H. vm_compute. reflexivity.
Qed.

End Blocks.

Lemma mul_comm (a b : number) : a * b = b * a.
Proof.
  apply Prim2SF_inj. rewrite !FloatAxioms.mul_spec.
  unfold SF64mul, SFmul.
  destruct (Prim2SF a) as [sa|sa| |sa ma ea], (Prim2SF b) as [sb|sb| |sb mb eb];
    try reflexivity; rewrite (xorb_comm sa sb); try reflexivity.
  rewrite (Pos.mul_comm ma mb), (Z.add_comm ea eb). reflexivity.
Qed.

(** ** The line chart *)

Section LineChart.

Context {host : Host}.

Lemma linePoint_chartPoint counts chartY item idx :
  linePoint counts chartY item idx =
  chartPoint (chartX + marginX) chartY chartWidth chartHeight
             (List.length counts) (Math_min counts) (Math_max counts)
             idx (count item).
Proof.
  unfold linePoint, chartPoint, xStep, yRange.
  rewrite (mul_comm (of_nat idx)). reflexivity.
Qed.

Lemma page_plotPoint counts chartY item idx d :
  page (plotPoint counts chartY item idx d) =
  page d ++
  [match idx with
   | O => OpMoveTo (fst (linePoint counts chartY item idx))
                   (snd (linePoint counts chartY item idx))
   | S _ => OpLineTo (fst (linePoint counts chartY item idx))
                     (snd (linePoint counts chartY item idx))
   end].
Proof.
  unfold plotPoint. destruct (linePoint counts chartY item idx) as [x y].
  destruct idx; reflexivity.
Qed.

Lemma plot_rest counts chartY l :
  forall i d,
    page (forEach (plotPoint counts chartY) l (S i) d) =
    page d ++
    List.map (fun q => OpLineTo (fst q) (snd q))
             (List.map (fun p => linePoint counts chartY (snd p) (fst p))
                       (indexed_from (S i) l)).
Proof.
  induction l as [|a l IH]; intros i d.
  - cbn. rewrite app_nil_r. reflexivity.
  - cbn [forEach]. rewrite IH.
    unfold indexed_from.
    cbn [List.length List.seq List.combine List.map fst snd].
    rewrite page_plotPoint, <- app_assoc. reflexivity.
Qed.

Lemma plot_all counts chartY l d :
  page (forEach (plotPoint counts chartY) l 0 d) =
  page d ++
  polyline (List.map (fun p => linePoint counts chartY (snd p) (fst p))
                     (indexed_from 0 l)).
Proof.
  destruct l as [|a l].
  - cbn. rewrite app_nil_r. reflexivity.
  - cbn [forEach]. rewrite plot_rest.
    unfold indexed_from.
    cbn [List.length List.seq List.combine List.map fst snd polyline].
    rewrite page_plotPoint, <- app_assoc. reflexivity.
Qed.

(** C6: with N >= 2 samples the path of the growth chart goes through
    the points [x = boxX + i * (width / (N-1))],
    [y = boxY + height - ((v - min) / (max - min, or 1)) * height], in
    the order of the samples; with N < 2 the chart block draws nothing
    (no heading, no axes) and leaves the document as it was. *)
Theorem C6_line_chart_points (history : list FollowerSample) (d : Doc) :
  if (2 <=? List.length history)%nat then
    let counts := List.map count history in
    let boxX := chartX + marginX in
    let boxY := doc_y (drawChartHeading d) in
    page (drawGrowthChart history d) =
    page (drawAxes history boxY (drawChartHeading d))
    ++ [OpStrokeColor (lit "#5a6dfb"); OpLineWidth 1.5]
    ++ polyline
         (List.map
            (fun p => chartPoint boxX boxY chartWidth chartHeight
                                 (List.length history)
                                 (Math_min counts) (Math_max counts)
                                 (fst p) (count (snd p)))
            (indexed_from 0 history))
    ++ [OpStroke; OpRestore]
  else drawGrowthChart history d = d.
Proof.
  unfold drawGrowthChart.
  change (1 <? List.length history)%nat with (2 <=? List.length history)%nat.
  destruct (2 <=? List.length history)%nat; [|reflexivity].
  cbv zeta. cbn [page set_y emit].
  rewrite plot_all. cbn [page emit].
  rewrite <- !app_assoc. cbn [List.app].
  do 3 f_equal. f_equal. f_equal.
  apply map_ext. intros [i item]. cbn [fst snd].
  rewrite linePoint_chartPoint, length_map. reflexivity.
Qed.


End LineChart.


(** ** The top-posts table *)

Section TopPosts.

Context {host : Host}.

Lemma page_emit op d : page (emit op d) = page d ++ [op].
Proof. reflexivity. Qed.

Lemma page_text_calls s pos o d :
  page (text s pos o d) =
  (page d ++ [OpText s pos o]) ++ continuation (pageBreaks d s pos o).
Proof. rewrite page_text, <- app_assoc. reflexivity. Qed.

Lemma page_moveDown n d : page (moveDown n d) = page d ++ [OpMoveDown n].
Proof. reflexivity. Qed.

Lemma page_set_x x d : page (set_x x d) = page d.
Proof. reflexivity. Qed.

Lemma page_set_y y d : page (set_y y d) = page d.
Proof. reflexivity. Qed.

Lemma textsOfWidth_app w a b :
  textsOfWidth w (a ++ b) = textsOfWidth w a ++ textsOfWidth w b.
Proof. apply flat_map_app. Qed.

Lemma textsOfWidth_continuation w k : textsOfWidth w (continuation k) = [].
Proof.
  unfold continuation. induction k as [|k IH]; [reflexivity|].
  cbn [List.repeat List.concat]. rewrite textsOfWidth_app, IH. reflexivity.
Qed.

Lemma title_width : (titleColWidth2 =? titleColWidth2) = true.
Proof. reflexivity. Qed.

Lemma likes_width : (likesColWidth2 =? titleColWidth2) = false.
Proof. reflexivity. Qed.

Lemma comments_width : (commentsColWidth2 =? titleColWidth2) = false.
Proof. reflexivity. Qed.

Ltac page_norm :=
  repeat first [ rewrite page_emit | rewrite page_text_calls | rewrite page_moveDown
               | rewrite page_set_x | rewrite page_set_y ].

Ltac column_norm :=
  unfold titleColumn; rewrite ?textsOfWidth_app, ?textsOfWidth_continuation;
  cbn [textsOfWidth List.flat_map opt_width List.app];
  rewrite ?title_width, ?likes_width, ?comments_width;
  cbn [List.app]; rewrite ?app_nil_r.

Lemma frame_titleColumn d : titleColumn (page (addPage d)) = [].
Proof.
  unfold addPage, drawBackgroundAndCard. page_norm. cbn [page]. reflexivity.
Qed.

Lemma header_titleColumn d :
  titleColumn (page (drawTableHeader (addPage d))) = [lit "Title"].
Proof.
  unfold drawTableHeader, cell. page_norm.
  pose proof (frame_titleColumn d) as Hf. revert Hf.
  generalize (page (addPage d)). intros l Hf.
  column_norm. fold (titleColumn l). rewrite Hf. reflexivity.
Qed.

Lemma drawRow_titleColumn post d d' :
  drawRow post d = Ok d' ->
  exists t, title post = Some t /\
            titleColumn (page d') = titleColumn (page d) ++ [truncated t].
Proof.
  unfold drawRow. destruct (title post) as [t|]; [|discriminate].
  intros E. injection E as <-. exists t. split; [reflexivity|].
  unfold cell. page_norm. generalize (page d). intros l.
  column_norm. reflexivity.
Qed.

Lemma drawRows_titleColumn posts :
  forall d d',
    drawRows posts d = Ok d' ->
    exists titles,
      List.map title posts = List.map Some titles /\
      titleColumn (page d') = titleColumn (page d) ++ List.map truncated titles.
Proof.
  induction posts as [|post rest IH]; intros d d'; cbn [drawRows].
  - intros E. injection E as <-. exists []. rewrite app_nil_r.
    split; reflexivity.
  - destruct (drawRow post d) as [d1|e] eqn:E1; cbn [bind]; [|discriminate].
    intros E. destruct (drawRow_titleColumn _ _ E1) as (t & Et & Ec1).
    destruct (IH _ _ E) as (titles & Ets & Ec).
    exists (t :: titles). cbn [List.map]. rewrite Et, Ets, Ec, Ec1, <- app_assoc.
    split; reflexivity.
Qed.

Lemma truncated_long t :
  (50 < List.length t)%nat ->
  truncated t = List.firstn 47 t ++ ellipsis /\
  List.length (truncated t) = 48%nat.
Proof.
  intros H. unfold truncated, slice0.
  apply Nat.ltb_lt in H. rewrite H. split; [reflexivity|].
  apply Nat.ltb_lt in H.
  rewrite length_app, length_firstn. cbn [ellipsis List.length]. lia.
Qed.

Lemma truncated_short t : (List.length t <= 50)%nat -> truncated t = t.
Proof.
  intros H. unfold truncated.
  destruct (Nat.ltb_spec 50 (List.length t)); [lia|reflexivity].
Qed.

(** C9: in a finished report the title column of page 4 is the heading
    [Title] followed, post by post, by the title itself when it has at
    most 50 code units, and otherwise by its first 47 code units and one
    ellipsis, 48 code units in all. *)
Theorem C9_title_truncation (m : MetricsBundle) (o : ReportOptions)
        (doc : Document) :
  generateReport m o = Ok doc ->
  exists titles,
    List.map title (topPosts m) = List.map Some titles /\
    titleColumn (List.nth 3 doc []) = lit "Title" :: List.map truncated titles /\
    List.Forall
      (fun t =>
         if (50 <? List.length t)%nat
         then truncated t = List.firstn 47 t ++ [8230%N] /\
              List.length (truncated t) = 48%nat
         else truncated t = t) titles.
Proof.
  intros E. destruct (generateReport_pages _ _ E) as (d4 & E4 & ->).
  cbn [List.nth]. unfold page4 in E4.
  destruct (drawRows_titleColumn _ _ E4) as (titles & Ets & Ec).
  exists titles. split; [exact Ets|]. split.
  - rewrite Ec, header_titleColumn. reflexivity.
  - apply Forall_forall. intros t _.
    destruct (Nat.ltb_spec 50 (List.length t)).
    + apply truncated_long; assumption.
    + apply truncated_short; assumption.
Qed.

End TopPosts.

Lemma C9_title_truncation_witness :
  exists titles,
    List.map title (topPosts longTitlePost) = List.map Some titles /\
    titleColumn
      (List.nth 3 (reportOf sampleHost longTitlePost (mkOptions None None)) [])
    = lit "Title" :: List.map truncated titles /\
    List.Forall
      (fun t =>
         if (50 <? List.length t)%nat
         then truncated t = List.firstn 47 t ++ [8230%N] /\
              List.length (truncated t) = 48%nat
         else truncated t = t) titles.
Proof.
  apply (@C9_title_truncation sampleHost longTitlePost (mkOptions None None)).
  vm_compute. reflexivity.
Defined.

(** ** Missing likes and comments *)

Section MissingFields.

Context {host : Host}.















End MissingFields.


(** * Further properties of the report *)

(** ** The strings drawn on each page *)

Section Says.

Context {host : Host}.

Lemma textsOf_app a b : textsOf (a ++ b) = textsOf a ++ textsOf b.
Proof. apply flat_map_app. Qed.

Lemma says_refl d : says [] d d.
Proof. split; [reflexivity|]. rewrite app_nil_r. reflexivity. Qed.

Lemma says_eq ts ts' d d' : says ts d d' -> ts = ts' -> says ts' d d'.
Proof. intros H <-. exact H. Qed.

Lemma says_trans a b d1 d2 d3 :
  says a d1 d2 -> says b d2 d3 -> says (a ++ b) d1 d3.
Proof.
  intros [D12 T12] [D23 T23]. split; [congruence|].
  rewrite T23, T12, app_assoc. reflexivity.
Qed.

Lemma says_emit ts d X op :
  textsOf [op] = [] -> says ts d X -> says ts d (emit op X).
Proof.
  intros Hop [D T]. split; [exact D|].
  cbn [page emit]. rewrite textsOf_app, Hop, app_nil_r. exact T.
Qed.

Lemma textsOf_continuation k : textsOf (continuation k) = [].
Proof.
  unfold continuation. induction k as [|k IH]; [reflexivity|].
  cbn [List.repeat List.concat]. rewrite textsOf_app, IH. reflexivity.
Qed.

Lemma says_text ts d X s pos o :
  says ts d X -> says (ts ++ [s]) d (text s pos o X).
Proof.
  intros [D T]. split; [rewrite done_text; exact D|].
  rewrite page_text, textsOf_app, T.
  change (OpText s pos o :: continuation (pageBreaks X s pos o))
    with ([OpText s pos o] ++ continuation (pageBreaks X s pos o)).
  rewrite textsOf_app, textsOf_continuation, app_nil_r, app_assoc. reflexivity.
Qed.

Lemma says_moveDown ts d X n : says ts d X -> says ts d (moveDown n X).
Proof.
  intros [D T]. split; [exact D|].
  cbn [page moveDown]. rewrite textsOf_app, T. cbn. rewrite app_nil_r. reflexivity.
Qed.

Lemma says_set_x ts d X x : says ts d X -> says ts d (set_x x X).
Proof. intros H. exact H. Qed.

Lemma says_set_y ts d X y : says ts d X -> says ts d (set_y y X).
Proof. intros H. exact H. Qed.

Lemma says_step ts a d X Y : says ts d X -> says a X Y -> says (ts ++ a) d Y.
Proof. apply says_trans. Qed.

Lemma says_forEach {A : Type} (f : A -> nat -> Doc -> Doc)
      (g : A -> nat -> list jsstring) :
  (forall a i X, says (g a i) X (f a i X)) ->
  forall l i X,
    says (List.concat (List.map (fun p => g (snd p) (fst p)) (indexed_from i l)))
         X (forEach f l i X).
Proof.
  intros Hf. induction l as [|a l IH]; intros i X.
  - apply says_refl.
  - cbn [forEach]. unfold indexed_from.
    cbn [List.length List.seq List.combine List.map List.concat fst snd].
    eapply says_trans; [apply Hf | apply IH].
Qed.

Lemma indexed_map_snd {A B : Type} (h : A -> B) (l : list A) :
  forall i, List.map (fun p => h (snd p)) (indexed_from i l) = List.map h l.
Proof.
  unfold indexed_from. induction l as [|a l IH]; intros i; cbn; [reflexivity|].
  rewrite IH. reflexivity.
Qed.

Lemma indexed_map_fst {A B : Type} (h : nat -> B) (l : list A) :
  forall i,
    List.map (fun p => h (fst p)) (indexed_from i l)
    = List.map h (List.seq i (List.length l)).
Proof.
  unfold indexed_from. induction l as [|a l IH]; intros i; cbn; [reflexivity|].
  rewrite IH. reflexivity.
Qed.

Lemma concat_singletons {A : Type} (l : list A) :
  List.concat (List.map (fun a => [a]) l) = l.
Proof. induction l as [|a l IH]; cbn; [reflexivity | rewrite IH; reflexivity]. Qed.

Lemma concat_nils {A B : Type} (l : list A) :
  List.concat (List.map (fun _ => @nil B) l) = [].
Proof. induction l as [|a l IH]; cbn; [reflexivity | exact IH]. Qed.

End Says.

Ltac says_one :=
  lazymatch goal with
  | |- says _ ?d ?d => apply says_refl
  | |- says _ _ (emit _ _) => eapply says_emit; [reflexivity|]
  | |- says _ _ (text _ _ _ _) => eapply says_text
  | |- says _ _ (moveDown _ _) => eapply says_moveDown
  | |- says _ _ (set_x _ _) => eapply says_set_x
  | |- says _ _ (set_y _ _) => eapply says_set_y
  | |- says _ _ (cell _ _ _ _) => unfold cell
  end.

Ltac says_auto := cbv zeta; repeat says_one.

Section BlockTexts.

Context {host : Host}.

Lemma frame_says d : says [] d (drawBackgroundAndCard d).
Proof. unfold drawBackgroundAndCard. says_auto. Qed.

Lemma header_says o d :
  says [dateRangeText o; lit "Social Media Report";
        lit "Performance & Growth Insights"] d (drawHeader o d).
Proof.
  eapply says_eq.
  - unfold drawHeader. cbv zeta. destruct logoBuffer; says_auto.
  - reflexivity.
Qed.

Lemma line_says (s : jsstring) X : says [s] X (text s None no_options X).
Proof. eapply says_eq; [says_auto | reflexivity]. Qed.

Lemma lines_says (h : jsstring -> jsstring) l i X :
  says (List.map h l)
       X (forEach (fun line _ => text (h line) None no_options) l i X).
Proof.
  eapply says_eq.
  - apply (says_forEach _ (fun s _ => [h s])). intros. cbv beta. apply line_says.
  - rewrite (indexed_map_snd (fun s => [h s])).
    rewrite <- (map_map h (fun s => [s])). apply concat_singletons.
Qed.

Lemma summary_says st d :
  says (lit "Summary" :: summaryLines st) d (drawSummary st d).
Proof.
  eapply says_eq.
  - unfold drawSummary. eapply says_moveDown.
    eapply says_step; [|apply (lines_says (fun s => s))].
    says_auto.
  - rewrite map_id. reflexivity.
Qed.

Lemma plotPoint_says counts chartY item i X :
  says [] X (plotPoint counts chartY item i X).
Proof.
  unfold plotPoint. destruct (linePoint counts chartY item i) as [x y].
  destruct i; says_auto.
Qed.

Lemma growthChart_says history d :
  says (if (1 <? List.length history)%nat then chartTexts history else [])
       d (drawGrowthChart history d).
Proof.
  unfold drawGrowthChart.
  destruct (1 <? List.length history)%nat; [|apply says_refl].
  eapply says_eq.
  - cbv zeta. do 3 says_one.
    eapply says_step;
      [| apply (says_forEach _ (fun _ _ => [])); intros; apply plotPoint_says].
    unfold drawAxes, drawChartHeading. says_auto.
  - rewrite concat_nils. reflexivity.
Qed.

Lemma historyRow_says item i X :
  says [historyRowText item] X (historyRow item i X).
Proof. eapply says_eq; [unfold historyRow; says_auto | reflexivity]. Qed.

Lemma historyTable_says history d :
  says (lit "Follower History" :: List.map historyRowText history)
       d (drawHistoryTable history d).
Proof.
  eapply says_eq.
  - unfold drawHistoryTable. eapply says_moveDown.
    eapply says_step;
      [| apply (says_forEach _ (fun item _ => [historyRowText item]));
         intros; apply historyRow_says].
    says_auto.
  - rewrite (indexed_map_snd (fun item => [historyRowText item])).
    rewrite <- (map_map historyRowText (fun s => [s])), concat_singletons.
    reflexivity.
Qed.

Lemma drawBars_says posts barX chartY post i X :
  says [toString (of_nat i + 1)] X (drawBars posts barX chartY post i X).
Proof. eapply says_eq; [unfold drawBars; says_auto | reflexivity]. Qed.

Lemma barChart_says posts d :
  says (match posts with
        | [] => []
        | _ :: _ =>
            lit "Top Posts Engagement (Likes vs Comments)"
            :: barLabels (List.length posts) ++ [lit "Likes"; lit "Comments"]
        end) d (drawBarChart posts d).
Proof.
  unfold drawBarChart. destruct posts as [|p0 rest]; [apply says_refl|].
  set (posts := p0 :: rest).
  change (0 <? List.length posts)%nat with true. cbv iota.
  eapply says_eq.
  - cbv zeta. do 16 says_one.
    eapply says_step;
      [| apply (says_forEach _ (fun _ i => [toString (of_nat i + 1)]));
         intros; apply drawBars_says].
    says_auto.
  - rewrite (indexed_map_fst (fun i => [toString (of_nat i + 1)])).
    rewrite <- (map_map (fun i => toString (of_nat i + 1)) (fun s => [s])).
    rewrite concat_singletons. unfold barLabels.
    cbn [List.app]. rewrite <- app_assoc. reflexivity.
Qed.

Lemma takeaways_says st d :
  says (lit "Key Takeaways & Growth Forecast" :: List.map bulleted (keyPoints st))
       d (drawTakeaways st d).
Proof.
  eapply says_eq.
  - unfold drawTakeaways. eapply says_moveDown.
    eapply says_step; [|apply (lines_says bulleted)].
    says_auto.
  - reflexivity.
Qed.

Lemma recommendations_says st d :
  says (lit "Recommendations" :: List.map bulleted (recommendations st))
       d (drawRecommendations st d).
Proof.
  eapply says_eq.
  - unfold drawRecommendations.
    eapply says_step; [|apply (lines_says bulleted)].
    says_auto.
  - reflexivity.
Qed.

Lemma tableHeader_says d :
  says [lit "Top Posts"; lit "Title"; lit "Likes"; lit "Comments"]
       d (drawTableHeader d).
Proof. eapply says_eq; [unfold drawTableHeader; says_auto | reflexivity]. Qed.

Lemma drawRow_says post d d' :
  drawRow post d = Ok d' -> says (rowCells post) d d'.
Proof.
  unfold drawRow, rowCells. destruct (title post) as [t|]; [|discriminate].
  intros E. injection E as <-.
  eapply says_eq; [says_auto | reflexivity].
Qed.

Lemma drawRows_says posts :
  forall d d', drawRows posts d = Ok d' ->
               says (List.concat (List.map rowCells posts)) d d'.
Proof.
  induction posts as [|post rest IH]; intros d d'; cbn [drawRows].
  - intros E. injection E as <-. apply says_refl.
  - destruct (drawRow post d) as [d1|e] eqn:E1; cbn [bind]; [|discriminate].
    intros E. cbn [List.map List.concat].
    eapply says_trans; [eapply drawRow_says; eassumption | apply IH; exact E].
Qed.

Lemma addPage_texts d : textsOf (page (addPage d)) = [].
Proof. reflexivity. Qed.

Lemma addPage_page d : page (addPage d) = frameCalls.
Proof. reflexivity. Qed.

End BlockTexts.

Section PageContents.

Context {host : Host}.

Lemma page1_texts m o :
  textsOf (page (page1 m o)) =
  [dateRangeText o; lit "Social Media Report";
   lit "Performance & Growth Insights"; lit "Summary"]
  ++ summaryLines (derivedStats m)
  ++ (if (1 <? List.length (followerHistory m))%nat
      then chartTexts (followerHistory m) else []).
Proof.
  assert (H : says ((([] ++ [dateRangeText o; lit "Social Media Report";
                             lit "Performance & Growth Insights"])
                     ++ lit "Summary" :: summaryLines (derivedStats m))
                    ++ (if (1 <? List.length (followerHistory m))%nat
                        then chartTexts (followerHistory m) else []))
                   newDocument (page1 m o)).
  { unfold page1, summaryPage.
    eapply says_step; [|apply growthChart_says].
    eapply says_step; [|apply summary_says].
    eapply says_step; [|apply header_says].
    eapply says_eq; [eapply says_step; [|apply frame_says]; says_auto|].
    reflexivity. }
  destruct H as [_ ->]. cbn [page newDocument textsOf List.flat_map List.app].
  reflexivity.
Qed.

Lemma page2_texts m d :
  textsOf (page (page2 m d)) =
  lit "Follower History" :: List.map historyRowText (followerHistory m)
  ++ match topPosts m with
     | [] => []
     | _ :: _ =>
         lit "Top Posts Engagement (Likes vs Comments)"
         :: barLabels (List.length (topPosts m)) ++ [lit "Likes"; lit "Comments"]
     end.
Proof.
  unfold page2.
  destruct (says_step (historyTable_says (followerHistory m) (addPage d))
                      (barChart_says (topPosts m) _)) as [_ ->].
  rewrite addPage_texts. reflexivity.
Qed.

Lemma page3_texts m d :
  textsOf (page (page3 m d)) =
  lit "Key Takeaways & Growth Forecast"
  :: List.map bulleted (keyPoints (derivedStats m))
  ++ lit "Recommendations"
  :: List.map bulleted (recommendations (derivedStats m)).
Proof.
  unfold page3.
  destruct (says_step (takeaways_says (derivedStats m) (addPage d))
                      (recommendations_says (derivedStats m) _)) as [_ ->].
  rewrite addPage_texts. reflexivity.
Qed.

Lemma page4_texts m d d' :
  page4 m d = Ok d' ->
  textsOf (page d') =
  [lit "Top Posts"; lit "Title"; lit "Likes"; lit "Comments"]
  ++ List.concat (List.map rowCells (topPosts m)).
Proof.
  unfold page4. intros E.
  destruct (says_step (tableHeader_says (addPage d)) (drawRows_says _ _ E))
    as [_ ->].
  rewrite addPage_texts. reflexivity.
Qed.

(** X1: page 1 of a finished report carries, in this order, the date
    range, the two title lines, the heading [Summary] and the three summary
    lines, and then the five strings of the growth chart when the history
    has at least two samples, nothing more otherwise. *)
Theorem X1_page1_strings (m : MetricsBundle) (o : ReportOptions) (doc : Document) :
  generateReport m o = Ok doc ->
  textsOf (List.nth 0 doc []) =
  [dateRangeText o; lit "Social Media Report";
   lit "Performance & Growth Insights"; lit "Summary"]
  ++ summaryLines (derivedStats m)
  ++ (if (2 <=? List.length (followerHistory m))%nat
      then chartTexts (followerHistory m) else []).
Proof.
  intros E. destruct (generateReport_pages _ _ E) as (d4 & _ & ->).
  cbn [List.nth]. apply page1_texts.
Qed.

(** X2: in a finished report the text calls made between the first and
    the second [addPage] of the program are, in this order, the heading
    of the history, one line per sample in input order (date padded to 14
    code units, two spaces, count), and then, when there are posts, the
    bar-chart heading, the labels 1..n and the two legend entries.  They
    start on the second page the program opens and go on on the
    continuation pages PDFKit opens for the lines and labels that run
    past the bottom of a page. *)
Theorem X2_page2_strings (m : MetricsBundle) (o : ReportOptions) (doc : Document) :
  generateReport m o = Ok doc ->
  textsOf (List.nth 1 doc []) =
  lit "Follower History" :: List.map historyRowText (followerHistory m)
  ++ match topPosts m with
     | [] => []
     | _ :: _ =>
         lit "Top Posts Engagement (Likes vs Comments)"
         :: barLabels (List.length (topPosts m)) ++ [lit "Likes"; lit "Comments"]
     end.
Proof.
  intros E. destruct (generateReport_pages _ _ E) as (d4 & _ & ->).
  cbn [List.nth]. apply page2_texts.
Qed.

(** X3: page 3 of a finished report shows the five key points and then the
    recommendations, every one of them as a bullet line and in the order
    of the rule set. *)
Theorem X3_page3_strings (m : MetricsBundle) (o : ReportOptions) (doc : Document) :
  generateReport m o = Ok doc ->
  textsOf (List.nth 2 doc []) =
  lit "Key Takeaways & Growth Forecast"
  :: List.map (fun s => bullet ++ lit " " ++ s) (keyPoints (derivedStats m))
  ++ lit "Recommendations"
  :: List.map (fun s => bullet ++ lit " " ++ s) (recommendations (derivedStats m)).
Proof.
  intros E. destruct (generateReport_pages _ _ E) as (d4 & _ & ->).
  cbn [List.nth]. rewrite page3_texts.
  do 2 f_equal; [|f_equal]; apply map_ext; intros s;
    unfold bulleted, template; cbn [List.concat]; rewrite app_nil_r; reflexivity.
Qed.

(** X4: page 4 of a finished report holds the four headings and then three
    cells per post, in input order: the truncated title, [String(likes)]
    and [String(comments)]; a post without likes (or comments) is printed
    with the word [undefined] in that cell. *)
Theorem X4_page4_strings (m : MetricsBundle) (o : ReportOptions) (doc : Document) :
  generateReport m o = Ok doc ->
  textsOf (List.nth 3 doc []) =
  [lit "Top Posts"; lit "Title"; lit "Likes"; lit "Comments"]
  ++ List.concat (List.map rowCells (topPosts m)) /\
  List.Forall
    (fun p =>
       title p <> None /\
       (likes p = Undefined \/ comments p = Undefined ->
        List.In (lit "undefined") (textsOf (List.nth 3 doc []))))
    (topPosts m).
Proof.
  intros E. destruct (generateReport_pages _ _ E) as (d4 & E4 & ->).
  cbn [List.nth]. pose proof (page4_texts _ _ E4) as Ht. split; [exact Ht|].
  apply Forall_forall. intros p Hp. split.
  - unfold page4 in E4. intros Hnone.
    assert (Hex : exists e, drawRows (topPosts m)
                    (drawTableHeader (addPage (page3 m (page2 m (page1 m o)))))
                  = Throw e).
    { apply drawRows_throw. apply Exists_exists. exists p. split; assumption. }
    destruct Hex as [e Hex]. congruence.
  - intros Hu. rewrite Ht. apply in_or_app. right.
    apply in_concat. exists (rowCells p). split; [apply in_map; exact Hp|].
    unfold rowCells. destruct Hu as [-> | ->]; cbn; auto.
Qed.

(** X5: every page of a finished report starts with the same frame
    (gradient, ellipse, card); on page 1 it follows the font selection. *)
Theorem X5_frame_on_every_page (m : MetricsBundle) (o : ReportOptions)
        (doc : Document) :
  generateReport m o = Ok doc ->
  exists r1 r2 r3 r4,
    doc = [ OpFont (lit "Helvetica") :: frameCalls ++ r1;
            frameCalls ++ r2; frameCalls ++ r3; frameCalls ++ r4 ].
Proof.
  intros E. destruct (generateReport_pages _ _ E) as (d4 & E4 & ->).
  assert (H1 : exists r, page (page1 m o) = OpFont (lit "Helvetica") :: frameCalls ++ r).
  { assert (D : draws any_op
                  (drawBackgroundAndCard (emit (OpFont (lit "Helvetica")) newDocument))
                  (page1 m o)).
    { unfold page1, summaryPage.
      eapply draws_trans; [|apply drawGrowthChart_draws].
      eapply draws_trans; [|eapply draws_any, drawSummary_draws].
      eapply draws_any, drawHeader_draws. }
    destruct D as [_ (r & -> & _)]. exists r. rewrite frame_page. reflexivity. }
  assert (H2 : exists r, page (page2 m (page1 m o)) = frameCalls ++ r).
  { assert (D : draws any_op (addPage (page1 m o)) (page2 m (page1 m o))).
    { unfold page2.
      eapply draws_trans; [apply drawHistoryTable_draws | apply drawBarChart_draws]. }
    destruct D as [_ (r & -> & _)]. exists r. rewrite addPage_page. reflexivity. }
  assert (H3 : exists r, page (page3 m (page2 m (page1 m o))) = frameCalls ++ r).
  { assert (D : draws any_op (addPage (page2 m (page1 m o)))
                      (page3 m (page2 m (page1 m o)))).
    { unfold page3.
      eapply draws_trans; [apply drawTakeaways_draws | apply drawRecommendations_draws]. }
    destruct D as [_ (r & -> & _)]. exists r. rewrite addPage_page. reflexivity. }
  assert (H4 : exists r, page d4 = frameCalls ++ r).
  { unfold page4 in E4.
    assert (D : draws any_op (addPage (page3 m (page2 m (page1 m o)))) d4).
    { eapply draws_trans; [apply drawTableHeader_draws | apply (drawRows_draws _ _ E4)]. }
    destruct D as [_ (r & -> & _)]. exists r. rewrite addPage_page. reflexivity. }
  destruct H1 as [r1 ->], H2 as [r2 ->], H3 as [r3 ->], H4 as [r4 ->].
  exists r1, r2, r3, r4. reflexivity.
Qed.

(** X6: without posts no bar chart is drawn and the table of page 4 has
    no row: in a finished report the second page of the program holds the
    frame and the calls of the history table, nothing else, so that no
    path is stroked on it, and the fourth the four headings.  On the A4
    page of line 53 such a report is returned exactly when PDFKit accepts
    the calls of page 1, where the growth chart is, and so for every
    history of at most one sample. *)
Theorem X6_report_without_posts (history : list FollowerSample) (o : ReportOptions) :
  let m := mkMetrics history [] in
  (forall doc,
     generateReport m o = Ok doc ->
     List.length doc = 4%nat /\
     List.nth 1 doc [] = page (drawHistoryTable history (addPage (page1 m o))) /\
     List.forallb no_path_op (List.nth 1 doc []) = true /\
     textsOf (List.nth 3 doc []) =
       [lit "Top Posts"; lit "Title"; lit "Likes"; lit "Comments"]) /\
  (pageWidth = 595.28 -> pageHeight = 841.89 ->
   ((exists doc, generateReport m o = Ok doc) <->
    List.forallb accepted (page (page1 m o)) = true) /\
   ((List.length history <= 1)%nat -> exists doc, generateReport m o = Ok doc)).
Proof.
  intros m. split.
  - intros doc E. destruct (generateReport_pages _ _ E) as (d4 & E4 & ->).
    split; [reflexivity|]. split; [reflexivity|]. cbn [List.nth]. split.
    + change (page2 m (page1 m o))
        with (drawHistoryTable history (addPage (page1 m o))).
      assert (D : draws no_path_op (addPage (page1 m o))
                        (drawHistoryTable history (addPage (page1 m o)))).
      { unfold drawHistoryTable, historyRow. draws_auto. }
      destruct D as [_ (ops & -> & Hops)].
      rewrite forallb_app, Hops, addPage_page. reflexivity.
    + rewrite (page4_texts _ _ E4). reflexivity.
  - intros W H. pose proof (a4_frame W H) as Hf.
    assert (Hiff : (exists doc, generateReport m o = Ok doc) <->
                   List.forallb accepted (page (page1 m o)) = true).
    { rewrite generateReport_ok_iff. split.
      - intros (_ & A1 & _). exact A1.
      - intros A1. split; [constructor|]. split; [exact A1|].
        apply page2_no_posts_accepts; [exact Hf | reflexivity]. }
    split; [exact Hiff|]. intros Hlen. apply Hiff.
    apply page1_sparse_accepts; [exact Hf | exact Hlen].
Qed.

End PageContents.

Lemma X1_page1_strings_witness :
  textsOf (List.nth 0 (reportOf sampleHost longTitlePost (mkOptions None None)) [])
  = [@dateRangeText sampleHost (mkOptions None None); lit "Social Media Report";
     lit "Performance & Growth Insights"; lit "Summary"]
    ++ @summaryLines sampleHost (derivedStats longTitlePost)
    ++ (if (2 <=? List.length (followerHistory longTitlePost))%nat
        then @chartTexts sampleHost (followerHistory longTitlePost) else []).
Proof.
  apply (@X1_page1_strings sampleHost longTitlePost (mkOptions None None)).
  vm_compute. reflexivity.
Defined.

Lemma X2_page2_strings_witness :
  textsOf (List.nth 1 (reportOf sampleHost sixWeeks (mkOptions None None)) [])
  = lit "Follower History"
    :: List.map (@historyRowText sampleHost) (followerHistory sixWeeks)
    ++ [lit "Top Posts Engagement (Likes vs Comments)"; lit "0"; lit "0"; lit "0";
        lit "Likes"; lit "Comments"] /\
  pdfPages (reportOf sampleHost sixWeeks (mkOptions None None)) = 9%nat.
Proof.
  split.
  - apply (@X2_page2_strings sampleHost sixWeeks (mkOptions None None)).
    vm_compute. reflexivity.
  - vm_compute. reflexivity.
Defined.

Lemma X6_report_without_posts_witness :
  exists doc,
    @generateReport sampleHost (mkMetrics [sample 100] []) (mkOptions None None)
    = Ok doc.
Proof.
  apply (proj2 (@X6_report_without_posts sampleHost [sample 100] (mkOptions None None)));
    [reflexivity | reflexivity | cbn; lia].
Defined.

Lemma X3_page3_strings_witness :
  List.length
    (textsOf (List.nth 2 (reportOf sampleHost longTitlePost (mkOptions None None)) []))
  = 10%nat.
Proof.
  rewrite (@X3_page3_strings sampleHost longTitlePost (mkOptions None None))
    by (vm_compute; reflexivity).
  vm_compute. reflexivity.
Defined.

Lemma X4_page4_strings_witness :
  List.In (lit "undefined")
          (textsOf (List.nth 3 (reportOf sampleHost unlikedPost (mkOptions None None)) [])).
Proof.
  assert (E : @generateReport sampleHost unlikedPost (mkOptions None None)
              = Ok (reportOf sampleHost unlikedPost (mkOptions None None)))
    by (vm_compute; reflexivity).
  pose proof (proj2 (@X4_page4_strings sampleHost unlikedPost (mkOptions None None) _ E))
    as H.
  apply (Forall_inv H). left. reflexivity.
Defined.

Lemma X5_frame_on_every_page_witness :
  exists r1 r2 r3 r4,
    reportOf sampleHost longTitlePost (mkOptions None None)
    = [ OpFont (lit "Helvetica") :: @frameCalls sampleHost ++ r1;
        @frameCalls sampleHost ++ r2; @frameCalls sampleHost ++ r3;
        @frameCalls sampleHost ++ r4 ].
Proof.
  apply (@X5_frame_on_every_page sampleHost longTitlePost (mkOptions None None)).
  vm_compute. reflexivity.
Defined.

(** ** Rules 3 and 4 of the recommendations *)

(** X7: whatever the inputs, the recommendations are the cadence message,
    then at most one engagement message, then exactly one comment-ratio
    message (the low one when [commentLikeRatio < 10], the balanced one
    otherwise, also for [NaN]) and last the closing message: 3 or 4 entries,
    4 exactly when an engagement message is given. *)
Theorem X7_recommendations_shape
        (growthSlope dailyGrowth engagementRate commentLikeRatio : number) :
  let recs :=
    recommendationsOf growthSlope dailyGrowth engagementRate commentLikeRatio in
  List.filter is_comment_ratio recs =
    [if commentLikeRatio <? 10 then msg_few_comments else msg_balanced] /\
  List.last recs [] = msg_closing /\
  is_cadence (List.hd [] recs) = true /\
  List.length recs =
    if (engagementRate <? 1) || (5 <? engagementRate) then 4%nat else 3%nat.
Proof.
  intros recs. subst recs. unfold recommendationsOf, push.
  destruct (growthSlope <=? 0), (dailyGrowth <? 5), (engagementRate <? 1),
    (5 <? engagementRate), (commentLikeRatio <? 10);
    repeat split; vm_compute; reflexivity.
Qed.

(** ** Divisors of the chart scales *)

Lemma num_or_truthy (n : number) : truthy (num_or n 1) = true.
Proof.
  unfold num_or. destruct (truthy n) eqn:E; [exact E | reflexivity].
Qed.

(** X8: the value range that scales the line chart and the maximum that
    scales the bars are never 0 and never [NaN], whatever the counts, likes
    and comments are: the charts never divide by zero. *)
Theorem X8_chart_divisors_not_zero (counts : list number) (posts : list PostSample) :
  truthy (yRange counts) = true /\ truthy (maxMetric posts) = true.
Proof.
  split; [unfold yRange | unfold maxMetric]; apply num_or_truthy.
Qed.

(** ** Statistics of the posts *)

(** X9: without posts every post statistic is 0, whatever the follower
    history is: the sums, both averages, the engagement rate and the
    comment-to-like ratio. *)
Theorem X9_no_posts_statistics (history : list FollowerSample) :
  let st := derivedStats (mkMetrics history []) in
  totalLikes st = 0 /\ totalComments st = 0 /\
  avgLikes st = 0 /\ avgComments st = 0 /\
  engagementRate st = 0 /\ commentLikeRatio st = 0.
Proof.
  intros st. subst st. unfold derivedStats.
  cbn [totalLikes totalComments avgLikes avgComments engagementRate
       commentLikeRatio topPosts List.length Nat.ltb Nat.leb].
  rewrite andb_false_r. repeat split; reflexivity.
Qed.

(** ** Title truncation *)

(** X10: a rendered title never has more than 50 code units, it starts
    with the same 47 code units as the title, and truncating it again
    changes nothing. *)
Theorem X10_truncated_bounds (t : jsstring) :
  (List.length (truncated t) <= 50)%nat /\
  List.firstn 47 (truncated t) = List.firstn 47 t /\
  truncated (truncated t) = truncated t.
Proof.
  destruct (Nat.ltb_spec 50 (List.length t)) as [Hlong | Hshort].
  - destruct (truncated_long t Hlong) as [E L]. repeat split.
    + lia.
    + rewrite E. rewrite firstn_app, firstn_firstn, length_firstn.
      replace (Nat.min 47 47) with 47%nat by reflexivity.
      replace (47 - Nat.min 47 (List.length t))%nat with 0%nat by lia.
      cbn [List.firstn]. apply app_nil_r.
    + apply truncated_short. lia.
  - rewrite (truncated_short t Hshort). repeat split.
    + exact Hshort.
    + apply truncated_short. exact Hshort.
Qed.

(** ** A history of one sample *)

Lemma finite_cases (x : number) :
  is_finite x = true ->
  (exists s, Prim2SF x = S754_zero s) \/
  (exists s m e, Prim2SF x = S754_finite s m e).
Proof.
  unfold is_finite, is_nan, is_infinity. intros H.
  apply negb_true_iff, orb_false_iff in H. destruct H as [Hn Hi].
  apply negb_false_iff in Hn.
  rewrite FloatAxioms.eqb_spec in Hn, Hi. rewrite FloatAxioms.abs_spec in Hi.
  replace (Prim2SF infinity) with (S754_infinity false) in Hi by reflexivity.
  destruct (Prim2SF x) as [s|s| |s m e].
  - left. exists s. reflexivity.
  - destruct s; discriminate Hi.
  - discriminate Hn.
  - right. exists s, m, e. reflexivity.
Qed.

Lemma sub_diag (x : number) : is_finite x = true -> x - x = 0.
Proof.
  intros H. apply Prim2SF_inj. rewrite FloatAxioms.sub_spec.
  replace (Prim2SF 0) with (S754_zero false) by reflexivity.
  destruct (finite_cases x H) as [[s ->] | (s & m & e & ->)].
  - destruct s; reflexivity.
  - unfold SF64sub, SFsub. rewrite Z.sub_diag. reflexivity.
Qed.

Lemma zero_div_mul (x : number) :
  is_finite x = true -> (x =? 0) = false -> (0 / x * 100 =? 0) = true.
Proof.
  intros H Hz. rewrite FloatAxioms.eqb_spec in *.
  rewrite FloatAxioms.mul_spec, FloatAxioms.div_spec.
  replace (Prim2SF 0) with (S754_zero false) in * by reflexivity.
  replace (Prim2SF 100) with (S754_finite false 7036874417766400 (-46))
    by (vm_compute; reflexivity).
  destruct (finite_cases x H) as [[s E] | (s & m & e & E)]; rewrite E in *.
  - destruct s; discriminate Hz.
  - destruct s; reflexivity.
Qed.

(** X11: a history of one sample with a finite count gives no growth and
    no [NaN]: [totalNewFollowers], [dailyGrowth] and [growthSlope] are 0,
    [growth] equals 0, both forecasts are the rounded count, and the first
    recommendation is the flat-or-declining one. *)
Theorem X11_single_sample_statistics (item : FollowerSample)
        (posts : list PostSample) :
  is_finite (count item) = true ->
  let st := derivedStats (mkMetrics [item] posts) in
  totalNewFollowers st = 0 /\ dailyGrowth st = 0 /\ growthSlope st = 0 /\
  (growth st =? 0) = true /\
  forecast30 st = Math_round (count item + 0) /\
  forecast90 st = Math_round (count item + 0) /\
  List.hd [] (recommendations st) = msg_flat.
Proof.
  intros Hfin st.
  assert (Et : totalNewFollowers st = 0).
  { subst st. unfold derivedStats, counts_of.
    cbn [totalNewFollowers followerHistory List.map first final List.last ToNumber].
    apply sub_diag, Hfin. }
  assert (Es : growthSlope st = 0).
  { subst st. unfold derivedStats, counts_of.
    cbn [growthSlope followerHistory List.map first final List.last ToNumber
         List.length Nat.ltb Nat.leb].
    rewrite (sub_diag _ Hfin). reflexivity. }
  split; [exact Et|]. split; [reflexivity|]. split; [exact Es|].
  split; [|split; [|split]].
  - subst st. unfold derivedStats, counts_of.
    cbn [growth followerHistory List.map first final List.last ToNumber ToBoolean].
    rewrite (sub_diag _ Hfin). unfold truthy.
    destruct (count item =? 0) eqn:Hz; [reflexivity|].
    cbn [orb]. destruct (is_nan (count item)); cbn [negb]; [reflexivity|].
    apply zero_div_mul; assumption.
  - change (forecast30 st)
      with (Math_round (ToNumber (endCount st) + growthSlope st * 30)).
    rewrite Es. reflexivity.
  - change (forecast90 st)
      with (Math_round (ToNumber (endCount st) + growthSlope st * 90)).
    rewrite Es. reflexivity.
  - unfold recommendations, recommendationsOf, push. rewrite Es.
    change (0 <=? 0) with true. cbv iota.
    destruct (engagementRate st <? 1), (5 <? engagementRate st),
      (commentLikeRatio st <? 10); reflexivity.
Qed.

Lemma X11_single_sample_statistics_witness :
  let st := derivedStats (mkMetrics [sample 100] []) in
  totalNewFollowers st = 0 /\ dailyGrowth st = 0 /\ growthSlope st = 0 /\
  (growth st =? 0) = true /\
  forecast30 st = Math_round (100 + 0) /\
  forecast90 st = Math_round (100 + 0) /\
  List.hd [] (recommendations st) = msg_flat.
Proof.
  apply (@X11_single_sample_statistics (sample 100) []).
  vm_compute. reflexivity.
Defined.

(** * Properties of the integrations *)

(** ** User names from profile URLs *)

Lemma splitOn_no_sep sep s :
  List.Forall (fun seg => ~ List.In sep seg) (splitOn sep s).
Proof.
  induction s as [|c rest IH]; cbn [splitOn].
  - constructor; [intros []|constructor].
  - destruct (N.eqb_spec c sep) as [->|Hne].
    + constructor; [intros []|exact IH].
    + destruct (splitOn sep rest) as [|seg segs].
      * constructor; [|constructor]. intros [E|[]]. congruence.
      * inversion IH as [|? ? Hseg Hsegs]; subst. constructor; [|exact Hsegs].
        intros [E|Hin]; [congruence | exact (Hseg Hin)].
Qed.

Lemma splitOn_cons sep s : exists seg segs, splitOn sep s = seg :: segs.
Proof.
  destruct s as [|c rest]; cbn [splitOn]; [eauto|].
  destruct (N.eqb c sep); [eauto|].
  destruct (splitOn sep rest); eauto.
Qed.

(** No segment is kept exactly when the path consists of slashes only. *)
Lemma segments_nil p :
  List.filter nonempty (splitOn slash p) = [] <->
  List.forallb (fun c => N.eqb c slash) p = true.
Proof.
  induction p as [|c rest IH]; cbn [splitOn List.forallb].
  - split; reflexivity.
  - destruct (N.eqb c slash); cbn [andb].
    + cbn [List.filter nonempty]. exact IH.
    + destruct (splitOn_cons slash rest) as (seg & segs & ->).
      cbn [List.filter nonempty]. split; discriminate.
Qed.

(** The first segment that is kept, for a path that starts with slashes,
    then a name, then ends or goes on with a slash. *)
Lemma segments_first k name tail :
  name <> [] -> ~ List.In slash name ->
  tail = [] \/ (exists rest, tail = slash :: rest) ->
  exists segs,
    List.filter nonempty (splitOn slash (List.repeat slash k ++ name ++ tail))
    = name :: segs.
Proof.
  intros Hne Hns Htail. induction k as [|k IH].
  - cbn [List.repeat List.app].
    assert (H : exists segs, splitOn slash (name ++ tail) = name :: segs).
    { clear Hne. induction name as [|c name IHn]; cbn [List.app].
      - destruct Htail as [->|[rest ->]]; cbn [splitOn]; [eauto|].
        change (N.eqb slash slash) with true. cbv iota. eauto.
      - cbn [splitOn]. destruct (N.eqb_spec c slash) as [->|Hc].
        + exfalso. apply Hns. left. reflexivity.
        + destruct IHn as [segs ->]; [intros Hin; apply Hns; right; exact Hin|].
          eauto. }
    destruct H as [segs ->]. cbn [List.filter].
    destruct name as [|c name]; [congruence|]. cbn [nonempty]. eauto.
  - cbn [List.repeat List.app splitOn]. change (N.eqb slash slash) with true.
    cbv iota. cbn [List.filter nonempty]. exact IH.
Qed.

Lemma segments_shape p part parts :
  List.filter nonempty (splitOn slash p) = part :: parts ->
  part <> [] /\ ~ List.In slash part.
Proof.
  intros E.
  assert (Hin : List.In part (List.filter nonempty (splitOn slash p)))
    by (rewrite E; left; reflexivity).
  apply filter_In in Hin. destruct Hin as [Hin Hne]. split.
  - destruct part; [discriminate Hne | discriminate].
  - pose proof (splitOn_no_sep slash p) as Hall.
    rewrite Forall_forall in Hall. exact (Hall _ Hin).
Qed.

Section UsernameProperties.

Variable pathnameOf : jsstring -> option jsstring.

(** X12: [parseInstagramUsername] gives [null] exactly when the URL does
    not parse or its path holds nothing but slashes; a user name it gives
    is never empty and never holds a slash. *)
Theorem X12_instagram_username_shape (url : jsstring) :
  (parseInstagramUsername pathnameOf url = None <->
   pathnameOf url = None \/
   exists p, pathnameOf url = Some p /\
             List.forallb (fun c => N.eqb c slash) p = true) /\
  (forall u, parseInstagramUsername pathnameOf url = Some u ->
             u <> [] /\ ~ List.In slash u).
Proof.
  unfold parseInstagramUsername. destruct (pathnameOf url) as [p|]; cbv zeta.
  - destruct (List.filter nonempty (splitOn slash p)) as [|part parts] eqn:E.
    + split.
      * split; [intros _; right; exists p; split; [reflexivity|]|reflexivity].
        apply segments_nil, E.
      * discriminate.
    + split.
      * split; [discriminate|]. intros [H|(p' & Hp & Hall)]; [discriminate H|].
        injection Hp as <-. apply segments_nil in Hall. congruence.
      * intros u Hu. injection Hu as <-. exact (segments_shape _ E).
  - split; [split; [intros _; left; reflexivity | reflexivity] | discriminate].
Qed.

(** X13: for a path made of slashes, a name without slash and then the end
    or a slash and anything, [parseInstagramUsername] gives back the name,
    and [parseTikTokUsername] the name without its leading [@]. *)
Theorem X13_username_found (url : jsstring) (k : nat) (name tail : jsstring) :
  name <> [] -> ~ List.In slash name ->
  tail = [] \/ (exists rest, tail = slash :: rest) ->
  pathnameOf url = Some (List.repeat slash k ++ name ++ tail) ->
  parseInstagramUsername pathnameOf url = Some name /\
  parseTikTokUsername pathnameOf url = Some (stripAt name).
Proof.
  intros Hne Hns Htail Hp.
  unfold parseInstagramUsername, parseTikTokUsername. rewrite Hp. cbv zeta.
  destruct (segments_first k Hne Hns Htail) as [segs ->].
  split; reflexivity.
Qed.

(** X14: [parseTikTokUsername] is [parseInstagramUsername] followed by the
    removal of one leading [@]; its result holds no slash, and it is the
    empty string exactly when the first path segment is a lone [@]. *)
Theorem X14_tiktok_username (url : jsstring) :
  parseTikTokUsername pathnameOf url =
    option_map stripAt (parseInstagramUsername pathnameOf url) /\
  (forall u, parseTikTokUsername pathnameOf url = Some u -> ~ List.In slash u) /\
  (parseTikTokUsername pathnameOf url = Some [] <->
   parseInstagramUsername pathnameOf url = Some [at_sign]).
Proof.
  unfold parseTikTokUsername, parseInstagramUsername.
  destruct (pathnameOf url) as [p|]; cbv zeta;
    [|split; [reflexivity | split; [discriminate | split; discriminate]]].
  destruct (List.filter nonempty (splitOn slash p)) as [|part parts] eqn:E;
    [split; [reflexivity | split; [discriminate | split; discriminate]]|].
  destruct (segments_shape _ E) as [Hne Hns].
  split; [reflexivity|]. split.
  - intros u Hu. injection Hu as <-. unfold stripAt.
    destruct part as [|c rest]; [exact Hns|].
    destruct (N.eqb c at_sign); [|exact Hns].
    intros Hin. apply Hns. right. exact Hin.
  - cbn [option_map]. unfold stripAt. destruct part as [|c rest]; [congruence|].
    destruct (N.eqb_spec c at_sign) as [->|Hc].
    + split; intros H; injection H as ->; reflexivity.
    + split; intros H; [discriminate H|]. injection H as -> ->. congruence.
Qed.

End UsernameProperties.

Lemma X13_username_found_witness :
  parseInstagramUsername pathOnly (lit "/@acme/video/7") = Some (lit "@acme") /\
  parseTikTokUsername pathOnly (lit "/@acme/video/7") = Some (lit "acme").
Proof.
  apply (@X13_username_found pathOnly (lit "/@acme/video/7") 1 (lit "@acme")
                             (lit "/video/7")).
  - discriminate.
  - vm_compute. intros H. repeat (destruct H as [H|H]; [discriminate H|]). exact H.
  - right. eexists. reflexivity.
  - reflexivity.
Defined.

(** ** The posts taken from an Instagram feed *)

Lemma insertBy_permutes cmp p l : Permutation (p :: l) (insertBy cmp p l).
Proof.
  induction l as [|q rest IH]; cbn [insertBy].
  - apply Permutation_refl.
  - destruct (0 <? cmp p q).
    + eapply perm_trans; [apply perm_swap|]. apply perm_skip, IH.
    + apply Permutation_refl.
Qed.

Lemma insertionSort_permutes cmp l : Permutation l (insertionSort cmp l).
Proof.
  unfold insertionSort. induction l as [|p rest IH]; cbn [List.fold_right].
  - apply perm_nil.
  - eapply perm_trans; [apply perm_skip, IH | apply insertBy_permutes].
Qed.

Lemma firstn_In_list {A : Type} (n : nat) (l : list A) (a : A) :
  List.In a (List.firstn n l) -> List.In a l.
Proof.
  intros H. rewrite <- (firstn_skipn n l). apply in_or_app. left. exact H.
Qed.

Section InstagramPostProperties.

Context {host : Host}.

Variable sortWith :
  (PostSample -> PostSample -> number) -> list PostSample -> list PostSample.

Hypothesis sortWith_permutes :
  forall cmp l, Permutation l (sortWith cmp l).

(** X15: whatever order the sort leaves, the posts taken from a feed are
    at most three (all of them when the feed has fewer), each one built
    from a media edge of the feed, each with a title string and with
    numbers for likes and comments. *)
Theorem X15_instagram_top_posts (mediaEdges : list MediaNode) :
  let posts := instagramTopPosts sortWith mediaEdges in
  List.length posts = Nat.min 3 (List.length mediaEdges) /\
  List.Forall
    (fun p =>
       (exists node, List.In node mediaEdges /\ p = postOfNode node) /\
       (exists t n c, title p = Some t /\ likes p = Num n /\ comments p = Num c))
    posts.
Proof.
  intros posts.
  assert (Hfrom : forall p, List.In p posts ->
                            exists node, List.In node mediaEdges /\ p = postOfNode node).
  { intros p Hp. subst posts. unfold instagramTopPosts in Hp.
    apply firstn_In_list in Hp.
    apply (Permutation_in _ (Permutation_sym (sortWith_permutes _ _))) in Hp.
    apply in_map_iff in Hp. destruct Hp as (node & <- & Hnode).
    exists node. split; [exact Hnode | reflexivity]. }
  split.
  - subst posts. unfold instagramTopPosts.
    rewrite length_firstn,
      <- (Permutation_length (sortWith_permutes byLikesDescending _)), length_map.
    reflexivity.
  - apply Forall_forall. intros p Hp. split; [exact (Hfrom p Hp)|].
    destruct (Hfrom p Hp) as (node & _ & ->). unfold postOfNode. cbv zeta.
    cbn [title likes comments]. do 3 eexists. repeat split; reflexivity.
Qed.

End InstagramPostProperties.

Lemma X15_instagram_top_posts_witness :
  let posts := instagramTopPosts insertionSort sampleFeed in
  List.length posts = Nat.min 3 (List.length sampleFeed) /\
  List.Forall
    (fun p =>
       (exists node, List.In node sampleFeed /\ p = postOfNode node) /\
       (exists t n c, title p = Some t /\ likes p = Num n /\ comments p = Num c))
    posts.
Proof.
  apply (@X15_instagram_top_posts insertionSort insertionSort_permutes sampleFeed).
Defined.

(** ** Histories for invalid dates, and the sample posts *)

Lemma is_nan_eq (x : number) : is_nan x = true -> x = nan.
Proof.
  unfold is_nan. intros H. apply negb_true_iff in H.
  rewrite FloatAxioms.eqb_spec in H. apply Prim2SF_inj.
  replace (Prim2SF nan) with S754_nan by reflexivity.
  destruct (Prim2SF x) as [s|s| |s m e]; unfold SFeqb, SFcompare in H.
  - discriminate H.
  - destruct s; discriminate H.
  - reflexivity.
  - destruct s; rewrite Z.compare_refl, Pos.compare_cont_refl in H; discriminate H.
Qed.

Lemma sub_nan_l (x : number) : nan - x = nan.
Proof.
  apply Prim2SF_inj. rewrite FloatAxioms.sub_spec.
  replace (Prim2SF nan) with S754_nan by reflexivity. reflexivity.
Qed.

Lemma sub_nan_r (x : number) : x - nan = nan.
Proof.
  apply Prim2SF_inj. rewrite FloatAxioms.sub_spec.
  replace (Prim2SF nan) with S754_nan by reflexivity.
  destruct (Prim2SF x); reflexivity.
Qed.

Lemma one_lt_le (x : number) :
  (1 <? x) = true -> (0 <=? x) = true /\ (1 <=? x) = true.
Proof.
  rewrite FloatAxioms.ltb_spec, !FloatAxioms.leb_spec.
  replace (Prim2SF 1) with (S754_finite false 4503599627370496 (-52))
    by (vm_compute; reflexivity).
  replace (Prim2SF 0) with (S754_zero false) by reflexivity.
  unfold SFltb, SFleb, SFcompare.
  destruct (Prim2SF x) as [s|s| |s m e]; try destruct s; try discriminate;
    try (split; reflexivity).
  destruct (Z.compare (-52) e); [|split; reflexivity|discriminate].
  destruct (Pos.compare_cont Eq 4503599627370496 m); try discriminate;
    split; reflexivity.
Qed.

Section HistoryProperties.

Variable toISOString : number -> option jsstring.
Variable random : nat -> number.

(** X16: when the start or the end of the period is an invalid date, both
    history builders return the empty history (with any positive fuel):
    the loop is not entered and no date is formatted. *)
Theorem X16_invalid_date_gives_empty_history
        (perDay followerCount startTime endTime : number) (fuel k : nat) :
  is_nan startTime = true \/ is_nan endTime = true ->
  buildFollowerHistory toISOString perDay (S fuel) followerCount startTime endTime
  = Returned [] /\
  generateFollowerHistory toISOString random (S fuel) startTime endTime k
  = Returned ([], k).
Proof.
  intros H.
  assert (E : endTime - startTime = nan).
  { destruct H as [H|H]; apply is_nan_eq in H; rewrite H;
      [apply sub_nan_r | apply sub_nan_l]. }
  unfold buildFollowerHistory, generateFollowerHistory. rewrite E.
  replace (Math_ceil (nan / msPerDay)) with nan by (vm_compute; reflexivity).
  replace (Math_max [1; nan]) with nan by (vm_compute; reflexivity).
  cbv zeta. cbn [buildLoop syntheticLoop].
  change (0 <=? nan) with false. cbv iota. split; reflexivity.
Qed.

(** X17: a history that [buildFollowerHistory] returns is never a single
    point: it is empty, which needs a period of [NaN] days, or it has at
    least two samples. *)
Theorem X17_built_history_size
        (perDay followerCount startTime endTime : number) (fuel : nat)
        (history : list FollowerSample) :
  buildFollowerHistory toISOString perDay fuel followerCount startTime endTime
  = Returned history ->
  (history = [] /\ is_nan (Math_ceil ((endTime - startTime) / msPerDay)) = true)
  \/ (2 <= List.length history)%nat.
Proof.
  unfold buildFollowerHistory.
  set (x := Math_ceil ((endTime - startTime) / msPerDay)).
  assert (HT : (Math_max [1; x] = nan /\ is_nan x = true) \/
               ((0 <=? Math_max [1; x]) = true /\ (1 <=? Math_max [1; x]) = true)).
  { unfold Math_max. cbn [List.fold_left].
    replace (max2 neg_infinity 1) with 1 by (vm_compute; reflexivity).
    unfold max2. replace (is_nan 1) with false by reflexivity. cbn [orb].
    destruct (is_nan x) eqn:Hn; [left; split; reflexivity|]. right.
    destruct (1 <? x) eqn:H1; [apply one_lt_le, H1|].
    destruct (x <? 1); [split; reflexivity|].
    replace (is_neg_zero 1) with false by reflexivity. split; reflexivity. }
  generalize dependent (Math_max [1; x]). intros T HT. cbv zeta.
  generalize (Math_max [0; followerCount - T * perDay]). intros startCount.
  generalize ((followerCount - startCount) / T). intros increment.
  destruct HT as [[-> Hn] | [H0 H1]].
  - destruct fuel as [|fuel]; cbn [buildLoop]; [discriminate|].
    change (0 <=? nan) with false. cbv iota.
    intros E. injection E as <-. left. split; [reflexivity | exact Hn].
  - right. revert H.
    destruct fuel as [|fuel]; cbn [buildLoop]; [discriminate|].
    rewrite H0. cbv zeta.
    destruct (toISOString _) as [iso0|]; [|discriminate].
    change (0 + 1) with 1.
    destruct fuel as [|fuel]; cbn [buildLoop]; [discriminate|].
    rewrite H1. cbv zeta.
    destruct (toISOString _) as [iso1|]; [|discriminate].
    destruct (buildLoop _ _ _ _ _ _) as [rest| |]; try discriminate.
    intros E. injection E as <-. cbn [List.length]. lia.
Qed.

(** X18: the sample posts of the fallback are five and carry the five
    sample titles in order; no title is long enough to be truncated, so
    in every finished report of them, whatever the history, the title
    column of page 4 shows the five titles unchanged. *)
Theorem X18_sample_posts_render {host : Host} (k : nat)
        (history : list FollowerSample) (o : ReportOptions) :
  let posts := generateTopPosts random k in
  List.map title posts = List.map Some sampleTitles /\
  List.map truncated sampleTitles = sampleTitles /\
  forall doc,
    generateReport (mkMetrics history posts) o = Ok doc ->
    titleColumn (List.nth 3 doc []) = lit "Title" :: sampleTitles.
Proof.
  intros posts.
  assert (Ht : List.map title posts = List.map Some sampleTitles) by reflexivity.
  assert (Htr : List.map truncated sampleTitles = sampleTitles)
    by (vm_compute; reflexivity).
  split; [exact Ht|]. split; [exact Htr|].
  intros doc E.
  destruct (generateReport_pages _ _ E) as (d4 & E4 & ->).
  cbn [List.nth]. unfold page4 in E4.
  destruct (drawRows_titleColumn _ _ E4) as (titles & Ets & Ec).
  rewrite Ec, header_titleColumn. cbn [topPosts] in Ets. rewrite Ht in Ets.
  assert (Heq : titles = sampleTitles).
  { clear -Ets. revert Ets. generalize sampleTitles.
    induction titles as [|t ts IH]; intros [|s ss] H; try discriminate H.
    - reflexivity.
    - cbn [List.map] in H. injection H as -> H. f_equal. apply IH.
      exact H. }
  rewrite Heq, Htr. reflexivity.
Qed.

End HistoryProperties.

Lemma X16_invalid_date_gives_empty_history_witness :
  buildFollowerHistory isoOfAny 50 1 1000 nan (3 * msPerDay) = Returned [] /\
  generateFollowerHistory isoOfAny randomHalf 1 nan (3 * msPerDay) 0
  = Returned ([], 0%nat).
Proof.
  apply (@X16_invalid_date_gives_empty_history isoOfAny randomHalf 50 1000 nan
                                              (3 * msPerDay) 0 0).
  left. reflexivity.
Defined.

Lemma X17_built_history_size_witness :
  ([sample 850; sample 900; sample 950; sample 1000] = [] /\
   is_nan (Math_ceil ((3 * msPerDay - 0) / msPerDay)) = true)
  \/ (2 <= List.length [sample 850%float; sample 900%float; sample 950%float;
                         sample 1000%float])%nat.
Proof.
  apply (@X17_built_history_size isoWitness 50 1000 0 (3 * msPerDay) 10).
  vm_compute. reflexivity.
Defined.

(** ** What the integrations return *)

Lemma periodDays_cases (startTime endTime : number) :
  (periodDays startTime endTime = nan /\
   is_nan (Math_ceil ((endTime - startTime) / msPerDay)) = true) \/
  ((0 <=? periodDays startTime endTime) = true /\
   (1 <=? periodDays startTime endTime) = true).
Proof.
  unfold periodDays. set (x := Math_ceil ((endTime - startTime) / msPerDay)).
  unfold Math_max. cbn [List.fold_left].
  replace (max2 neg_infinity 1) with 1 by (vm_compute; reflexivity).
  unfold max2. replace (is_nan 1) with false by reflexivity. cbn [orb].
  destruct (is_nan x) eqn:Hn; [left; split; reflexivity|]. right.
  destruct (1 <? x) eqn:H1; [apply one_lt_le, H1|].
  destruct (x <? 1); [split; reflexivity|].
  replace (is_neg_zero 1) with false by reflexivity. split; reflexivity.
Qed.

Section LoopSizes.

Variable toISOString : number -> option jsstring.
Variable random : nat -> number.

Lemma buildLoop_two fuel T startCount increment startTime history :
  (0 <=? T) = true -> (1 <=? T) = true ->
  buildLoop toISOString fuel 0 T startCount increment startTime = Returned history ->
  (2 <= List.length history)%nat.
Proof.
  intros H0 H1.
  destruct fuel as [|fuel]; cbn [buildLoop]; [discriminate|].
  rewrite H0. cbv zeta.
  destruct (toISOString _) as [iso0|]; [|discriminate].
  change (0 + 1) with 1.
  destruct fuel as [|fuel]; cbn [buildLoop]; [discriminate|].
  rewrite H1. cbv zeta.
  destruct (toISOString _) as [iso1|]; [|discriminate].
  destruct (buildLoop _ _ _ _ _ _ _) as [rest| |]; try discriminate.
  intros E. injection E as <-. cbn [List.length]. lia.
Qed.

Lemma buildFollowerHistory_size perDay fuel followerCount startTime endTime history :
  buildFollowerHistory toISOString perDay fuel followerCount startTime endTime
  = Returned history ->
  (history = [] /\ is_nan (Math_ceil ((endTime - startTime) / msPerDay)) = true)
  \/ (2 <= List.length history)%nat.
Proof.
  unfold buildFollowerHistory. fold (periodDays startTime endTime).
  destruct (periodDays_cases startTime endTime) as [[-> Hn] | [H0 H1]]; cbv zeta.
  - destruct fuel as [|fuel]; cbn [buildLoop]; [discriminate|].
    change (0 <=? nan) with false. cbv iota.
    intros E. injection E as <-. left. split; [reflexivity | exact Hn].
  - intros E. right. exact (buildLoop_two _ _ _ _ H0 H1 E).
Qed.

Lemma driftLoop_two span low fuel T current startTime k history k' :
  (0 <=? T) = true -> (1 <=? T) = true ->
  driftLoop toISOString random span low fuel 0 T current startTime k
  = (Returned history, k') ->
  (2 <= List.length history)%nat.
Proof.
  intros H0 H1.
  destruct fuel as [|fuel]; cbn [driftLoop]; [discriminate|].
  rewrite H0. cbv zeta.
  destruct (toISOString _) as [iso0|]; [|discriminate].
  change (0 + 1) with 1.
  destruct fuel as [|fuel]; cbn [driftLoop]; [discriminate|].
  rewrite H1. cbv zeta.
  destruct (toISOString _) as [iso1|]; [|discriminate].
  destruct (driftLoop _ _ _ _ _ _ _ _ _ _) as [[rest| |] k2]; try discriminate.
  intros E. injection E as <- _. cbn [List.length]. lia.
Qed.

Lemma driftLoop_size span low fuel startTime endTime current k history k' :
  driftLoop toISOString random span low fuel 0 (periodDays startTime endTime)
            current startTime k = (Returned history, k') ->
  (history = [] /\ is_nan (Math_ceil ((endTime - startTime) / msPerDay)) = true)
  \/ (2 <= List.length history)%nat.
Proof.
  destruct (periodDays_cases startTime endTime) as [[-> Hn] | [H0 H1]].
  - destruct fuel as [|fuel]; cbn [driftLoop]; [discriminate|].
    change (0 <=? nan) with false. cbv iota.
    intros E. injection E as <- _. left. split; [reflexivity | exact Hn].
  - intros E. right. exact (driftLoop_two _ _ _ _ _ _ H0 H1 E).
Qed.

Lemma randomPosts_titles a b c d titles :
  forall k,
    List.map title (randomPosts random a b c d titles k) = List.map Some titles.
Proof.
  induction titles as [|t rest IH]; intros k; cbn [randomPosts List.map];
    [reflexivity|]. cbn [title]. rewrite IH. reflexivity.
Qed.

End LoopSizes.

Lemma titles_firstn (posts : list PostSample) (titles : list jsstring) (n : nat) :
  List.map title posts = List.map Some titles ->
  List.map title (List.firstn n posts) = List.map Some (List.firstn n titles).
Proof.
  intros H. rewrite <- !firstn_map, H. reflexivity.
Qed.

Lemma titled_posts (posts : list PostSample) (titles : list jsstring) :
  List.map title posts = List.map Some titles -> List.Forall has_title posts.
Proof.
  revert titles. induction posts as [|p rest IH]; intros [|t ts] H;
    try discriminate H; constructor.
  - cbn [List.map] in H. injection H as Hp _. unfold has_title. congruence.
  - cbn [List.map] in H. injection H as _ Hr. exact (IH _ Hr).
Qed.

Section EntryPointProperties.

Context {host : Host}.

Variable pathnameOf : jsstring -> option jsstring.
Variable toISOString : number -> option jsstring.
Variable random : nat -> number.
Variable parseDate : jsstring -> number.
Variable now : number.
Variable sortWith :
  (PostSample -> PostSample -> number) -> list PostSample -> list PostSample.
Variable fetchFollowerCount : jsstring -> option (option number).
Variable fetchProfile : jsstring -> option InstagramUser.

Hypothesis sortWith_permutes :
  forall cmp l, Permutation l (sortWith cmp l).

Lemma tiktokCatch_shape fuel startTime endTime k m :
  fst (tiktokCatch toISOString random fuel startTime endTime k) = Returned m ->
  List.map title (topPosts m) = List.map Some (List.firstn 3 tiktokTitles) /\
  ((followerHistory m = [] /\
    is_nan (Math_ceil ((endTime - startTime) / msPerDay)) = true)
   \/ (2 <= List.length (followerHistory m))%nat).
Proof.
  unfold tiktokCatch.
  destruct (driftLoop _ _ _ _ _ _ _ _ _ _) as [[history| |] k'] eqn:E;
    try discriminate.
  cbn [fst]. intros Em. injection Em as <-. cbn [topPosts followerHistory]. split.
  - reflexivity.
  - exact (driftLoop_size _ _ _ _ _ _ _ _ _ E).
Qed.

Lemma tiktokTry_shape fuel followerCount startTime endTime k m k' :
  tiktokTry toISOString random fuel followerCount startTime endTime k
  = (Returned m, k') ->
  List.map title (topPosts m) = List.map Some (List.firstn 3 tiktokTitles) /\
  ((followerHistory m = [] /\
    is_nan (Math_ceil ((endTime - startTime) / msPerDay)) = true)
   \/ (2 <= List.length (followerHistory m))%nat).
Proof.
  unfold tiktokTry.
  destruct (match followerCount with Some n => _ | None => _ end)
    as [history| |] eqn:Eh; try discriminate.
  cbv zeta.
  destruct (List.length history =? 0)%nat eqn:Hlen.
  - destruct (driftLoop _ _ _ _ _ _ _ _ _ _) as [[fallback| |] k2] eqn:E;
      try discriminate.
    intros Em. injection Em as <- _. cbn [topPosts followerHistory]. split.
    + reflexivity.
    + apply Nat.eqb_eq in Hlen. rewrite Hlen. cbn [Nat.ltb Nat.leb].
      exact (driftLoop_size _ _ _ _ _ _ _ _ _ E).
  - intros Em. injection Em as <- _. cbn [topPosts followerHistory]. split.
    + reflexivity.
    + apply Nat.eqb_neq in Hlen.
      destruct (Nat.ltb_spec 0 (List.length history)) as [_|H0]; [|lia].
      destruct followerCount as [n|].
      * destruct (buildFollowerHistory_size _ _ _ _ _ _ Eh) as [[-> _]|H2];
          [contradiction Hlen; reflexivity | right; exact H2].
      * injection Eh as <-. contradiction Hlen. reflexivity.
Qed.

Lemma getTikTokMetrics_shape fuel k profileUrl since until m :
  fst (getTikTokMetrics pathnameOf toISOString random parseDate now
                        fetchFollowerCount fuel profileUrl since until k)
  = Returned m ->
  let endTime := endOf parseDate now until in
  let startTime := startOf parseDate since endTime in
  List.map title (topPosts m) = List.map Some (List.firstn 3 tiktokTitles) /\
  ((followerHistory m = [] /\
    is_nan (Math_ceil ((endTime - startTime) / msPerDay)) = true)
   \/ (2 <= List.length (followerHistory m))%nat).
Proof.
  intros E endTime startTime.
  unfold getTikTokMetrics in E. cbv zeta in E.
  fold endTime in E. fold startTime in E.
  destruct (match parseTikTokUsername pathnameOf profileUrl with
            | Some (c :: u) => _ | _ => _ end) as [attempt k'] eqn:Ea.
  destruct attempt as [m'|what|]; [|exact (tiktokCatch_shape _ _ _ _ E)|discriminate E].
  cbn [fst] in E. injection E as ->.
  destruct (parseTikTokUsername pathnameOf profileUrl) as [[|c u]|];
    try discriminate Ea.
  destruct (fetchFollowerCount (c :: u)) as [followerCount|]; [|discriminate Ea].
  exact (tiktokTry_shape _ _ _ _ _ Ea).
Qed.

(** X19: whenever [getTikTokMetrics] returns, by the scraped count or by
    any of its fallbacks, the bundle has three posts named by the first
    three sample titles, and its history is empty or has at least two
    samples, empty only for a period of [NaN] days. *)
Theorem X19_tiktok_metrics_shape (fuel k : nat) (profileUrl : jsstring)
        (since until : option jsstring) (m : MetricsBundle) :
  fst (getTikTokMetrics pathnameOf toISOString random parseDate now
                        fetchFollowerCount fuel profileUrl since until k)
  = Returned m ->
  let endTime := endOf parseDate now until in
  let startTime := startOf parseDate since endTime in
  List.map title (topPosts m) = List.map Some (List.firstn 3 tiktokTitles) /\
  ((followerHistory m = [] /\
    is_nan (Math_ceil ((endTime - startTime) / msPerDay)) = true)
   \/ (2 <= List.length (followerHistory m))%nat).
Proof.
  intros E endTime startTime.
  exact (getTikTokMetrics_shape _ _ _ _ _ E).
Qed.

(** X20: when the profile URL names a user, the page shows a follower
    count and [buildFollowerHistory] returns a history that is not empty,
    [getTikTokMetrics] returns this very history: the synthetic series is
    not mixed in. *)
Theorem X20_tiktok_uses_scraped_count (fuel k : nat) (profileUrl : jsstring)
        (since until : option jsstring) (c : code_unit) (u : jsstring)
        (followerCount : number) (history : list FollowerSample) :
  let endTime := endOf parseDate now until in
  let startTime := startOf parseDate since endTime in
  parseTikTokUsername pathnameOf profileUrl = Some (c :: u) ->
  fetchFollowerCount (c :: u) = Some (Some followerCount) ->
  buildFollowerHistory toISOString 50 fuel followerCount startTime endTime
  = Returned history ->
  history <> [] ->
  exists posts,
    fst (getTikTokMetrics pathnameOf toISOString random parseDate now
                          fetchFollowerCount fuel profileUrl since until k)
    = Returned (mkMetrics history posts).
Proof.
  intros endTime startTime Hu Hf Hb Hne.
  unfold getTikTokMetrics. cbv zeta. fold endTime. fold startTime.
  rewrite Hu, Hf. unfold tiktokTry. rewrite Hb. cbv zeta.
  destruct history as [|item rest]; [congruence|].
  cbn [List.length Nat.eqb Nat.ltb Nat.leb]. eexists. reflexivity.
Qed.

Lemma instagramCatch_shape fuel startTime endTime k m :
  fst (instagramCatch toISOString random fuel startTime endTime k) = Returned m ->
  List.Forall has_title (topPosts m) /\ (List.length (topPosts m) <= 3)%nat.
Proof.
  unfold instagramCatch.
  destruct (driftLoop _ _ _ _ _ _ _ _ _ _) as [[history| |] k'] eqn:E;
    try discriminate.
  cbn [fst]. intros Em. injection Em as <-. cbn [topPosts]. split.
  - apply (titled_posts _ (List.firstn 3 sampleTitles)). reflexivity.
  - cbn [List.length]. lia.
Qed.

Lemma getInstagramMetrics_shape fuel k profileUrl since until m :
  fst (getInstagramMetrics pathnameOf toISOString random parseDate now sortWith
                           fetchProfile fuel profileUrl since until k)
  = Returned m ->
  List.Forall has_title (topPosts m) /\ (List.length (topPosts m) <= 3)%nat.
Proof.
  intros E. unfold getInstagramMetrics in E. cbv zeta in E.
  destruct (match parseInstagramUsername pathnameOf profileUrl with
            | Some (c :: u) => _ | _ => _ end) as [m'|what|] eqn:Ea;
    [|exact (instagramCatch_shape _ _ _ _ E)|discriminate E].
  cbn [fst] in E. injection E as ->.
  destruct (parseInstagramUsername pathnameOf profileUrl) as [[|c u]|];
    try discriminate Ea.
  destruct (fetchProfile (c :: u)) as [user|]; [|discriminate Ea].
  unfold instagramTry in Ea. cbv zeta in Ea.
  destruct (match followed_by_count user with Some n => _ | None => _ end)
    as [history| |]; try discriminate Ea.
  injection Ea as <-. cbn [topPosts]. unfold instagramTopPosts. split.
  - apply Forall_forall. intros p Hp. apply firstn_In_list in Hp.
    apply (Permutation_in _ (Permutation_sym (sortWith_permutes _ _))) in Hp.
    apply in_map_iff in Hp. destruct Hp as (node & <- & _).
    unfold has_title, postOfNode. cbv zeta. cbn [title]. discriminate.
  - rewrite length_firstn. lia.
Qed.

(** X21: whenever [getInstagramMetrics] returns, from the profile or from
    its fallback, the bundle has at most three posts, each with a title;
    and for a profile without follower count it returns the feed's posts
    with an empty history: here no synthetic series stands in. *)
Theorem X21_instagram_metrics_shape (fuel k : nat) (profileUrl : jsstring)
        (since until : option jsstring) :
  (forall m,
     fst (getInstagramMetrics pathnameOf toISOString random parseDate now sortWith
                              fetchProfile fuel profileUrl since until k)
     = Returned m ->
     (List.length (topPosts m) <= 3)%nat /\
     List.Forall has_title (topPosts m)) /\
  (forall c u edges,
     parseInstagramUsername pathnameOf profileUrl = Some (c :: u) ->
     fetchProfile (c :: u) = Some (mkUser None edges) ->
     getInstagramMetrics pathnameOf toISOString random parseDate now sortWith
                         fetchProfile fuel profileUrl since until k
     = (Returned (mkMetrics [] (instagramTopPosts sortWith edges)), k)).
Proof.
  split.
  - intros m E. destruct (getInstagramMetrics_shape _ _ _ _ _ E) as [Ht Hl].
    split; [exact Hl | exact Ht].
  - intros c u edges Hu Hf. unfold getInstagramMetrics. cbv zeta.
    rewrite Hu, Hf. reflexivity.
Qed.

End EntryPointProperties.

Lemma X19_tiktok_metrics_shape_witness :
  let m := returnedOr tiktokRun (mkMetrics [] []) in
  let endTime := endOf sampleParseDate sampleNow None in
  let startTime := startOf sampleParseDate None endTime in
  List.map title (topPosts m) = List.map Some (List.firstn 3 tiktokTitles) /\
  ((followerHistory m = [] /\
    is_nan (Math_ceil ((endTime - startTime) / msPerDay)) = true)
   \/ (2 <= List.length (followerHistory m))%nat).
Proof.
  apply (@X19_tiktok_metrics_shape pathOnly isoOfAny randomHalf
           sampleParseDate sampleNow sampleFetchCount 40 0 (lit "/@acme")
           None None).
  vm_compute. reflexivity.
Defined.

Lemma X20_tiktok_uses_scraped_count_witness :
  exists posts,
    tiktokRun =
    Returned (mkMetrics
                (returnedOr
                   (buildFollowerHistory isoOfAny 50 40 1000
                      (startOf sampleParseDate None (endOf sampleParseDate sampleNow None))
                      (endOf sampleParseDate sampleNow None)) [])
                posts).
Proof.
  apply (@X20_tiktok_uses_scraped_count pathOnly isoOfAny randomHalf
           sampleParseDate sampleNow sampleFetchCount 40 0 (lit "/@acme")
           None None 97%N (lit "cme") 1000).
  - reflexivity.
  - reflexivity.
  - vm_compute. reflexivity.
  - vm_compute. discriminate.
Defined.

Lemma X21_instagram_metrics_shape_witness :
  getInstagramMetrics pathOnly isoOfAny randomHalf sampleParseDate sampleNow
                      insertionSort sampleFetchProfile 40 (lit "/acme/") None None 0
  = (Returned (mkMetrics [] (instagramTopPosts insertionSort sampleFeed)), 0%nat).
Proof.
  apply (proj2 (@X21_instagram_metrics_shape pathOnly isoOfAny randomHalf
                  sampleParseDate sampleNow insertionSort sampleFetchProfile
                  insertionSort_permutes 40 0 (lit "/acme/") None None)
               97%N (lit "cme") sampleFeed).
  - reflexivity.
  - reflexivity.
Defined.

(** ** The metrics service and the handler *)

Section ServiceProperties.

Context {host : Host}.

Variable pathnameOf : jsstring -> option jsstring.
Variable toISOString : number -> option jsstring.
Variable random : nat -> number.
Variable parseDate : jsstring -> number.
Variable now : number.
Variable sortWith :
  (PostSample -> PostSample -> number) -> list PostSample -> list PostSample.
Variable fetchFollowerCount : jsstring -> option (option number).
Variable fetchProfile : jsstring -> option InstagramUser.
Variable toLowerCase : jsstring -> jsstring.
Variable parseJSON : jsstring -> option (option Payload).

Hypothesis sortWith_permutes :
  forall cmp l, Permutation l (sortWith cmp l).

Lemma titled_report m o :
  List.Forall has_title (topPosts m) ->
  (exists doc, generateReport m o = Ok doc) <->
  List.forallb accepted (page (page1 m o)) = true /\
  List.forallb accepted (page (page2 m (page1 m o))) = true.
Proof.
  intros Ht. rewrite generateReport_ok_iff. split.
  - intros (_ & A). exact A.
  - intros A. split; [exact Ht | exact A].
Qed.

Lemma syntheticMetrics_titled fuel since until k m :
  syntheticMetrics toISOString random parseDate now fuel since until k = Returned m ->
  List.Forall has_title (topPosts m) /\ (List.length (topPosts m) <= 5)%nat.
Proof.
  unfold syntheticMetrics. cbv zeta.
  destruct (generateFollowerHistory _ _ _ _ _ _) as [[history k']| |];
    try discriminate.
  intros E. injection E as <-. cbn [topPosts]. split.
  - apply (titled_posts _ sampleTitles). reflexivity.
  - unfold generateTopPosts, sampleTitles. cbn [samplePosts List.length]. lia.
Qed.

Lemma fetchMetrics_titled fuel since until platform profileUrl k m :
  fetchMetrics pathnameOf toISOString random parseDate now sortWith
               fetchFollowerCount fetchProfile toLowerCase
               fuel since until platform profileUrl k = Returned m ->
  List.Forall has_title (topPosts m) /\ (List.length (topPosts m) <= 5)%nat.
Proof.
  unfold fetchMetrics. cbv zeta.
  destruct (match given platform with Some _ => _ | None => _ end)
    as [[[m'|what|] k']|] eqn:Ea; try discriminate.
  - intros E. injection E as ->.
    destruct (given platform) as [pf|]; [|discriminate Ea].
    destruct (given profileUrl) as [url|]; [|discriminate Ea].
    destruct (jsstring_eqb (toLowerCase pf) (lit "instagram")).
    + injection Ea as Ea. apply (f_equal fst) in Ea. cbn [fst] in Ea.
      assert (Hs : List.Forall has_title (topPosts m) /\
                   (List.length (topPosts m) <= 3)%nat)
        by (eapply getInstagramMetrics_shape;
            [exact sortWith_permutes | exact Ea]).
      destruct Hs as [Ht Hl]. split; [exact Ht | lia].
    + destruct (jsstring_eqb (toLowerCase pf) (lit "tiktok")); [|discriminate Ea].
      injection Ea as Ea. apply (f_equal fst) in Ea. cbn [fst] in Ea.
      assert (Ht : List.map title (topPosts m)
                   = List.map Some (List.firstn 3 tiktokTitles))
        by (eapply getTikTokMetrics_shape; exact Ea).
      split; [exact (titled_posts _ _ Ht)|].
      rewrite <- (length_map title), Ht, length_map.
      unfold tiktokTitles. cbn [List.firstn List.length]. lia.
  - apply syntheticMetrics_titled.
  - apply syntheticMetrics_titled.
Qed.

(** X22: whatever source [fetchMetrics] ends up with (Instagram, TikTok,
    their fallbacks or its own synthetic data), a bundle it returns has at
    most five posts, each with a title; so its report never fails at the
    table of page 4: [generateReport] returns it exactly when PDFKit
    accepts the calls of pages 1 and 2, where the charts are. *)
Theorem X22_fetched_metrics_render (fuel k : nat)
        (since until platform profileUrl : option jsstring)
        (o : ReportOptions) (m : MetricsBundle) :
  fetchMetrics pathnameOf toISOString random parseDate now sortWith
               fetchFollowerCount fetchProfile toLowerCase
               fuel since until platform profileUrl k = Returned m ->
  (List.length (topPosts m) <= 5)%nat /\
  List.Forall has_title (topPosts m) /\
  ((exists doc, generateReport m o = Ok doc) <->
   List.forallb accepted (page (page1 m o)) = true /\
   List.forallb accepted (page (page2 m (page1 m o))) = true).
Proof.
  intros E. destruct (fetchMetrics_titled _ _ _ _ _ _ E) as [Ht Hl].
  split; [exact Hl|]. split; [exact Ht|].
  apply titled_report. exact Ht.
Qed.

(** X23: without a platform, without a profile URL, or with a platform
    that is neither [instagram] nor [tiktok] in lower case, [fetchMetrics]
    is the synthetic fallback and asks no integration. *)
Theorem X23_fetch_falls_back (fuel k : nat)
        (since until platform profileUrl : option jsstring) :
  given platform = None \/ given profileUrl = None \/
  (exists pf, given platform = Some pf /\
              jsstring_eqb (toLowerCase pf) (lit "instagram") = false /\
              jsstring_eqb (toLowerCase pf) (lit "tiktok") = false) ->
  fetchMetrics pathnameOf toISOString random parseDate now sortWith
               fetchFollowerCount fetchProfile toLowerCase
               fuel since until platform profileUrl k
  = syntheticMetrics toISOString random parseDate now fuel since until k.
Proof.
  unfold fetchMetrics. cbv zeta.
  intros [Hp | [Hu | (pf & Hp & Hi & Ht)]].
  - rewrite Hp. reflexivity.
  - rewrite Hu. destruct (given platform); reflexivity.
  - rewrite Hp, Hi, Ht. destruct (given profileUrl); reflexivity.
Qed.

(** X24: the handler answers 405 to every method but POST; an answer it
    returns is an error of status 405, 400 or 500 or the download, of
    status 200 and with the PDF headers, to a POST; and once the body
    parses and [fetchMetrics] returns, the answer is the download of the
    document [generateReport] returns and the 500 when it throws, which
    it does exactly when PDFKit rejects a call of page 1 or 2: the titles
    of a fetched bundle never turn it into a 500. *)
Theorem X24_handler_answers (fuel k : nat) (req : Request) :
  let answer :=
    handler pathnameOf toISOString random parseDate now sortWith
            fetchFollowerCount fetchProfile toLowerCase parseJSON fuel req k in
  (jsstring_eqb (method req) (lit "POST") = false ->
   answer = Returned (JsonError 405 (lit "Method Not Allowed"))) /\
  (forall r, answer = Returned r ->
     match r with
     | JsonError status _ => status = 405%nat \/ status = 400%nat \/ status = 500%nat
     | PdfDownload status headers pdf =>
         status = 200%nat /\ headers = pdfHeaders /\
         jsstring_eqb (method req) (lit "POST") = true
     end) /\
  (forall raw data m,
     jsstring_eqb (method req) (lit "POST") = true ->
     body req = Some raw ->
     parseJSON (str_or raw (lit "{}")) = Some (Some data) ->
     fetchMetrics pathnameOf toISOString random parseDate now sortWith
                  fetchFollowerCount fetchProfile toLowerCase
                  fuel (p_since data) (p_until data) (p_platform data)
                  (p_profileUrl data) k = Returned m ->
     let o := mkOptions (p_since data) (p_until data) in
     match generateReport m o with
     | Ok pdf => answer = Returned (PdfDownload 200 pdfHeaders pdf)
     | Throw _ => answer = Returned (JsonError 500 (lit "Failed to generate report"))
     end /\
     ((exists pdf, answer = Returned (PdfDownload 200 pdfHeaders pdf)) <->
      List.forallb accepted (page (page1 m o)) = true /\
      List.forallb accepted (page (page2 m (page1 m o))) = true)).
Proof.
  intros answer. subst answer. unfold handler. split; [|split].
  - intros Hm. rewrite Hm. reflexivity.
  - intros r. destruct (jsstring_eqb (method req) (lit "POST")); cbn [negb].
    + cbv zeta. destruct (body req) as [raw|].
      * destruct (parseJSON _) as [[data|]|].
        -- destruct (fetchMetrics _ _ _ _ _ _ _ _ _ _ _ _ _ _ _) as [m|what|] eqn:Em.
           ++ destruct (generateReport m _) as [pdf|e] eqn:Ed.
              ** intros E. injection E as <-. repeat split.
              ** intros E. injection E as <-. right. right. reflexivity.
           ++ intros E. injection E as <-. right. right. reflexivity.
           ++ discriminate.
        -- intros E. injection E as <-. right. right. reflexivity.
        -- intros E. injection E as <-. right. left. reflexivity.
      * intros E. injection E as <-. right. right. reflexivity.
    + intros E. injection E as <-. left. reflexivity.
  - intros raw data m Hm Hb Hj Hf. rewrite Hm. cbn [negb]. cbv zeta.
    rewrite Hb, Hj, Hf.
    destruct (fetchMetrics_titled _ _ _ _ _ _ Hf) as [Ht _].
    set (o := mkOptions (p_since data) (p_until data)).
    rewrite <- (@titled_report m o Ht).
    destruct (generateReport m o) as [doc|e]; split; try reflexivity.
    + split; [intros _; exists doc; reflexivity|].
      intros _. exists doc. reflexivity.
    + split; [intros [pdf E]; discriminate E | intros [doc E]; discriminate E].
Qed.

End ServiceProperties.

Lemma X22_fetched_metrics_render_witness :
  let m := returnedOr fallbackRun (mkMetrics [] []) in
  (List.length (topPosts m) <= 5)%nat /\
  List.Forall has_title (topPosts m) /\
  ((exists doc, @generateReport sampleHost m (mkOptions None None) = Ok doc) <->
   List.forallb accepted (page (@page1 sampleHost m (mkOptions None None))) = true /\
   List.forallb accepted
     (page (@page2 sampleHost m (@page1 sampleHost m (mkOptions None None)))) = true).
Proof.
  apply (@X22_fetched_metrics_render sampleHost pathOnly isoOfAny randomHalf
           sampleParseDate sampleNow insertionSort sampleFetchCount
           sampleFetchProfile sampleLower insertionSort_permutes
           40 0 None None None None (mkOptions None None)).
  vm_compute. reflexivity.
Defined.

Lemma X23_fetch_falls_back_witness :
  fetchMetrics pathOnly isoOfAny randomHalf sampleParseDate sampleNow insertionSort
               sampleFetchCount sampleFetchProfile sampleLower
               40 None None (Some (lit "facebook")) (Some (lit "/acme")) 0
  = syntheticMetrics isoOfAny randomHalf sampleParseDate sampleNow 40 None None 0.
Proof.
  apply (@X23_fetch_falls_back pathOnly isoOfAny randomHalf sampleParseDate
           sampleNow insertionSort sampleFetchCount sampleFetchProfile sampleLower
           40 0 None None (Some (lit "facebook")) (Some (lit "/acme"))).
  right. right. exists (lit "facebook"). repeat split; reflexivity.
Defined.

Lemma X24_handler_answers_witness :
  exists pdf,
    @handler sampleHost pathOnly isoOfAny randomHalf sampleParseDate sampleNow
             insertionSort sampleFetchCount sampleFetchProfile sampleLower
             sampleJSON 40 sampleRequest 0
    = Returned (PdfDownload 200 pdfHeaders pdf).
Proof.
  apply (proj2 (proj2
           (@X24_handler_answers sampleHost pathOnly isoOfAny randomHalf
              sampleParseDate sampleNow insertionSort sampleFetchCount
              sampleFetchProfile sampleLower sampleJSON insertionSort_permutes
              40 0 sampleRequest))
           []
           (mkPayload (Some (lit "tiktok")) (Some (lit "/@acme")) None None)
           (returnedOr tiktokServiceRun (mkMetrics [] []))).
  - reflexivity.
  - reflexivity.
  - reflexivity.
  - vm_compute. reflexivity.
  - split; vm_compute; reflexivity.
Defined.

Lemma X12_instagram_username_shape_witness :
  parseInstagramUsername pathOnly (lit "//") = None.
Proof.
  apply (proj2 (proj1 (@X12_instagram_username_shape pathOnly (lit "//")))).
  right. exists (lit "//"). split; reflexivity.
Defined.

Lemma X14_tiktok_username_witness :
  parseTikTokUsername pathOnly (lit "/@/") = Some [].
Proof.
  apply (proj2 (proj2 (proj2 (@X14_tiktok_username pathOnly (lit "/@/"))))).
  reflexivity.
Defined.


(** ** Histories that PDFKit rejects *)

Lemma div_nan_l (x : number) : nan / x = nan.
Proof.
  apply Prim2SF_inj. rewrite FloatAxioms.div_spec.
  replace (Prim2SF nan) with S754_nan by reflexivity. reflexivity.
Qed.

Lemma mul_nan_l (x : number) : nan * x = nan.
Proof.
  apply Prim2SF_inj. rewrite FloatAxioms.mul_spec.
  replace (Prim2SF nan) with S754_nan by reflexivity. reflexivity.
Qed.

Lemma min2_nan_l (b : number) : min2 nan b = nan.
Proof. reflexivity. Qed.

Lemma min2_nan_r (a : number) : min2 a nan = nan.
Proof.
  unfold min2. replace (is_nan nan) with true by reflexivity.
  rewrite orb_true_r. reflexivity.
Qed.

Lemma fold_min2_nan (l : list number) : List.fold_left min2 l nan = nan.
Proof.
  induction l as [|b l IH]; [reflexivity|].
  cbn [List.fold_left]. rewrite min2_nan_l. exact IH.
Qed.

Lemma Math_min_nan (l : list number) :
  (exists c, List.In c l /\ is_nan c = true) -> Math_min l = nan.
Proof.
  unfold Math_min. generalize infinity as acc.
  induction l as [|b l IH]; intros acc (c & Hin & Hc); [destruct Hin|].
  cbn [List.fold_left]. destruct Hin as [-> | Hin].
  - rewrite (is_nan_eq _ Hc), min2_nan_r. apply fold_min2_nan.
  - apply IH. exists c. split; assumption.
Qed.

Section RejectedHistories.

Context {host : Host}.

Lemma first_point_nan counts chartY a :
  Math_min counts = nan -> snd (linePoint counts chartY a 0) = nan.
Proof.
  intros H. unfold linePoint. cbn [snd].
  rewrite H, sub_nan_r, div_nan_l, mul_nan_l, sub_nan_r. reflexivity.
Qed.

Lemma plot_rejected counts chartY l d :
  Math_min counts = nan -> l <> [] ->
  List.forallb accepted (page (forEach (plotPoint counts chartY) l 0 d)) = false.
Proof.
  intros H Hl. destruct l as [|a l]; [congruence|].
  rewrite plot_all. unfold indexed_from.
  cbn [List.length List.seq List.combine List.map polyline fst snd].
  rewrite forallb_app. cbn [List.forallb].
  assert (R : accepted (OpMoveTo (fst (linePoint counts chartY a 0))
                                 (snd (linePoint counts chartY a 0))) = false).
  { unfold accepted. cbn [numbersOf List.forallb].
    rewrite (first_point_nan _ _ _ H).
    replace (supported nan) with false by reflexivity.
    rewrite andb_false_r. reflexivity. }
  rewrite R. rewrite andb_false_r. reflexivity.
Qed.

(** X25: a history of at least two samples one of whose counts is [NaN]
    is never rendered: the minimum of the counts is [NaN], so the first
    point of the growth chart has a [NaN] ordinate, PDFKit rejects the
    [moveTo] to it and [generateReport] throws PDFKit's [Error], whatever
    the posts and the options are. *)
Theorem X25_nan_count_is_rejected (m : MetricsBundle) (o : ReportOptions) :
  (2 <= List.length (followerHistory m))%nat ->
  (exists item, List.In item (followerHistory m) /\ is_nan (count item) = true) ->
  List.forallb accepted (page (page1 m o)) = false /\
  exists what, generateReport m o = Throw (Error what).
Proof.
  intros Hlen Hnan.
  assert (Hmin : Math_min (List.map count (followerHistory m)) = nan).
  { apply Math_min_nan. destruct Hnan as (item & Hin & Hc).
    exists (count item). split; [apply in_map; exact Hin | exact Hc]. }
  assert (A1 : List.forallb accepted (page (page1 m o)) = false).
  { unfold page1, drawGrowthChart.
    replace (1 <? List.length (followerHistory m))%nat with true
      by (symmetry; apply Nat.ltb_lt; lia).
    cbv zeta. cbn [page set_y emit].
    rewrite !forallb_app, (plot_rejected _ _ _ Hmin).
    - reflexivity.
    - intros E. rewrite E in Hlen. cbn [List.length] in Hlen. lia. }
  split; [exact A1|].
  unfold generateReport, pdfkit.
  destruct (rejected (List.concat (finish (page3 m (page2 m (page1 m o))))))
    as [n|] eqn:R.
  - cbn [bind]. eexists. reflexivity.
  - exfalso. apply rejected_none in R. rewrite finish_page3 in R.
    cbn [List.concat] in R. rewrite forallb_app, A1 in R. discriminate R.
Qed.

End RejectedHistories.

Lemma X25_nan_count_is_rejected_witness :
  exists what,
    @generateReport sampleHost (mkMetrics [sample 100; sample nan] [])
                    (mkOptions None None) = Throw (Error what).
Proof.
  apply (@X25_nan_count_is_rejected sampleHost
           (mkMetrics [sample 100; sample nan] []) (mkOptions None None)).
  - cbn. lia.
  - exists (sample nan). split; [right; left; reflexivity | reflexivity].
Defined.


(** ** Continuation pages *)

Section ContinuationPages.

Context {host : Host}.

Lemma framed_plain ops :
  List.forallb (fun op => negb (is_continuation op)) ops = true -> framed ops.
Proof.
  intros H a b E. exfalso. rewrite E, forallb_app in H.
  apply andb_prop in H. destruct H as [_ H]. discriminate H.
Qed.

Lemma framed_app l1 l2 : framed l1 -> framed l2 -> framed (l1 ++ l2).
Proof.
  intros H1 H2 a b E. apply app_eq_app in E. destruct E as (l & [[E1 E2] | [E1 E2]]).
  - destruct l as [|op l].
    + rewrite app_nil_l in E2. apply (H2 [] b). symmetry. exact E2.
    + cbn [List.app] in E2. injection E2 as <- E2.
      destruct (H1 a l E1) as [r Hr].
      exists (r ++ l2). rewrite E2, Hr, app_assoc. reflexivity.
  - apply (H2 l b). exact E2.
Qed.

Lemma framed_continuation k : framed (continuation k).
Proof.
  unfold continuation. induction k as [|k IH]; [apply framed_plain; reflexivity|].
  cbn [List.repeat List.concat]. apply framed_app; [|exact IH].
  intros a b E. destruct a as [|op a].
  - cbn [List.app] in E. injection E as <-. exists []. rewrite app_nil_r.
    reflexivity.
  - exfalso. cbn [List.app] in E. injection E as _ E.
    assert (F : List.forallb (fun op => negb (is_continuation op)) frameCalls = true)
      by reflexivity.
    rewrite E, forallb_app in F. apply andb_prop in F. destruct F as [_ F].
    discriminate F.
Qed.

Lemma grows_refl d : grows d d.
Proof.
  split; [reflexivity|]. exists []. rewrite app_nil_r.
  split; [reflexivity | apply framed_plain; reflexivity].
Qed.

Lemma grows_trans d1 d2 d3 : grows d1 d2 -> grows d2 d3 -> grows d1 d3.
Proof.
  intros [D12 (o12 & E12 & F12)] [D23 (o23 & E23 & F23)]. split; [congruence|].
  exists (o12 ++ o23). rewrite E23, E12, app_assoc.
  split; [reflexivity | apply framed_app; assumption].
Qed.

Lemma grows_emit op d : is_continuation op = false -> grows d (emit op d).
Proof.
  intros H. split; [reflexivity|]. exists [op]. split; [reflexivity|].
  apply framed_plain. cbn. rewrite H. reflexivity.
Qed.

Lemma grows_text s pos o d : grows d (text s pos o d).
Proof.
  split; [apply done_text|].
  exists ([OpText s pos o] ++ continuation (pageBreaks d s pos o)).
  split; [apply page_text|].
  apply framed_app; [apply framed_plain; reflexivity | apply framed_continuation].
Qed.

Lemma grows_moveDown n d : grows d (moveDown n d).
Proof.
  split; [reflexivity|]. exists [OpMoveDown n]. split; [reflexivity|].
  apply framed_plain. reflexivity.
Qed.

Lemma grows_set_x x d : grows d (set_x x d).
Proof. split; [reflexivity|]. destruct (grows_refl d) as [_ H]. exact H. Qed.

Lemma grows_set_y y d : grows d (set_y y d).
Proof. split; [reflexivity|]. destruct (grows_refl d) as [_ H]. exact H. Qed.

Lemma grows_forEach {A : Type} (f : A -> nat -> Doc -> Doc) (l : list A) :
  (forall a i d, grows d (f a i d)) ->
  forall i d, grows d (forEach f l i d).
Proof.
  intros Hf. induction l as [|a l IH]; intros i d; cbn [forEach].
  - apply grows_refl.
  - eapply grows_trans; [apply Hf | apply IH].
Qed.

Lemma grows_framed d d' : grows d d' -> framed (page d) -> framed (page d').
Proof. intros [_ (ops & -> & F)] H. apply framed_app; assumption. Qed.

End ContinuationPages.

Ltac grows_step :=
  lazymatch goal with
  | |- grows ?d ?d => apply grows_refl
  | |- grows _ (emit _ _) =>
      eapply grows_trans; [ | solve [apply grows_emit; reflexivity] ]
  | |- grows _ (text _ _ _ _) => eapply grows_trans; [ | apply grows_text ]
  | |- grows _ (moveDown _ _) => eapply grows_trans; [ | apply grows_moveDown ]
  | |- grows _ (set_x _ _) => eapply grows_trans; [ | apply grows_set_x ]
  | |- grows _ (set_y _ _) => eapply grows_trans; [ | apply grows_set_y ]
  | |- grows _ (forEach _ _ _ _) =>
      eapply grows_trans; [ | apply grows_forEach; intros; cbv beta ]
  | |- grows _ (cell _ _ _ _) => unfold cell
  | |- grows _ (if ?b then _ else _) => destruct b
  | |- grows _ (let (_, _) := ?p in _) => destruct p
  | |- grows _ (match ?n with O => _ | S _ => _ end) => destruct n
  end.

Ltac grows_auto := cbv zeta; repeat grows_step.

Section FramedPages.

Context {host : Host}.

Lemma frame_framed : framed frameCalls.
Proof. apply framed_plain. reflexivity. Qed.

Lemma page1_grows m o :
  grows (drawBackgroundAndCard (emit (OpFont (lit "Helvetica")) newDocument))
        (page1 m o).
Proof.
  unfold page1, summaryPage, drawGrowthChart, drawAxes, drawChartHeading,
    plotPoint, drawSummary, drawHeader.
  grows_auto.
Qed.

Lemma page2_grows m d : grows (addPage d) (page2 m d).
Proof. unfold page2, drawBarChart, drawBars, drawHistoryTable, historyRow. grows_auto. Qed.

Lemma page3_grows m d : grows (addPage d) (page3 m d).
Proof. unfold page3, drawRecommendations, drawTakeaways. grows_auto. Qed.

Lemma drawRows_grows posts :
  forall d d', drawRows posts d = Ok d' -> grows d d'.
Proof.
  induction posts as [|post rest IH]; intros d d'; cbn [drawRows].
  - intros E. injection E as <-. apply grows_refl.
  - unfold drawRow at 1. destruct (title post) as [t|]; [|discriminate].
    cbn [bind]. intros E. eapply grows_trans; [|apply (IH _ _ E)].
    grows_auto.
Qed.

Lemma page4_grows m d d4 : page4 m d = Ok d4 -> grows (addPage d) d4.
Proof.
  unfold page4. intros E.
  eapply grows_trans; [|apply (drawRows_grows _ _ E)].
  unfold drawTableHeader. grows_auto.
Qed.

(** X26: in a finished report every continuation page, wherever a text
    has run over, starts with the frame, like the pages the program
    opens: the [pageAdded] handler has drawn it before the text goes on. *)
Theorem X26_continuation_pages_framed (m : MetricsBundle) (o : ReportOptions)
        (doc : Document) :
  generateReport m o = Ok doc ->
  List.Forall framed doc.
Proof.
  intros E. destruct (generateReport_pages _ _ E) as (d4 & E4 & ->).
  repeat constructor.
  - apply (grows_framed (page1_grows m o)).
    rewrite frame_page. apply framed_plain. reflexivity.
  - apply (grows_framed (page2_grows m _)). apply frame_framed.
  - apply (grows_framed (page3_grows m _)). apply frame_framed.
  - apply (grows_framed (page4_grows _ _ E4)). apply frame_framed.
Qed.

End FramedPages.

Lemma X26_continuation_pages_framed_witness :
  List.Forall (@framed sampleHost) (reportOf sampleHost sixWeeks (mkOptions None None)) /\
  continuationPages (reportOf sampleHost sixWeeks (mkOptions None None)) = 5%nat.
Proof.
  split.
  - apply (@X26_continuation_pages_framed sampleHost sixWeeks (mkOptions None None)).
    vm_compute. reflexivity.
  - vm_compute. reflexivity.
Defined.
